(** * maptoposter: the rendering pipeline, embedded in Rocq

    A shallow embedding of the parts of the poster generator that its
    specification talks about:

    - [Py]          : exceptions, outcomes, truthiness, [max] and [min]
    - [PosterText]  : [is_latin_script]            (poster_text.py)
    - [PosterUtil]  : [get_edge_colors_by_type], [get_edge_widths_by_type],
                      [get_crop_limits], [create_gradient_fade]
                                                   (poster_util.py)
    - [World]       : what the pipeline talks to, and the log of a run
    - [FetchData]   : [fetch_graph], [fetch_features]   (fetch_data.py)
    - [Poster]      : [create_poster]              (map_to_poster_main.py)
    - [Spec]        : the words of the specification (style tables,
                      half-extents, viewports)
    - [Sample]      : a concrete world and a few requests to run
    - [Observe]     : what can be read off the log of a pipeline run
    - [Program]     : [get_coordinates]            (poster_util.py) and
                      the script below [if __name__ == "__main__":]
                                                   (map_to_poster_main.py)
    - [ScriptLog]   : what can be read off the log of the script
    - [Cases]       : more sample worlds: caches, geocoders, command lines

    The theorems follow the definitions, grouped by component: first
    those that settle the specification, then further properties of the
    same code, of [get_coordinates] and of the script.

    Conventions.

    - Python floats are idealised as exact rationals ([Q]); equalities
      between computed numbers are therefore stated with [==].
    - A Python [str] that holds free text (a city name) is a list of
      Unicode code points ([list N]); OSM tag keys and values, theme keys
      and messages are [string]s.
    - A dict is a [gmap]; [d[k]] raises [KeyError] on a missing key and
      [d.get(k)] answers [None].
    - Exceptions are values of [exn]; code that can raise lives in the
      [outcome] monad, code that also talks to the outside world (cache,
      OSM servers, console, matplotlib) lives in the writer monad [M],
      whose log records every such interaction in program order.
    - Everything the repository imports but does not define in the files
      above (the cache module, the theme and font loaders, OSMnx,
      matplotlib, asyncio, [str.isalpha], [str.upper]) is a parameter.
    - A division of Python numbers raises [ZeroDivisionError] when the
      divisor is zero; the quotient of the numpy floats of a figure
      size, in [get_crop_limits], does not raise.
    - A local name that is assigned again keeps its name here too: the
      railway loop of [create_poster] is given the value of [width] and
      answers with the value it leaves in it. *)

From Stdlib Require Import QArith Qabs Qminmax Lqa ZArith List Ascii String Bool Lia.
From stdpp Require Import base option list gmap strings sorting.

Open Scope string_scope.
Open Scope list_scope.
Open Scope Q_scope.

(* ===================================================================== *)
(** * Python values and control flow *)
(* ===================================================================== *)

Module Py.

(** A [str] of free text: its code points, [ord] of each character. *)
Definition text := list N.

(** The exception classes the pipeline meets.  All of them derive from
    [Exception], so [except Exception] catches every [exn]. *)
Inductive exn : Type :=
| KeyError (key : string)
| RuntimeError (msg : string)
| ValueError (msg : string)
| CacheError (msg : string)
| ZeroDivisionError
| OtherException (msg : string).

Inductive outcome (A : Type) : Type :=
| Returns (a : A)
| Raises (e : exn).
Arguments Returns {A} a.
Arguments Raises {A} e.

#[global] Instance outcome_ret : MRet outcome := fun A a => Returns a.

#[global] Instance outcome_bind : MBind outcome := fun A B k o =>
  match o with
  | Returns a => k a
  | Raises e => Raises e
  end.

(** [isinstance(e, CacheError)] on the modelled exceptions. *)
Definition is_CacheError (e : exn) : bool :=
  match e with CacheError _ => true | _ => false end.

(** Python's [a > b] on floats. *)
Definition Qgt_bool (a b : Q) : bool := negb (Qle_bool a b).

(** Python's [a / b] on floats: a zero divisor raises. *)
Definition py_div (a b : Q) : outcome Q :=
  if Qeq_bool b 0 then Raises ZeroDivisionError else Returns (a / b).

(** [max(a, b)]: the first argument unless the second is strictly larger. *)
Definition py_max (a b : Q) : Q := if Qgt_bool b a then b else a.

(** [min(a, b)]: the first argument unless the second is strictly smaller. *)
Definition py_min (a b : Q) : Q := if Qgt_bool a b then b else a.

(** [s in [x1, ..., xn]] on strings. *)
Definition str_in (s : string) (l : list string) : bool :=
  existsb (String.eqb s) l.

(** Truthiness of an optional string: [None] and the empty string are
    falsy. *)
Definition truthy_str (o : option string) : bool :=
  match o with
  | Some s => negb (String.eqb s EmptyString)
  | None => false
  end.

End Py.
Export Py.

(* ===================================================================== *)
(** * poster_text.py *)
(* ===================================================================== *)

Module PosterText.
Section WithUnicode.

(** [str.isalpha] of a single character, from the Unicode database. *)
Variable isalpha : N -> bool.

(** The loop of [is_latin_script], with its two counters threaded. *)
Fixpoint count_chars (text : Py.text) (latin_count total_alpha : Z) : Z * Z :=
  match text with
  | [] => (latin_count, total_alpha)
  | char :: rest =>
      if isalpha char then
        let total_alpha := (total_alpha + 1)%Z in
        if (char <? 0x250)%N
        then count_chars rest (latin_count + 1)%Z total_alpha
        else count_chars rest latin_count total_alpha
      else count_chars rest latin_count total_alpha
  end.

Definition is_latin_script (text : Py.text) : bool :=
  match text with
  | [] => true                                   (* if not text *)
  | _ =>
      let '(latin_count, total_alpha) := count_chars text 0%Z 0%Z in
      if (total_alpha =? 0)%Z then true
      else Qgt_bool (inject_Z latin_count / inject_Z total_alpha) 0.8
  end.

End WithUnicode.
End PosterText.

(* ===================================================================== *)
(** * poster_util.py *)
(* ===================================================================== *)

Module PosterUtil.

(** An OSM tag value as OSMnx hands it over: one string, or a list. *)
Inductive tag_value : Type :=
| TagStr (s : string)
| TagList (l : list string).

(** The attribute dict of an edge, a feature-query filter. *)
Abbreviation tags := (gmap string tag_value).

Definition color := string.
Abbreviation theme := (gmap string color).

(** A [MultiDiGraph]: the [crs] entry of its graph attributes, and its
    edges [(u, v, data)] in the order [g.edges(data=True)] yields them. *)
Record Graph : Type := {
  graph_crs : string;
  graph_edges : list (Z * Z * tags)
}.

(** A matplotlib figure, as far as [get_size_inches] shows it. *)
Record Figure : Type := {
  fig_width : Q;
  fig_height : Q
}.
Definition get_size_inches (fig : Figure) : Q * Q :=
  (fig_width fig, fig_height fig).

(** [railway = data.get("railway")], then the unwrapping of a list. *)
Definition railway_value (data : tags) : option string :=
  match data !! "railway" with
  | Some (TagList l) => match l with r :: _ => Some r | [] => None end
  | Some (TagStr s) => Some s
  | None => None
  end.

(** [highway = data.get("highway", "unclassified")], then the unwrapping. *)
Definition highway_value (data : tags) : string :=
  match data !! "highway" with
  | Some (TagList l) => match l with h :: _ => h | [] => "unclassified" end
  | Some (TagStr s) => s
  | None => "unclassified"
  end.

(** The key under which [get_edge_colors_by_type] reads [THEME]. *)
Definition rail_color_key (railway : string) : string :=
  if str_in railway ["rail"; "subway"] then "rail_heavy"
  else if str_in railway ["light_rail"; "tram"] then "rail_light"
  else if str_in railway ["narrow_gauge"; "funicular"; "monorail"] then "rail_special"
  else if str_in railway ["service"; "yard"; "siding"] then "rail_service"
  else "rail_default".

Definition highway_color_key (highway : string) : string :=
  if str_in highway ["motorway"; "motorway_link"] then "road_motorway"
  else if str_in highway ["trunk"; "trunk_link"; "primary"; "primary_link"] then "road_primary"
  else if str_in highway ["secondary"; "secondary_link"] then "road_secondary"
  else if str_in highway ["tertiary"; "tertiary_link"] then "road_tertiary"
  else if str_in highway ["residential"; "living_street"; "unclassified"] then "road_residential"
  else "road_default".

(** The body of the loop of [get_edge_colors_by_type]: [if railway:]
    holds for a non-empty string only, and [railway] is that string in
    the branch. *)
Definition edge_color_key (data : tags) : string :=
  let railway := railway_value data in
  if truthy_str railway
  then rail_color_key (default EmptyString railway)
  else highway_color_key (highway_value data).

Definition rail_width (railway : string) : Q :=
  if str_in railway ["rail"; "subway"] then 1.0
  else if str_in railway ["light_rail"; "tram"] then 0.8
  else if str_in railway ["narrow_gauge"; "funicular"; "monorail"] then 0.6
  else if str_in railway ["service"; "yard"; "siding"] then 0.4
  else 0.5.

Definition highway_width (highway : string) : Q :=
  if str_in highway ["motorway"; "motorway_link"] then 1.2
  else if str_in highway ["trunk"; "trunk_link"; "primary"; "primary_link"] then 1.0
  else if str_in highway ["secondary"; "secondary_link"] then 0.8
  else if str_in highway ["tertiary"; "tertiary_link"] then 0.6
  else 0.4.

(** The body of the loop of [get_edge_widths_by_type]. *)
Definition edge_width (data : tags) : Q :=
  let railway := railway_value data in
  if truthy_str railway
  then rail_width (default EmptyString railway)
  else highway_width (highway_value data).

Section WithTheme.

(** The module-level [THEME] that poster_util imports from [themes]. *)
Variable THEME : theme.

(** [THEME[key]]. *)
Definition theme_item (key : string) : outcome color :=
  match THEME !! key with
  | Some c => Returns c
  | None => Raises (KeyError key)
  end.

(** The [for] loop of [get_edge_colors_by_type]: one [append] per edge. *)
Fixpoint colors_loop (es : list (Z * Z * tags)) (edge_colors : list color)
  : outcome (list color) :=
  match es with
  | [] => Returns edge_colors
  | (_u, _v, data) :: rest =>
      color ← theme_item (edge_color_key data);
      colors_loop rest (edge_colors ++ [color])
  end.

Definition get_edge_colors_by_type (g : Graph) : outcome (list color) :=
  colors_loop (graph_edges g) [].

End WithTheme.

(** The [for] loop of [get_edge_widths_by_type]. *)
Fixpoint widths_loop (es : list (Z * Z * tags)) (edge_widths : list Q) : list Q :=
  match es with
  | [] => edge_widths
  | (_u, _v, data) :: rest => widths_loop rest (edge_widths ++ [edge_width data])
  end.

Definition get_edge_widths_by_type (g : Graph) : list Q :=
  widths_loop (graph_edges g) [].

Section WithProjection.

(** [ox.projection.project_geometry(Point(lon, lat), crs="EPSG:4326",
    to_crs=...)[0]], read back as [(x, y)]. *)
Variable project_geometry : Q * Q -> string -> Q * Q.

(** Figure sizes are positive in matplotlib, so [fig_width / fig_height]
    is a proper quotient; numpy would not raise on a zero height either. *)
Definition get_crop_limits (g_proj : Graph) (center_lat_lon : Q * Q)
    (fig : Figure) (dist : Q) : (Q * Q) * (Q * Q) :=
  let '(lat, lon) := center_lat_lon in
  let '(center_x, center_y) := project_geometry (lon, lat) (graph_crs g_proj) in
  let '(fig_width, fig_height) := get_size_inches fig in
  let aspect := fig_width / fig_height in
  let half_x := dist in
  let half_y := dist in
  let '(half_x, half_y) :=
    if Qgt_bool aspect 1
    then (half_x, half_x / aspect)         (* landscape: reduce height *)
    else (half_y * aspect, half_y) in      (* portrait: reduce width *)
  ((center_x - half_x, center_x + half_x),
   (center_y - half_y, center_y + half_y)).

End WithProjection.

(** [create_gradient_fade]: the band of the axes it covers (a quarter of
    the height, at the bottom or at the top) and the alpha ramp of its
    colormap, from the limits [ax.get_xlim()], [ax.get_ylim()]. *)
Record Fade : Type := {
  fade_color : color;
  fade_extent : Q * Q * Q * Q;        (* [xlim[0], xlim[1], y_bottom, y_top] *)
  fade_alpha : Q * Q;                 (* np.linspace(a, b, 256) *)
  fade_zorder : Q
}.

Definition create_gradient_fade (xlim ylim : Q * Q) (c : color)
    (location : string) (zorder : Q) : Fade :=
  let '(alpha, extent_y_start, extent_y_end) :=
    if String.eqb location "bottom"
    then ((1, 0), 0, 0.25)
    else ((0, 1), 0.75, 1.0) in
  let y_range := snd ylim - fst ylim in
  let y_bottom := fst ylim + y_range * extent_y_start in
  let y_top := fst ylim + y_range * extent_y_end in
  {| fade_color := c;
     fade_extent := (fst xlim, snd xlim, y_bottom, y_top);
     fade_alpha := alpha;
     fade_zorder := zorder |}.

End PosterUtil.

(* ===================================================================== *)
(** * The outside world: cache, OSM servers, console, matplotlib *)
(* ===================================================================== *)

Module World.
Import PosterUtil.

(** A cache key.  The source formats it into one string,
    [f"graph_{lat}_{lon}_{dist}"] and
    [f"{name}_{lat}_{lon}_{dist}_{tag_str}"]; the fields are kept apart. *)
Inductive cache_key : Type :=
| GraphKey (lat lon dist : Q)
| FeaturesKey (name : string) (lat lon dist : Q) (tag_str : string).

Inductive geom_type : Type :=
| Point | LineString | MultiLineString | Polygon | MultiPolygon.

(** A row of a [GeoDataFrame]: its geometry type and its [railway]
    column ([None] for NaN). *)
Record Feature : Type := {
  osmid : Z;
  geometry_type : geom_type;
  railway : option string
}.
Definition GeoDataFrame := list Feature.

(** [df.empty] *)
Definition empty (df : GeoDataFrame) : bool :=
  match df with [] => true | _ => false end.

(** [df[df.geometry.type.isin(kinds)]] *)
Definition of_type (kinds : geom_type -> bool) (df : GeoDataFrame) : GeoDataFrame :=
  List.filter (fun row => kinds (geometry_type row)) df.

Definition is_polygon (t : geom_type) : bool :=
  match t with Polygon | MultiPolygon => true | _ => false end.
Definition is_line (t : geom_type) : bool :=
  match t with LineString | MultiLineString => true | _ => false end.

(** [df.groupby("railway")]: rows without a value are dropped, groups
    come in ascending key order, rows keep their order within a group. *)
Fixpoint add_to_group (key : string) (row : Feature)
    (groups : list (string * GeoDataFrame)) : list (string * GeoDataFrame) :=
  match groups with
  | [] => [(key, [row])]
  | (k, rows) :: rest =>
      if String.eqb key k then (k, rows ++ [row]) :: rest
      else if String.ltb key k then (key, [row]) :: groups
      else (k, rows) :: add_to_group key row rest
  end.

Definition groupby_railway (df : GeoDataFrame) : list (string * GeoDataFrame) :=
  fold_left
    (fun groups row =>
       match railway row with
       | Some key => add_to_group key row groups
       | None => groups
       end)
    df [].

Record Fonts : Type := { bold : string; regular : string; light : string }.

Inductive font_face : Type :=
| FontFile (fname : string)
| FontFamily (family : string) (weight : option string).

Record FontProperties : Type := { face : font_face; size : Q }.

(** What a text artist shows.  The coordinate line is kept structured:
    the two numbers printed with four decimals and the two hemisphere
    letters. *)
Inductive label : Type :=
| Label (s : Py.text)
| Coords (lat : Q) (ns : string) (lon : Q) (ew : string)
| Attribution.

Inductive draw_command : Type :=
| Subplots (figsize : Q * Q) (facecolor : color)
| SetFacecolor (c : color)
| SetPosition
| PlotPolygons (polys : GeoDataFrame) (facecolor : color) (zorder : Q)
| PlotGraph (g : Graph) (bgcolor : color)
    (edge_color : list color) (edge_linewidth : list Q)
| PlotLines (group : GeoDataFrame) (c : option color) (zorder : Q)
| SetAspectEqual
| SetXlim (lim : Q * Q)
| SetYlim (lim : Q * Q)
| Imshow (fade : Fade)
| AxText (x y : Q) (s : label) (c : color) (alpha : option Q)
    (ha : string) (fontproperties : FontProperties)
| AxRule (linewidth : Q) (c : color)
| Savefig (output_file fmt : string) (dpi : option Z) (facecolor : color)
| Close.

Inductive message : Type :=
| MsgGenerating (city country : Py.text)
| MsgCachedNetwork
| MsgCached (name : string)
| MsgException (e : exn)
| MsgGraphError (e : exn)
| MsgFeaturesError (e : exn)
| MsgAllRetrieved
| MsgRoadHierarchy
| MsgSaving (output_file : string)
| MsgDone (output_file : string).

(** One interaction with the outside, as the log records it. *)
Inductive event : Type :=
| Print (msg : message)
| CacheGet (key : cache_key)
| CacheSet (key : cache_key)
| GraphFromPoint (point : Q * Q) (dist : Q)
| FeaturesFromPoint (point : Q * Q) (dist : Q) (filter : tags)
| Sleep (seconds : Q)
| Draw (cmd : draw_command).

(** Effectful code: the interactions so far, and how the run ended. *)
Definition M (A : Type) : Type := list event * outcome A.

#[global] Instance M_ret : MRet M := fun A a => ([], Returns a).

#[global] Instance M_bind : MBind M := fun A B k m =>
  match m with
  | (log, Returns a) => let '(log', r) := k a in (log ++ log', r)
  | (log, Raises e) => (log, Raises e)
  end.

Definition emit (ev : event) : M unit := ([ev], Returns tt).
Definition raise {A} (e : exn) : M A := ([], Raises e).
Definition lift {A} (o : outcome A) : M A := ([], o).

(** A call that leaves the process: logged, then answered by the world. *)
Definition call {A} (ev : event) (answer : outcome A) : M A := ([ev], answer).

(** [try: body / except <caught> as e: handler e] *)
Definition try_except {A} (body : M A) (caught : exn -> bool)
    (handler : exn -> M A) : M A :=
  match body with
  | (log, Raises e) =>
      if caught e then let '(log', r) := handler e in (log ++ log', r)
      else (log, Raises e)
  | (log, Returns a) => (log, Returns a)
  end.

(** [if c: body] *)
Definition when (c : bool) (body : M unit) : M unit :=
  if c then body else mret tt.

(** The collaborators behind [cache], [osmnx] and the module globals.
    Within one run every cache key is read before it is written, so the
    cache answers are functions of the key. *)
Record Services : Type := {
  cache_get_graph : cache_key -> outcome (option Graph);
  cache_set_graph : cache_key -> Graph -> outcome unit;
  cache_get_features : cache_key -> outcome (option GeoDataFrame);
  cache_set_features : cache_key -> GeoDataFrame -> outcome unit;
  normalize_tags : tags -> string;
  graph_from_point : Q * Q -> Q -> outcome Graph;
  features_from_point : Q * Q -> Q -> tags -> outcome GeoDataFrame
}.

End World.

(* ===================================================================== *)
(** * fetch_data.py *)
(* ===================================================================== *)

Module FetchData.
Import PosterUtil World.
Section WithServices.

Variable sv : Services.

Definition fetch_graph (point : Q * Q) (dist : Q) : M (option Graph) :=
  let '(lat, lon) := point in
  let graph := GraphKey lat lon dist in
  cached ← call (CacheGet graph) (cache_get_graph sv graph);
  match cached with
  | Some g =>
      _ ← emit (Print MsgCachedNetwork);
      mret (Some g)
  | None =>
      try_except
        (g ← call (GraphFromPoint point dist) (graph_from_point sv point dist);
         _ ← emit (Sleep 0.5);
         _ ← try_except
               (call (CacheSet graph) (cache_set_graph sv graph g))
               is_CacheError
               (fun e => emit (Print (MsgException e)));
         mret (Some g))
        (fun _ => true)
        (fun e => _ ← emit (Print (MsgGraphError e)); mret None)
  end.

Definition fetch_features (point : Q * Q) (dist : Q) (filter : tags)
    (name : string) : M (option GeoDataFrame) :=
  let '(lat, lon) := point in
  let tag_str := normalize_tags sv filter in
  let features := FeaturesKey name lat lon dist tag_str in
  cached ← call (CacheGet features) (cache_get_features sv features);
  match cached with
  | Some df =>
      _ ← emit (Print (MsgCached name));
      mret (Some df)
  | None =>
      try_except
        (data ← call (FeaturesFromPoint point dist filter)
                     (features_from_point sv point dist filter);
         _ ← emit (Sleep 0.3);
         _ ← try_except
               (call (CacheSet features) (cache_set_features sv features data))
               is_CacheError
               (fun e => emit (Print (MsgException e)));
         mret (Some data))
        (fun _ => true)
        (fun e => _ ← emit (Print (MsgFeaturesError e)); mret None)
  end.

End WithServices.
End FetchData.

(* ===================================================================== *)
(** * map_to_poster_main.py *)
(* ===================================================================== *)

Module Poster.
Import PosterUtil World FetchData.

(** What [create_poster] finds around it: the services, the two
    bindings of [THEME] (the global of the main module, which
    [create_poster] reads, and the one poster_util imported, which the
    edge classifier reads), the default fonts, and the library functions
    it calls.  [get_xlim lim] and [get_ylim lim] are what
    [ax.get_xlim()] and [ax.get_ylim()] answer once the limits have been
    set to [lim]: matplotlib hands back the limits it has kept, which
    need not be [lim] when [lim] is an empty interval. *)
Record Env : Type := {
  services : Services;
  THEME : theme;
  util_THEME : theme;
  FONTS : option Fonts;
  isalpha : N -> bool;
  upper : Py.text -> Py.text;
  project_graph : Graph -> Graph;
  project_geometry : Q * Q -> string -> Q * Q;
  project_gdf : GeoDataFrame -> outcome GeoDataFrame;
  to_crs : GeoDataFrame -> string -> GeoDataFrame;
  get_xlim : Q * Q -> Q * Q;
  get_ylim : Q * Q -> Q * Q
}.

(** [a or b] where [a] may be [None] or empty. *)
Definition or_text (a : option Py.text) (b : Py.text) : Py.text :=
  match a with
  | Some (c :: s) => c :: s
  | _ => b
  end.

(** [sep.join(parts)] *)
Fixpoint join (sep : Py.text) (parts : list Py.text) : Py.text :=
  match parts with
  | [] => []
  | [p] => p
  | p :: rest => p ++ sep ++ join sep rest
  end.

Definition lower_ascii (c : ascii) : ascii :=
  let n := nat_of_ascii c in
  if ((65 <=? n) && (n <=? 90))%nat then ascii_of_nat (n + 32) else c.

(** [s.lower()] on an ASCII string. *)
Fixpoint str_lower (s : string) : string :=
  match s with
  | EmptyString => EmptyString
  | String c rest => String (lower_ascii c) (str_lower rest)
  end.

Definition water_tags : tags :=
  <["natural" := TagList ["water"; "bay"; "strait"]]>
  (<["waterway" := TagStr "riverbank"]> ∅).

Definition parks_tags : tags :=
  <["leisure" := TagStr "park"]> (<["landuse" := TagStr "grass"]> ∅).

Definition railway_tags : tags :=
  <["railway" := TagList ["rail"; "subway"; "tram"; "light_rail";
                          "narrow_gauge"; "monorail";
                          "service"; "yard"; "siding"]]> ∅.

(** [dist * (max(height, width) / min(height, width)) / 4]: it raises
    when the smaller side of the figure is zero. *)
Definition compensated_dist (dist width height : Q) : outcome Q :=
  ratio ← py_div (py_max height width) (py_min height width);
  mret (dist * ratio / 4).

(** [min(height, width) / 12.0] *)
Definition scale_factor (width height : Q) : Q :=
  py_min height width / 12.0.

Definition base_main : Q := 60.
Definition base_sub : Q := 22.
Definition base_coords : Q := 14.

(** The size of the main title, shrunk for names longer than ten
    characters. *)
Definition adjusted_font_size (display_city : Py.text) (scale_factor : Q) : Q :=
  let base_adjusted_main := base_main * scale_factor in
  let city_char_count := Z.of_nat (length display_city) in
  if (city_char_count >? 10)%Z then
    let length_factor := 10 / inject_Z city_char_count in
    py_max (base_adjusted_main * length_factor) (10 * scale_factor)
  else base_adjusted_main.

(** [FontProperties(fname=active_fonts[...], size=...)] when fonts are
    loaded, the monospace family otherwise. *)
Definition font_props (active_fonts : option Fonts) (pick : Fonts -> string)
    (weight : option string) (size : Q) : FontProperties :=
  match active_fonts with
  | Some f => {| face := FontFile (pick f); size := size |}
  | None => {| face := FontFamily "monospace" weight; size := size |}
  end.

(** Colour and width the railway loop of [create_poster] picks for a
    group of lines. *)
Definition rail_group_style (THEME : theme) (railway_type : string)
  : option color * Q :=
  if str_in railway_type ["rail"; "subway"] then (THEME !! "rail_heavy", 1.0)
  else if str_in railway_type ["light_rail"; "tram"] then (THEME !! "rail_light", 0.7)
  else if str_in railway_type ["narrow_gauge"; "funicular"; "monorail"]
       then (THEME !! "rail_special", 0.6)
  else if str_in railway_type ["service"; "yard"; "siding"]
       then (THEME !! "rail_service", 0.4)
  else (THEME !! "rail_default", 0.5).

(** The coordinate line: [abs(lat)] with N or S, [lon] as it is with E,
    or W when it is negative. *)
Definition coords_label (point : Q * Q) : label :=
  let '(lat, lon) := point in
  let '(shown, ns) := if Qle_bool 0 lat then (lat, "N") else (Qabs lat, "S") in
  Coords shown ns lon (if Qgt_bool 0 lon then "W" else "E").

Section WithEnv.

Variable env : Env.

(** [try: ox.projection.project_gdf(df) / except Exception: df.to_crs(crs)] *)
Definition project_layer (g_proj : Graph) (df : GeoDataFrame) : GeoDataFrame :=
  match project_gdf env df with
  | Returns projected => projected
  | Raises _ => to_crs env df (graph_crs g_proj)
  end.

(** The water block, and the parks block, of [create_poster]. *)
Definition plot_polygon_layer (g_proj : Graph) (layer : option GeoDataFrame)
    (key : string) (zorder : Q) : M unit :=
  match layer with
  | Some df =>
      when (negb (empty df))
        (let polys := of_type is_polygon df in
         when (negb (empty polys))
           (let polys := project_layer g_proj polys in
            facecolor ← lift (theme_item (THEME env) key);
            emit (Draw (PlotPolygons polys facecolor zorder))))
  | None => mret tt
  end.

(** The loop over [rail_lines.groupby("railway")].  Its [width] is the
    parameter [width] of [create_poster]: every round assigns the line
    width of its group to it, and does not hand it to [group.plot].  The
    loop is given the value of [width] and answers with the value it
    leaves behind. *)
Fixpoint plot_rail_groups (groups : list (string * GeoDataFrame)) (width : Q)
  : M Q :=
  match groups with
  | [] => mret width
  | (railway_type, group) :: rest =>
      let '(c, width) := rail_group_style (THEME env) railway_type in
      _ ← emit (Draw (PlotLines group c 1));
      plot_rail_groups rest width
  end.

(** The railway block of [create_poster], from [width] to [width]. *)
Definition plot_railways (g_proj : Graph) (railways : option GeoDataFrame)
    (width : Q) : M Q :=
  match railways with
  | Some df =>
      if negb (empty df) then
        let rail_lines := of_type is_line df in
        if negb (empty rail_lines) then
          let rail_lines := project_layer g_proj rail_lines in
          plot_rail_groups (groupby_railway rail_lines) width
        else mret width
      else mret width
  | None => mret width
  end.

(** [ax.text(x, y, s, color=THEME["text"], ...)] *)
Definition ax_text (x y : Q) (s : label) (alpha : option Q) (ha : string)
    (font : FontProperties) : M unit :=
  c ← lift (theme_item (THEME env) "text");
  emit (Draw (AxText x y s c alpha ha font)).

(** [ax.plot([0.4, 0.6], [0.125, 0.125], color=THEME["text"], ...)] *)
Definition ax_rule (scale_factor : Q) : M unit :=
  c ← lift (theme_item (THEME env) "text");
  emit (Draw (AxRule (1 * scale_factor) c)).

Definition typography (point : Q * Q) (text_options : string)
    (display_city display_country : Py.text) (scale_factor : Q)
    (fonts : option Fonts) : M unit :=
  let active_fonts := match fonts with Some f => Some f | None => FONTS env end in
  let font_sub :=
    font_props active_fonts light (Some "normal") (base_sub * scale_factor) in
  let font_coords :=
    font_props active_fonts regular None (base_coords * scale_factor) in
  let spaced_city :=
    if PosterText.is_latin_script (isalpha env) display_city
    then join [32; 32]%N (map (fun c => [c]) (upper env display_city))
    else display_city in
  let font_main_adjusted :=
    font_props active_fonts bold (Some "bold")
      (adjusted_font_size display_city scale_factor) in
  _ ← when (String.eqb text_options "keep_all")
        (_ ← ax_text 0.5 0.14 (Label spaced_city) None "center" font_main_adjusted;
         _ ← ax_text 0.5 0.10 (Label (upper env display_country)) None "center" font_sub;
         _ ← ax_text 0.5 0.07 (coords_label point) (Some 0.7) "center" font_coords;
         ax_rule scale_factor);
  _ ← when (String.eqb text_options "no_coords")
        (_ ← ax_text 0.5 0.14 (Label spaced_city) None "center" font_main_adjusted;
         _ ← ax_text 0.5 0.10 (Label (upper env display_country)) None "center" font_sub;
         ax_rule scale_factor);
  _ ← when (String.eqb text_options "no_country")
        (_ ← ax_text 0.5 0.14 (Label spaced_city) None "center" font_main_adjusted;
         _ ← ax_text 0.5 0.10 (coords_label point) (Some 0.7) "center" font_coords;
         ax_rule scale_factor);
  _ ← when (String.eqb text_options "no_city_country")
        (ax_text 0.5 0.14 (coords_label point) (Some 0.7) "center" font_main_adjusted);
  let font_attr := font_props (FONTS env) light None 8 in
  ax_text 0.98 0.02 Attribution (Some 0.5) "right" font_attr.

(** [create_poster] from [plt.subplots] on: the layers, the crop, the
    text and the saving, once the street network is there.  The progress
    bar is left out, and so is the first [font_attr], which is replaced
    before it is used.  The scale factor of the texts is computed after
    the railway block, from the [width] that block leaves behind; the
    fades read the limits back from the axes. *)
Definition render (g : Graph) (water parks railways : option GeoDataFrame)
    (point : Q * Q) (compensated_dist : Q)
    (output_file output_format text_options : string) (width height : Q)
    (display_city display_country : Py.text) (fonts : option Fonts) : M unit :=
  bg ← lift (theme_item (THEME env) "bg");
  _ ← emit (Draw (Subplots (width, height) bg));
  let fig := {| fig_width := width; fig_height := height |} in
  bg ← lift (theme_item (THEME env) "bg");
  _ ← emit (Draw (SetFacecolor bg));
  _ ← emit (Draw SetPosition);
  let g_proj := project_graph env g in
  let '(crop_xlim, crop_ylim) :=
    get_crop_limits (project_geometry env) g_proj point fig compensated_dist in
  _ ← plot_polygon_layer g_proj water "water" 0.5;
  _ ← plot_polygon_layer g_proj parks "parks" 0.8;
  _ ← emit (Print MsgRoadHierarchy);
  edge_colors ← lift (get_edge_colors_by_type (util_THEME env) g_proj);
  let edge_widths := get_edge_widths_by_type g_proj in
  bg ← lift (theme_item (THEME env) "bg");
  _ ← emit (Draw (PlotGraph g_proj bg edge_colors edge_widths));
  width ← plot_railways g_proj railways width;
  _ ← emit (Draw SetAspectEqual);
  _ ← emit (Draw (SetXlim crop_xlim));
  _ ← emit (Draw (SetYlim crop_ylim));
  gradient_color ← lift (theme_item (THEME env) "gradient_color");
  _ ← emit (Draw (Imshow (create_gradient_fade
                            (get_xlim env crop_xlim) (get_ylim env crop_ylim)
                            gradient_color "bottom" 10)));
  gradient_color ← lift (theme_item (THEME env) "gradient_color");
  _ ← emit (Draw (Imshow (create_gradient_fade
                            (get_xlim env crop_xlim) (get_ylim env crop_ylim)
                            gradient_color "top" 10)));
  _ ← typography point text_options display_city display_country
        (scale_factor width height) fonts;
  _ ← emit (Print (MsgSaving output_file));
  let fmt := str_lower output_format in
  bg ← lift (theme_item (THEME env) "bg");
  _ ← emit (Draw (Savefig output_file fmt
                    (if String.eqb fmt "png" then Some 300%Z else None) bg));
  _ ← emit (Draw Close);
  emit (Print (MsgDone output_file)).

Definition create_poster (city country : Py.text) (point : Q * Q) (dist : Q)
    (output_file output_format text_options : string) (width height : Q)
    (country_label name_label display_city display_country : option Py.text)
    (fonts : option Fonts) : M unit :=
  let display_city := or_text display_city (or_text name_label city) in
  let display_country := or_text display_country (or_text country_label country) in
  _ ← emit (Print (MsgGenerating city country));
  compensated_dist ← lift (compensated_dist dist width height);
  g ← fetch_graph (services env) point compensated_dist;
  match g with
  | None => raise (RuntimeError "Failed to retrieve street network data.")
  | Some g =>
      water ← fetch_features (services env) point compensated_dist water_tags "water";
      parks ← fetch_features (services env) point compensated_dist parks_tags "parks";
      railways ← fetch_features (services env) point compensated_dist railway_tags "railways";
      _ ← emit (Print MsgAllRetrieved);
      render g water parks railways point compensated_dist
        output_file output_format text_options width height
        display_city display_country fonts
  end.

End WithEnv.
End Poster.

(* ===================================================================== *)
(** * Vocabulary of the specification *)
(* ===================================================================== *)

Module Spec.
Import PosterUtil World.

(** The style tables of section 6 of the specification, one row per
    category: the colour role and the line width. *)
Definition rail_style_table : list (string * Q) :=
  [("rail_heavy", 1.0); ("rail_light", 0.8); ("rail_special", 0.6);
   ("rail_service", 0.4); ("rail_default", 0.5)].

Definition road_style_table : list (string * Q) :=
  [("road_motorway", 1.2); ("road_primary", 1.0); ("road_secondary", 0.8);
   ("road_tertiary", 0.6); ("road_residential", 0.4); ("road_default", 0.4)].

Definition style_table : list (string * Q) :=
  rail_style_table ++ road_style_table.

(** A theme that gives a colour to every role of the style tables. *)
Definition covers_style_table (THEME : theme) : Prop :=
  Forall (fun row => is_Some (THEME !! fst row)) style_table.

(** Half the length of an axis interval [(lo, hi)]. *)
Definition half_extent (lim : Q * Q) : Q := (snd lim - fst lim) / 2.

(** The interval of half-length [h] around [c]. *)
Definition around (c h : Q) : Q * Q := (c - h, c + h).

(** Two intervals with equal end points. *)
Definition same_limits (a b : Q * Q) : Prop :=
  fst a == fst b /\ snd a == snd b.

(** A viewport [(xlim, ylim)] centred on [(cx, cy)] with half-extents
    [hx] and [hy]. *)
Definition viewport_is (limits : (Q * Q) * (Q * Q)) (cx cy hx hy : Q) : Prop :=
  same_limits (fst limits) (around cx hx) /\
  same_limits (snd limits) (around cy hy) /\
  half_extent (fst limits) == hx /\
  half_extent (snd limits) == hy.

(** The axis limits a run set, in the order it set them, read off its
    log. *)
Definition sets_limits (ev : event) : bool :=
  match ev with
  | Draw (SetXlim _) | Draw (SetYlim _) => true
  | _ => false
  end.

Definition axis_limits (log : list event) : list event :=
  List.filter sets_limits log.

(** A theme with the keys [create_poster] reads with [THEME[...]]. *)
Definition covers_poster_keys (THEME : theme) : Prop :=
  Forall (fun key => is_Some (THEME !! key))
         ["bg"; "text"; "gradient_color"; "water"; "parks"].

(** A cache whose reads answer (a hit or a miss) instead of raising. *)
Definition cache_reads_answer (sv : Services) : Prop :=
  (forall key, exists hit, cache_get_graph sv key = Returns hit) /\
  (forall key, exists hit, cache_get_features sv key = Returns hit).

(** The number of alphabetic characters of a text, and how many of them
    lie below U+0250. *)
Definition alpha_chars (isalpha : N -> bool) (text : Py.text) : list N :=
  List.filter isalpha text.

Definition latin_chars (isalpha : N -> bool) (text : Py.text) : list N :=
  List.filter (fun c => (c <? 0x250)%N) (alpha_chars isalpha text).

(** The Arabic, Thai and CJK Unified Ideographs blocks. *)
Definition han_thai_arabic (c : N) : bool :=
  ((0x600 <=? c) && (c <=? 0x6FF) || (0xE00 <=? c) && (c <=? 0xE7F)
   || (0x4E00 <=? c) && (c <=? 0x9FFF))%N.

End Spec.

(* ===================================================================== *)
(** * A concrete world to run the pipeline in *)
(* ===================================================================== *)

Module Sample.
Import PosterUtil World FetchData Poster.

(** A theme with every role of the style tables. *)
Definition sample_theme : theme :=
  list_to_map
    [("bg", "#F5EDE4"); ("text", "#8B4513"); ("gradient_color", "#F5EDE4");
     ("water", "#A8C4C4"); ("parks", "#E8E0D0");
     ("road_motorway", "#A0522D"); ("road_primary", "#B8653A");
     ("road_secondary", "#C9846A"); ("road_tertiary", "#D9A08A");
     ("road_residential", "#E5C4B0"); ("road_default", "#D9A08A");
     ("rail_heavy", "#5C4033"); ("rail_light", "#7B5B4C");
     ("rail_special", "#8F6F5F"); ("rail_service", "#B09080");
     ("rail_default", "#9F7F6F")].

(** A theme written before the railway roles existed. *)
Definition roads_only_theme : theme :=
  list_to_map
    [("bg", "#FFFFFF"); ("text", "#000000"); ("gradient_color", "#FFFFFF");
     ("water", "#C0C0C0"); ("parks", "#F0F0F0");
     ("road_motorway", "#0A0A0A"); ("road_primary", "#1A1A1A");
     ("road_secondary", "#2A2A2A"); ("road_tertiary", "#3A3A3A");
     ("road_residential", "#4A4A4A"); ("road_default", "#3A3A3A")].

Definition between (lo hi c : N) : bool := ((lo <=? c) && (c <=? hi))%N.

(** [str.isalpha] on the blocks the examples use: ASCII and Latin
    letters, Arabic letters, Thai consonants and vowels, Han ideographs.
    Digits, punctuation and the Thai tone marks are not alphabetic. *)
Definition sample_isalpha (c : N) : bool :=
  between 0x41 0x5A c || between 0x61 0x7A c
  || between 0xC0 0xD6 c || between 0xD8 0xF6 c || between 0xF8 0x24F c
  || between 0x620 0x64A c
  || between 0xE01 0xE30 c || between 0xE40 0xE46 c
  || between 0x4E00 0x9FFF c.

(** [str.upper] on ASCII letters. *)
Definition sample_upper (s : Py.text) : Py.text :=
  map (fun c => if between 0x61 0x7A c then (c - 32)%N else c) s.

Definition edge (u v : Z) (kv : list (string * tag_value)) : Z * Z * tags :=
  (u, v, list_to_map kv).

Definition sample_graph : Graph :=
  {| graph_crs := "EPSG:4326";
     graph_edges :=
       [ edge 1 2 [("highway", TagStr "primary")];
         edge 2 3 [("railway", TagList ["subway"; "service"])];
         edge 3 4 [("highway", TagStr "motorway"); ("railway", TagStr "tram")];
         edge 4 5 [];
         edge 5 6 [("highway", TagList ["residential"; "primary"])];
         edge 6 7 [("highway", TagStr "footway"); ("railway", TagList [])];
         edge 7 8 [("railway", TagStr "abandoned")] ] |}.

Definition sample_parks : GeoDataFrame :=
  [ {| osmid := 10; geometry_type := Polygon; railway := None |};
    {| osmid := 11; geometry_type := Point; railway := None |} ].

Definition sample_railways : GeoDataFrame :=
  [ {| osmid := 20; geometry_type := LineString; railway := Some "tram" |};
    {| osmid := 21; geometry_type := LineString; railway := Some "rail" |};
    {| osmid := 22; geometry_type := Point; railway := Some "rail" |};
    {| osmid := 23; geometry_type := MultiLineString; railway := Some "tram" |} ].

(** Nothing cached; the street network and the parks arrive, the water
    query fails, the railway query answers. *)
Definition sample_services : Services :=
  {| cache_get_graph := fun _ => Returns None;
     cache_set_graph := fun _ _ => Returns tt;
     cache_get_features := fun _ => Returns None;
     cache_set_features := fun _ _ => Raises (CacheError "disk full");
     normalize_tags := fun _ => "tags";
     graph_from_point := fun _ _ => Returns sample_graph;
     features_from_point := fun _ _ filter =>
       if bool_decide (is_Some (filter !! "natural"))
       then Raises (OtherException "timeout")
       else if bool_decide (is_Some (filter !! "leisure"))
       then Returns sample_parks
       else Returns sample_railways |}.


Definition sample_env (sv : Services) : Env :=
  {| services := sv;
     THEME := sample_theme;
     util_THEME := sample_theme;
     FONTS := Some {| bold := "fonts/Roboto-Bold.ttf";
                      regular := "fonts/Roboto-Regular.ttf";
                      light := "fonts/Roboto-Light.ttf" |};
     isalpha := sample_isalpha;
     upper := sample_upper;
     project_graph := fun g =>
       {| graph_crs := "EPSG:32631"; graph_edges := graph_edges g |};
     project_geometry := fun '(lon, lat) _ => (lon * 73000, lat * 111000);
     project_gdf := fun df => Returns df;
     to_crs := fun df _ => df;
     get_xlim := fun lim => lim;
     get_ylim := fun lim => lim |}.

(** "Paris", "France" *)
Definition Paris : Py.text := [80; 97; 114; 105; 115]%N.
Definition France : Py.text := [70; 114; 97; 110; 99; 101]%N.
Definition paris_point : Q * Q := (48.8566, 2.3522).

(** "San Pedro de Atacama", twenty characters. *)
Definition San_Pedro_de_Atacama : Py.text :=
  [83; 97; 110; 32; 80; 101; 100; 114; 111; 32; 100; 101; 32;
   65; 116; 97; 99; 97; 109; 97]%N.

(** Bangkok in Thai (with a vowel sign, U+0E38, that is no letter),
    Tokyo in Han characters, Dubai in Arabic. *)
Definition Krung_Thep : Py.text :=
  [0xE01; 0xE23; 0xE38; 0xE07; 0xE40; 0xE17; 0xE1E]%N.
Definition Tokyo : Py.text := [0x6771; 0x4EAC]%N.
Definition Dubai : Py.text := [0x62F; 0x628; 0x64A]%N.

(** An edge that is both a motorway and a tram line. *)
Definition tram_on_motorway : tags :=
  list_to_map [("highway", TagStr "motorway"); ("railway", TagStr "tram")].

(** An edge with nothing but an empty railway list. *)
Definition untagged_siding : tags :=
  list_to_map [("railway", TagList [])].

Definition paris_run (sv : Services) (dist : Q) : M unit :=
  create_poster (sample_env sv) Paris France paris_point dist
    "posters/paris.png" "png" "keep_all" 12 16 None None None None None.

End Sample.
(* ===================================================================== *)
(** * What one can observe of a run *)
(* ===================================================================== *)

Module Observe.
Import PosterUtil World Poster.

(** The cache keys a run looked up, in order. *)
Definition cache_lookups (log : list event) : list cache_key :=
  flat_map (fun ev => match ev with CacheGet key => [key] | _ => [] end) log.

(** The queries a run sent to the OSM servers, in order. *)
Definition is_remote_call (ev : event) : bool :=
  match ev with
  | GraphFromPoint _ _ | FeaturesFromPoint _ _ _ => true
  | _ => false
  end.

Definition remote_calls (log : list event) : list event :=
  List.filter is_remote_call log.

(** Events that stay on this machine's console and canvas. *)
Definition stays_local (ev : event) : bool :=
  match ev with
  | Print _ | Draw _ => true
  | _ => false
  end.

(** The drawing commands of a run, in order. *)
Definition drawn (log : list event) : list draw_command :=
  flat_map (fun ev => match ev with Draw cmd => [cmd] | _ => [] end) log.

(** The groups the railway loop of [create_poster] goes through. *)
Definition rail_groups (env : Env) (g_proj : Graph)
    (railways : option GeoDataFrame) : list (string * GeoDataFrame) :=
  match railways with
  | Some df =>
      if empty df then []
      else if empty (of_type is_line df) then []
      else groupby_railway (project_layer env g_proj (of_type is_line df))
  | None => []
  end.

(** The value of [width] after a loop over [groups]: the line width of
    the last group, if there was one. *)
Definition width_after (env : Env) (groups : list (string * GeoDataFrame))
    (width : Q) : Q :=
  match last groups with
  | Some (railway_type, _) => snd (rail_group_style (THEME env) railway_type)
  | None => width
  end.

(** The paint order of [create_poster]: figure set-up, water (z-order up
    to 0.5), parks, street network, railway lines, axis limits, fades,
    text, saving, closing. *)
Definition layer (cmd : draw_command) : nat :=
  match cmd with
  | Subplots _ _ | SetFacecolor _ | SetPosition => 0
  | PlotPolygons _ _ zorder => if Qle_bool zorder 0.5 then 1 else 2
  | PlotGraph _ _ _ _ => 3
  | PlotLines _ _ _ => 4
  | SetAspectEqual | SetXlim _ | SetYlim _ => 5
  | Imshow _ => 6
  | AxText _ _ _ _ _ _ _ | AxRule _ _ => 7
  | Savefig _ _ _ _ => 8
  | Close => 9
  end%nat.

Definition layers (log : list event) : list nat := map layer (drawn log).

(** A log whose drawing commands come in paint order, none of them
    before layer [k]. *)
Definition in_paint_order (k : nat) (log : list event) : Prop :=
  StronglySorted le (layers log) /\ Forall (le k) (layers log).

(** The text artists of a run: where they stand and what they show. *)
Definition texts (log : list event) : list (Q * Q * label) :=
  flat_map (fun cmd => match cmd with
                       | AxText x y s _ _ _ _ => [(x, y, s)]
                       | _ => []
                       end) (drawn log).

(** The sizes of the titles of a run: of the names set at the height of
    the main title. *)
Definition title_sizes (log : list event) : list Q :=
  flat_map (fun cmd => match cmd with
                       | AxText _ y (Label _) _ _ _ font =>
                           if Qeq_bool y 0.14 then [size font] else []
                       | _ => []
                       end) (drawn log).

(** The rules (the short line under the city name) of a run. *)
Definition rules (log : list event) : list draw_command :=
  List.filter (fun cmd => match cmd with AxRule _ _ => true | _ => false end)
    (drawn log).

(** Every third character of a text, from the first on. *)
Fixpoint every_third (s : Py.text) : Py.text :=
  match s with
  | c :: _ :: _ :: rest => c :: every_third rest
  | c :: _ => [c]
  | [] => []
  end.

End Observe.

(* ===================================================================== *)
(** * poster_util.py: get_coordinates; map_to_poster_main.py: the script *)
(* ===================================================================== *)

Module Program.
Import PosterUtil World FetchData Poster.

(** What geopy's [Location] shows of itself. *)
Record Location : Type := {
  address : option string;
  latitude : Q;
  longitude : Q
}.

(** What [geolocator.geocode] hands back: its answer, or a coroutine
    that still has to be driven to one. *)
Inductive geocoded : Type :=
| Answer (location : option Location)
| Coroutine.

Inductive notice : Type :=
| CachedCoordinates (city country : Py.text)
| LookingUp
| Found (addr : string)
| FoundNoAddress
| CoordinatesAre (lat lon : Q)
| ShowException (e : exn)
| CityCountryRequired
| WidthTooLarge (width : Q)
| HeightTooLarge (height : Q)
| NoThemesFound
| ThemeNotFound (name : string)
| AvailableThemes (names : list string)
| Banner
| FontFallback (family : string)
| GivenCoordinates (lat lon : Q)
| Complete
| ErrorLine (e : exn).

(** One step of the script, as its log records it: a step of
    [create_poster], or one of its own. *)
Inductive step : Type :=
| Poster (ev : event)
| Say (msg : notice)
| CoordsCacheGet (city_lower country_lower : Py.text)
| CoordsCacheSet (city_lower country_lower : Py.text) (coords : Q * Q)
| Nap (seconds : Q)
| GeocodeQuery (city country : Py.text)
| AsyncioRun
| GetEventLoop
| RunUntilComplete
| PrintExamples
| ListThemes
| LoadFonts (family : string)
| ParseCoordinate (s : string)
| LoadTheme (name : string)
| OutputFilename (city : Py.text) (theme_name format : string)
| Traceback.

(** How a piece of the script ends: it goes on with a value, an
    exception travels up, or [sys.exit] ends the process. *)
Inductive ending (A : Type) : Type :=
| Goes (a : A)
| Fails (e : exn)
| Exits (code : Z).
Arguments Goes {A} a.
Arguments Fails {A} e.
Arguments Exits {A} code.

Definition Script (A : Type) : Type := list step * ending A.

#[global] Instance Script_ret : MRet Script := fun A a => ([], Goes a).

#[global] Instance Script_bind : MBind Script := fun A B k m =>
  match m with
  | (log, Goes a) => let '(log', r) := k a in (log ++ log', r)
  | (log, Fails e) => (log, Fails e)
  | (log, Exits code) => (log, Exits code)
  end.

Definition of_outcome {A} (o : outcome A) : ending A :=
  match o with
  | Returns a => Goes a
  | Raises e => Fails e
  end.

Definition note (s : step) : Script unit := ([s], Goes tt).
Definition say (msg : notice) : Script unit := note (Say msg).
Definition throw {A} (e : exn) : Script A := ([], Fails e).
Definition sys_exit {A} (code : Z) : Script A := ([], Exits code).

(** A call into a library: logged, then answered. *)
Definition ask {A} (s : step) (answer : outcome A) : Script A :=
  ([s], of_outcome answer).

(** A run of [create_poster] inside the script. *)
Definition in_poster {A} (m : M A) : Script A :=
  (map Poster (fst m), of_outcome (snd m)).

(** [try: body / except <caught> as e: handler e]; [sys.exit] is no
    [Exception] and passes through. *)
Definition attempt {A} (body : Script A) (caught : exn -> bool)
    (handler : exn -> Script A) : Script A :=
  match body with
  | (log, Fails e) =>
      if caught e then let '(log', r) := handler e in (log ++ log', r)
      else (log, Fails e)
  | other => other
  end.

Definition is_RuntimeError (e : exn) : bool :=
  match e with RuntimeError _ => true | _ => false end.

(** The collaborators of [get_coordinates]: the cache under the key
    [coords_<city.lower()>_<country.lower()>], Nominatim, asyncio, and
    the formatting of names and exceptions into messages.
    [get_event_loop] is [asyncio.get_event_loop()] after a failed
    [asyncio.run]: it raises, or answers with a loop, of which
    [loop.is_running()] is all the code asks. *)
Record Geocoder : Type := {
  lower : Py.text -> Py.text;
  coords_cache_get : Py.text -> Py.text -> outcome (option (Q * Q));
  coords_cache_set : Py.text -> Py.text -> Q * Q -> outcome unit;
  geocode : Py.text -> Py.text -> outcome geocoded;
  asyncio_run : outcome (option Location);
  get_event_loop : outcome bool;
  run_until_complete : outcome (option Location);
  show_text : Py.text -> string;
  show_exn : exn -> string
}.

Section WithGeocoder.

Variable gc : Geocoder.

Definition geocoding_failed (city country : Py.text) (e : exn) : exn :=
  ValueError ("Geocoding failed for " ++ show_text gc city ++ ", "
              ++ show_text gc country ++ ": " ++ show_exn gc e).

Definition could_not_find (city country : Py.text) : exn :=
  ValueError ("Could not find coordinates for " ++ show_text gc city ++ ", "
              ++ show_text gc country).

Definition loop_already_running : exn :=
  RuntimeError
    ("Geocoder returned a coroutine while an event loop is already running. "
     ++ "Run this script in a synchronous environment.").

Definition get_coordinates (city country : Py.text) : Script (Q * Q) :=
  let city_lower := lower gc city in
  let country_lower := lower gc country in
  cached ← ask (CoordsCacheGet city_lower country_lower)
               (coords_cache_get gc city_lower country_lower);
  match cached with
  | Some coords =>
      _ ← say (CachedCoordinates city country);
      mret coords
  | None =>
      _ ← say LookingUp;
      _ ← note (Nap 1);
      location ← attempt
                   (ask (GeocodeQuery city country) (geocode gc city country))
                   (fun _ => true)
                   (fun e => throw (geocoding_failed city country e));
      location ← match location with
                 | Answer location => mret location
                 | Coroutine =>
                     attempt
                       (ask AsyncioRun (asyncio_run gc))
                       is_RuntimeError
                       (fun exc =>
                          is_running ← ask GetEventLoop (get_event_loop gc);
                          if is_running : bool
                          then throw loop_already_running
                          else ask RunUntilComplete (run_until_complete gc))
                 end;
      match location with
      | Some location =>
          _ ← say (match address location with
                   | Some addr =>
                       if String.eqb addr EmptyString then FoundNoAddress
                       else Found addr
                   | None => FoundNoAddress
                   end);
          _ ← say (CoordinatesAre (latitude location) (longitude location));
          _ ← attempt
                (ask (CoordsCacheSet city_lower country_lower
                        (latitude location, longitude location))
                     (coords_cache_set gc city_lower country_lower
                        (latitude location, longitude location)))
                is_CacheError
                (fun e => say (ShowException e));
          mret (latitude location, longitude location)
      | None => throw (could_not_find city country)
      end
  end.

End WithGeocoder.

(** The namespace [parser.parse_args()] returns, after argparse has
    applied its types, defaults and choices. *)
Record Args : Type := {
  arg_city : option Py.text;
  arg_country : option Py.text;
  arg_latitude : option string;
  arg_longitude : option string;
  arg_country_label : option Py.text;
  arg_theme : string;
  arg_all_themes : bool;
  arg_distance : Z;
  arg_width : Q;
  arg_height : Q;
  arg_list_themes : bool;
  arg_display_city : option Py.text;
  arg_display_country : option Py.text;
  arg_font_family : option string;
  arg_format : string;
  arg_text_options : string
}.

(** What the script finds around it besides the geocoder: the theme and
    font modules, the coordinate parser, the file naming, and what
    [create_poster] needs except the theme, which the script loads.
    [print_examples], [list_themes], [get_available_themes] and
    [load_fonts] stand outside the [try] block and are taken to return;
    [load_fonts] answers [None] when the family could not be loaded. *)
Record Installation : Type := {
  geocoder : Geocoder;
  get_available_themes : list string;
  load_theme : string -> outcome theme;
  load_fonts : string -> option Fonts;
  parse : string -> outcome Q;
  generate_output_filename : Py.text -> string -> string -> outcome string;
  poster_env : theme -> Env
}.

(** Truthiness of an optional [str]. *)
Definition given {A} (o : option (list A)) : bool :=
  match o with Some (_ :: _) => true | _ => false end.

Definition given_str (o : option string) : bool :=
  match o with
  | Some s => negb (String.eqb s EmptyString)
  | None => false
  end.

Section WithInstallation.

Variable inst : Installation.

(** The body of the loop over [themes_to_generate]. *)
Fixpoint generate_posters (args : Args) (coords : Q * Q)
    (width height : Q) (custom_fonts : option Fonts)
    (themes_to_generate : list string) : Script unit :=
  match themes_to_generate with
  | [] => mret tt
  | theme_name :: rest =>
      THEME ← ask (LoadTheme theme_name) (load_theme inst theme_name);
      output_file ← ask (OutputFilename (default [] (arg_city args)) theme_name
                           (arg_format args))
                        (generate_output_filename inst
                           (default [] (arg_city args)) theme_name
                           (arg_format args));
      _ ← in_poster
            (create_poster (poster_env inst THEME)
               (default [] (arg_city args)) (default [] (arg_country args))
               coords (inject_Z (arg_distance args))
               output_file (arg_format args) (arg_text_options args)
               width height
               (arg_country_label args) None
               (arg_display_city args) (arg_display_country args)
               custom_fonts);
      generate_posters args coords width height custom_fonts rest
  end.

(** The coordinates of the poster: the two given on the command line,
    or those of the city. *)
Definition resolve_coordinates (args : Args) : Script (Q * Q) :=
  if given_str (arg_latitude args) && given_str (arg_longitude args) then
    lat ← ask (ParseCoordinate (default EmptyString (arg_latitude args)))
              (parse inst (default EmptyString (arg_latitude args)));
    lon ← ask (ParseCoordinate (default EmptyString (arg_longitude args)))
              (parse inst (default EmptyString (arg_longitude args)));
    _ ← say (GivenCoordinates lat lon);
    mret (lat, lon)
  else
    get_coordinates (geocoder inst)
      (default [] (arg_city args)) (default [] (arg_country args)).

(** The body of the [try] block. *)
Definition try_body (args : Args) (width height : Q)
    (custom_fonts : option Fonts) (themes_to_generate : list string)
    : Script unit :=
  coords ← resolve_coordinates args;
  _ ← generate_posters args coords width height custom_fonts themes_to_generate;
  say Complete.

(** Its [except Exception as e] handler. *)
Definition report (e : exn) : Script unit :=
  _ ← say (ErrorLine e); _ ← note Traceback; sys_exit 1.

(** The script below [if __name__ == "__main__":], from the parsed
    arguments on; [argc] is [len(sys.argv)]. *)
Definition main (argc : nat) (args : Args) : Script unit :=
  if (argc =? 1)%nat then
    _ ← note PrintExamples; sys_exit 0
  else if arg_list_themes args then
    _ ← note ListThemes; sys_exit 0
  else if negb (given (arg_city args)) || negb (given (arg_country args)) then
    _ ← say CityCountryRequired; _ ← note PrintExamples; sys_exit 1
  else
    width ← (if Qgt_bool (arg_width args) 20
             then _ ← say (WidthTooLarge (arg_width args)); mret 20.0
             else mret (arg_width args));
    height ← (if Qgt_bool (arg_height args) 20
              then _ ← say (HeightTooLarge (arg_height args)); mret 20.0
              else mret (arg_height args));
    let available_themes := get_available_themes inst in
    match available_themes with
    | [] => _ ← say NoThemesFound; sys_exit 1
    | _ =>
        themes_to_generate ←
          (if arg_all_themes args then mret available_themes
           else if str_in (arg_theme args) available_themes
                then mret [arg_theme args]
                else _ ← say (ThemeNotFound (arg_theme args));
                     _ ← say (AvailableThemes available_themes);
                     sys_exit 1);
        _ ← say Banner;
        custom_fonts ←
          (if given_str (arg_font_family args) then
             let family := default EmptyString (arg_font_family args) in
             _ ← note (LoadFonts family);
             match load_fonts inst family with
             | Some fonts => mret (Some fonts)
             | None => _ ← say (FontFallback family); mret None
             end
           else mret None);
        attempt (try_body args width height custom_fonts themes_to_generate)
                (fun _ => true) report
    end.

(** The exit status of the process. *)
Definition exit_status (e : ending unit) : Z :=
  match e with
  | Goes _ => 0
  | Exits code => code
  | Fails _ => 1
  end.

End WithInstallation.
End Program.

(* ===================================================================== *)
(** * Reading the log of the script *)
(* ===================================================================== *)

Module ScriptLog.
Import PosterUtil World Program.

(** The steps of [create_poster] among the steps of the script. *)
Definition poster_events (log : list step) : list event :=
  flat_map (fun s => match s with Poster ev => [ev] | _ => [] end) log.

(** The themes handed to [load_theme], in order. *)
Definition themes_loaded (log : list step) : list string :=
  flat_map (fun s => match s with LoadTheme name => [name] | _ => [] end) log.

(** What [get_coordinates] does with its cache, its clock, Nominatim and
    asyncio. *)
Definition is_geocoder_step (s : step) : bool :=
  match s with
  | CoordsCacheGet _ _ | CoordsCacheSet _ _ _ | Nap _ | GeocodeQuery _ _
  | AsyncioRun | GetEventLoop | RunUntilComplete => true
  | _ => false
  end.

Definition geocoder_steps (log : list step) : list step :=
  List.filter is_geocoder_step log.

(** Steps that only write to the terminal. *)
Definition is_talk (s : step) : bool :=
  match s with
  | Say _ | PrintExamples | ListThemes => true
  | _ => false
  end.

(** The sizes of the figures opened by [plt.subplots]. *)
Definition figures (log : list event) : list (Q * Q) :=
  flat_map (fun ev => match ev with
                      | Draw (Subplots figsize _) => [figsize]
                      | _ => []
                      end) log.

(** An event that, if it opens a figure, opens one of the given size. *)
Definition opens_figure_of (figsize : Q * Q) (ev : event) : Prop :=
  match ev with
  | Draw (Subplots size _) => size = figsize
  | _ => True
  end.

(** A width or height after the limit of 20 has been enforced. *)
Definition enforced (inches : Q) : Q :=
  if Py.Qgt_bool inches 20 then 20.0 else inches.

(** The themes the arguments ask for. *)
Definition wanted (inst : Installation) (args : Args) : list string :=
  if arg_all_themes args then get_available_themes inst else [arg_theme args].

(** The arguments pass the checks that come before the banner. *)
Definition passes_checks (inst : Installation) (argc : nat) (args : Args) : bool :=
  negb (argc =? 1)%nat && negb (arg_list_themes args)
  && given (arg_city args) && given (arg_country args)
  && negb (bool_decide (get_available_themes inst = []))
  && (arg_all_themes args || Py.str_in (arg_theme args) (get_available_themes inst)).

End ScriptLog.

(* ===================================================================== *)
(** * More sample worlds *)
(* ===================================================================== *)

Module Cases.
Import PosterUtil World FetchData Poster Program ScriptLog Sample.

(** Everything is in the cache, and the servers are down. *)
Definition cached_services : Services :=
  {| cache_get_graph := fun _ => Returns (Some sample_graph);
     cache_set_graph := fun _ _ => Returns tt;
     cache_get_features := fun _ => Returns (Some sample_parks);
     cache_set_features := fun _ _ => Returns tt;
     normalize_tags := fun _ => "tags";
     graph_from_point := fun _ _ => Raises (OtherException "connection refused");
     features_from_point := fun _ _ _ => Raises (OtherException "connection refused") |}.

(** The cache directory cannot be read. *)
Definition locked_cache_services : Services :=
  {| cache_get_graph := fun _ => Raises (OtherException "permission denied");
     cache_set_graph := fun _ _ => Returns tt;
     cache_get_features := fun _ => Raises (OtherException "permission denied");
     cache_set_features := fun _ _ => Returns tt;
     normalize_tags := fun _ => "tags";
     graph_from_point := fun _ _ => Returns sample_graph;
     features_from_point := fun _ _ _ => Returns sample_parks |}.

(** The servers answer, and the cache directory is on a file system that
    cannot be written: the writes raise an error that is no CacheError. *)
Definition read_only_services : Services :=
  {| cache_get_graph := fun _ => Returns None;
     cache_set_graph := fun _ _ => Raises (OtherException "read-only file system");
     cache_get_features := fun _ => Returns None;
     cache_set_features := fun _ _ => Raises (OtherException "read-only file system");
     normalize_tags := fun _ => "tags";
     graph_from_point := fun _ _ => Returns sample_graph;
     features_from_point := fun _ _ _ => Returns sample_parks |}.

(** The servers answer, and the cache reports its own write errors. *)
Definition full_disk_services : Services :=
  {| cache_get_graph := fun _ => Returns None;
     cache_set_graph := fun _ _ => Raises (CacheError "disk full");
     cache_get_features := fun _ => Returns None;
     cache_set_features := fun _ _ => Raises (CacheError "disk full");
     normalize_tags := fun _ => "tags";
     graph_from_point := fun _ _ => Returns sample_graph;
     features_from_point := fun _ _ _ => Returns sample_parks |}.

(** A motorway whose railway tag is there and says nothing, and a
    primary road whose railway list starts with nothing. *)
Definition blank_railway_on_motorway : tags :=
  list_to_map [("highway", TagStr "motorway"); ("railway", TagStr EmptyString)].

Definition blank_railway_graph : Graph :=
  {| graph_crs := "EPSG:4326";
     graph_edges :=
       [ (1%Z, 2%Z, blank_railway_on_motorway);
         edge 2 3 [("highway", TagStr "primary");
                   ("railway", TagList [EmptyString; "tram"])] ] |}.

(** "Rue de Rivoli 1", with a digit, and "Zürich". *)
Definition Rue_de_Rivoli_1 : Py.text :=
  [82; 117; 101; 32; 100; 101; 32; 82; 105; 118; 111; 108; 105; 32; 49]%N.
Definition Zurich : Py.text := [90; 252; 114; 105; 99; 104]%N.

(** A sixty-character name: "San Pedro de Atacama" three times. *)
Definition sixty_characters : Py.text :=
  San_Pedro_de_Atacama ++ San_Pedro_de_Atacama ++ San_Pedro_de_Atacama.

(** [str.lower] on ASCII letters, and a name as a message shows it. *)
Definition text_lower (s : Py.text) : Py.text :=
  map (fun c => if between 0x41 0x5A c then (c + 32)%N else c) s.

Definition text_shown (s : Py.text) : string :=
  string_of_list_ascii (map Ascii.ascii_of_N s).

Definition exn_shown (e : exn) : string :=
  match e with
  | KeyError msg | RuntimeError msg | ValueError msg | CacheError msg
  | OtherException msg => msg
  | ZeroDivisionError => "float division by zero"
  end.

Definition paris_location : Location :=
  {| address := Some "Paris, Ile-de-France, France";
     latitude := 48.8566;
     longitude := 2.3522 |}.

(** "Atlantis" *)
Definition Atlantis : Py.text := [65; 116; 108; 97; 110; 116; 105; 115]%N.

(** Nothing cached; Nominatim knows Paris and nothing else. *)
Definition sample_geocoder : Geocoder :=
  {| lower := text_lower;
     coords_cache_get := fun _ _ => Returns None;
     coords_cache_set := fun _ _ _ => Returns tt;
     geocode := fun city _ =>
       if bool_decide (city = Paris) then Returns (Answer (Some paris_location))
       else Returns (Answer None);
     asyncio_run := Returns None;
     get_event_loop := Raises (RuntimeError "There is no current event loop");
     run_until_complete := Returns None;
     show_text := text_shown;
     show_exn := exn_shown |}.

(** Paris is in the cache, and Nominatim is out of reach. *)
Definition cached_geocoder : Geocoder :=
  {| lower := text_lower;
     coords_cache_get := fun city_lower _ =>
       if bool_decide (city_lower = text_lower Paris)
       then Returns (Some paris_point) else Returns None;
     coords_cache_set := fun _ _ _ => Returns tt;
     geocode := fun _ _ => Raises (OtherException "timed out");
     asyncio_run := Returns None;
     get_event_loop := Raises (RuntimeError "There is no current event loop");
     run_until_complete := Returns None;
     show_text := text_shown;
     show_exn := exn_shown |}.

(** A geocoder that answers with a coroutine which [asyncio.run] refuses
    to drive; asking for the event loop ends as [loop] says. *)
Definition coroutine_geocoder (loop : outcome bool) : Geocoder :=
  {| lower := text_lower;
     coords_cache_get := fun _ _ => Returns None;
     coords_cache_set := fun _ _ _ => Returns tt;
     geocode := fun _ _ => Returns Coroutine;
     asyncio_run :=
       Raises (RuntimeError "asyncio.run() cannot be called from a running event loop");
     get_event_loop := loop;
     run_until_complete := Returns None;
     show_text := text_shown;
     show_exn := exn_shown |}.

(** Two themes are installed, of which the second cannot be loaded; no
    font family can be downloaded; the pipeline runs in the sample
    world with the theme that was loaded. *)
Definition sample_installation (gc : Geocoder) : Installation :=
  {| geocoder := gc;
     get_available_themes := ["terracotta"; "broken"];
     load_theme := fun name =>
       if String.eqb name "broken" then Raises (ValueError "invalid theme file")
       else Returns sample_theme;
     load_fonts := fun _ => None;
     parse := fun s =>
       if String.eqb s "48.8566" then Returns 48.8566
       else if String.eqb s "2.3522" then Returns 2.3522
       else Raises (ValueError "not a coordinate");
     generate_output_filename := fun _ theme_name fmt =>
       Returns ("posters/" ++ theme_name ++ "." ++ fmt)%string;
     poster_env := fun loaded =>
       {| services := sample_services;
          THEME := loaded;
          util_THEME := sample_theme;
          FONTS := FONTS (sample_env sample_services);
          isalpha := sample_isalpha;
          upper := sample_upper;
          project_graph := project_graph (sample_env sample_services);
          project_geometry := project_geometry (sample_env sample_services);
          project_gdf := fun df => Returns df;
          to_crs := fun df _ => df;
          get_xlim := fun lim => lim;
          get_ylim := fun lim => lim |} |}.

(** [--city Paris --country France --width 24 --height 16] *)
Definition paris_args : Args :=
  {| arg_city := Some Paris;
     arg_country := Some France;
     arg_latitude := None;
     arg_longitude := None;
     arg_country_label := None;
     arg_theme := "terracotta";
     arg_all_themes := false;
     arg_distance := 18000;
     arg_width := 24;
     arg_height := 16;
     arg_list_themes := false;
     arg_display_city := None;
     arg_display_country := None;
     arg_font_family := None;
     arg_format := "png";
     arg_text_options := "keep_all" |}.

(** The same with [--all-themes]. *)
Definition all_themes_args : Args :=
  {| arg_city := Some Paris;
     arg_country := Some France;
     arg_latitude := None;
     arg_longitude := None;
     arg_country_label := None;
     arg_theme := "terracotta";
     arg_all_themes := true;
     arg_distance := 18000;
     arg_width := 24;
     arg_height := 16;
     arg_list_themes := false;
     arg_display_city := None;
     arg_display_country := None;
     arg_font_family := None;
     arg_format := "png";
     arg_text_options := "keep_all" |}.

(** [--city Atlantis --country France --latitude 48.8566 --longitude 2.3522] *)
Definition given_point_args : Args :=
  {| arg_city := Some Atlantis;
     arg_country := Some France;
     arg_latitude := Some "48.8566";
     arg_longitude := Some "2.3522";
     arg_country_label := None;
     arg_theme := "terracotta";
     arg_all_themes := false;
     arg_distance := 18000;
     arg_width := 12;
     arg_height := 16;
     arg_list_themes := false;
     arg_display_city := None;
     arg_display_country := None;
     arg_font_family := None;
     arg_format := "png";
     arg_text_options := "keep_all" |}.

(** [--city Paris --theme neon]: no country, and a theme that is not
    installed. *)
Definition incomplete_args : Args :=
  {| arg_city := Some Paris;
     arg_country := None;
     arg_latitude := None;
     arg_longitude := None;
     arg_country_label := None;
     arg_theme := "neon";
     arg_all_themes := false;
     arg_distance := 18000;
     arg_width := 12;
     arg_height := 16;
     arg_list_themes := false;
     arg_display_city := None;
     arg_display_country := None;
     arg_font_family := None;
     arg_format := "png";
     arg_text_options := "keep_all" |}.

End Cases.

Import PosterUtil World FetchData Poster Spec Sample Observe Cases.

(* ===================================================================== *)
(** * Edge classification *)
(* ===================================================================== *)

Section Classification.

Implicit Types (data : tags) (r h : string).

Lemma truthy_str_Some r : r <> EmptyString -> truthy_str (Some r) = true.
Proof.
  intros Hne. unfold truthy_str.
  destruct (String.eqb_spec r EmptyString); [contradiction | reflexivity].
Qed.

Lemma rail_row r : In (rail_color_key r, rail_width r) rail_style_table.
Proof.
  unfold rail_color_key, rail_width, rail_style_table.
  repeat (match goal with |- context [if ?b then _ else _] => destruct b end);
    simpl; tauto.
Qed.

Lemma road_row h : In (highway_color_key h, highway_width h) road_style_table.
Proof.
  unfold highway_color_key, highway_width, road_style_table.
  repeat (match goal with |- context [if ?b then _ else _] => destruct b end);
    simpl; tauto.
Qed.

Lemma edge_row data :
  In (edge_color_key data, edge_width data)
     (if truthy_str (railway_value data) then rail_style_table else road_style_table).
Proof.
  unfold edge_color_key, edge_width.
  destruct (truthy_str (railway_value data)); [apply rail_row | apply road_row].
Qed.

Lemma edge_row_any data : In (edge_color_key data, edge_width data) style_table.
Proof.
  unfold style_table. apply in_or_app. pose proof (edge_row data) as H.
  destruct (truthy_str (railway_value data)); tauto.
Qed.

End Classification.

Section ClassificationClaims.

Implicit Types (data : tags) (r h : string).

Lemma railway_value_first data r :
  data !! "railway" = Some (TagStr r) \/
  (exists rest, data !! "railway" = Some (TagList (r :: rest))) ->
  railway_value data = Some r.
Proof.
  unfold railway_value. intros [-> | [rest ->]]; reflexivity.
Qed.

Lemma railway_value_absent data :
  data !! "railway" = None \/ data !! "railway" = Some (TagList []) ->
  railway_value data = None.
Proof.
  unfold railway_value. intros [-> | ->]; reflexivity.
Qed.

Lemma railway_value_insert_highway data v :
  railway_value (<["highway" := v]> data) = railway_value data.
Proof.
  unfold railway_value. rewrite lookup_insert_ne; [reflexivity | discriminate].
Qed.

Lemma widths_loop_app es acc :
  widths_loop es acc = acc ++ map (fun e => edge_width (snd e)) es.
Proof.
  revert acc. induction es as [| [[u v] data] es IH]; intros acc; simpl.
  - symmetry. apply app_nil_r.
  - rewrite IH, <- app_assoc. reflexivity.
Qed.

Lemma colors_loop_returns THEME es acc colors :
  colors_loop THEME es acc = Returns colors ->
  exists new, colors = acc ++ new /\
    Forall2 (fun e c => THEME !! edge_color_key (snd e) = Some c) es new.
Proof.
  revert acc. induction es as [| [[u v] data] es IH]; intros acc; simpl.
  - intros [= <-]. exists []. split; [symmetry; apply app_nil_r | constructor].
  - unfold theme_item. destruct (THEME !! edge_color_key data) as [c |] eqn:Hc;
      simpl; [| discriminate].
    intros Hloop. destruct (IH _ Hloop) as (new & -> & Hall).
    exists (c :: new). split; [rewrite <- app_assoc; reflexivity |].
    constructor; assumption.
Qed.


Lemma covers_style_table_key THEME data :
  covers_style_table THEME -> is_Some (THEME !! edge_color_key data).
Proof.
  intros Hall. unfold covers_style_table in Hall.
  rewrite List.Forall_forall in Hall.
  apply (Hall (edge_color_key data, edge_width data)), edge_row_any.
Qed.

Lemma colors_loop_total THEME es acc :
  covers_style_table THEME -> exists colors, colors_loop THEME es acc = Returns colors.
Proof.
  intros Hall. revert acc. induction es as [| [[u v] data] es IH]; intros acc; simpl.
  - eauto.
  - unfold theme_item.
    destruct (covers_style_table_key THEME data Hall) as [c ->]. simpl. apply IH.
Qed.



Lemma railway_value_falsy data :
  data !! "railway" = None \/ data !! "railway" = Some (TagList []) \/
  data !! "railway" = Some (TagStr EmptyString) \/
  (exists rest, data !! "railway" = Some (TagList (EmptyString :: rest))) ->
  truthy_str (railway_value data) = false.
Proof.
  unfold railway_value. intros [-> | [-> | [-> | [rest ->]]]]; reflexivity.
Qed.

(** C2, as the code has it.  Edge classification is total and a railway
    value comes first.  The two functions give every edge of a graph its
    width and, when the theme has the roles, its colour: those of the
    row of the style tables that the loop body picks for the tag bag.  A
    railway tag whose value, or whose first list element, is a non-empty
    string [r] decides the row alone, by the rail-subtype table: the ten
    known subtypes go to their four buckets, any other value to the
    default rail bucket, and whatever the highway tag says changes
    nothing.  In every other case (no railway tag, an empty list, the
    empty string, a list that starts with the empty string) the row is
    that of the highway value: the tag itself, the first element of a
    list, "unclassified" when the tag is missing or an empty list.
    These cases are all there are. *)
Theorem edge_classification_total_rail_first (THEME : theme) (g : Graph)
    (i : nat) (u v : Z) data :
  graph_edges g !! i = Some (u, v, data) ->
  let falsy_railway :=
    data !! "railway" = None \/ data !! "railway" = Some (TagList []) \/
    data !! "railway" = Some (TagStr EmptyString) \/
    (exists rest, data !! "railway" = Some (TagList (EmptyString :: rest))) in
  let railway_is r :=
    data !! "railway" = Some (TagStr r) \/
    (exists rest, data !! "railway" = Some (TagList (r :: rest))) in
  get_edge_widths_by_type g !! i = Some (edge_width data) /\
  length (get_edge_widths_by_type g) = length (graph_edges g) /\
  (covers_style_table THEME ->
   exists colors c,
     get_edge_colors_by_type THEME g = Returns colors /\
     length colors = length (graph_edges g) /\
     colors !! i = Some c /\ THEME !! edge_color_key data = Some c) /\
  In (edge_color_key data, edge_width data) style_table /\
  ((exists r, r <> EmptyString /\ railway_is r) \/ falsy_railway) /\
  (forall r, r <> EmptyString -> railway_is r ->
     edge_color_key data = rail_color_key r /\
     edge_width data = rail_width r /\
     In (rail_color_key r, rail_width r) rail_style_table /\
     forall value : tag_value,
       edge_color_key (<["highway" := value]> data) = rail_color_key r /\
       edge_width (<["highway" := value]> data) = rail_width r) /\
  (falsy_railway ->
     let h := match data !! "highway" with
              | None => "unclassified"
              | Some (TagStr s) => s
              | Some (TagList []) => "unclassified"
              | Some (TagList (first :: _)) => first
              end in
     edge_color_key data = highway_color_key h /\
     edge_width data = highway_width h /\
     In (highway_color_key h, highway_width h) road_style_table) /\
  map (fun r => (rail_color_key r, rail_width r))
      ["rail"; "subway"; "light_rail"; "tram"; "narrow_gauge"; "funicular";
       "monorail"; "service"; "yard"; "siding"]
  = [("rail_heavy", 1.0); ("rail_heavy", 1.0);
     ("rail_light", 0.8); ("rail_light", 0.8);
     ("rail_special", 0.6); ("rail_special", 0.6); ("rail_special", 0.6);
     ("rail_service", 0.4); ("rail_service", 0.4); ("rail_service", 0.4)] /\
  (forall r,
     ~ In r ["rail"; "subway"; "light_rail"; "tram"; "narrow_gauge";
             "funicular"; "monorail"; "service"; "yard"; "siding"] ->
     rail_color_key r = "rail_default" /\ rail_width r = 0.5).
Proof.
  intros Hi falsy_railway railway_is.
  assert (Hwidths : get_edge_widths_by_type g
                    = map (fun e => edge_width (snd e)) (graph_edges g)).
  { unfold get_edge_widths_by_type. rewrite widths_loop_app. reflexivity. }
  split; [rewrite Hwidths, list_lookup_fmap, Hi; reflexivity |].
  split; [rewrite Hwidths; apply length_map |].
  split.
  { intros Hcov.
    destruct (colors_loop_total THEME (graph_edges g) [] Hcov) as [colors Hret].
    destruct (colors_loop_returns _ _ _ _ Hret) as (new & -> & Hall).
    destruct (Forall2_lookup_l _ _ _ _ _ Hall Hi) as (c & Hc & Hkey).
    exists ([] ++ new), c. split; [exact Hret |].
    split; [symmetry; exact (Forall2_length _ _ _ Hall) |].
    split; [exact Hc | exact Hkey]. }
  split; [apply edge_row_any |].
  split.
  { unfold railway_is, falsy_railway.
    destruct (data !! "railway") as [[s | [| first l]] |].
    - destruct (String.eqb_spec s EmptyString) as [-> | Hne];
        [right; tauto | left; exists s; split; [exact Hne | left; reflexivity]].
    - right. tauto.
    - destruct (String.eqb_spec first EmptyString) as [-> | Hne].
      + right. right. right. right. eexists. reflexivity.
      + left. exists first. split; [exact Hne |]. right. eexists. reflexivity.
    - right. tauto. }
  split.
  { intros r Hne Hr.
    assert (Hrail : forall d, railway_value d = Some r ->
              edge_color_key d = rail_color_key r /\ edge_width d = rail_width r).
    { intros d Hd. unfold edge_color_key, edge_width.
      rewrite Hd, (truthy_str_Some r Hne). split; reflexivity. }
    pose proof (railway_value_first data r Hr) as Hv.
    destruct (Hrail data Hv) as [Hc Hw].
    repeat split; try assumption; try apply rail_row;
      apply Hrail; rewrite railway_value_insert_highway; exact Hv. }
  split.
  { intros Hfalsy h.
    assert (Hh : highway_value data = h).
    { unfold highway_value, h. destruct (data !! "highway") as [[s | [| first l]] |];
        reflexivity. }
    unfold edge_color_key, edge_width.
    rewrite (railway_value_falsy data Hfalsy), Hh.
    repeat split. apply road_row. }
  split; [reflexivity |].
  intros r Hnot. unfold rail_color_key, rail_width, str_in. simpl in *.
  repeat match goal with
         | |- context [String.eqb r ?s] =>
             destruct (String.eqb_spec r s) as [-> | _]; [exfalso; tauto |]
         end.
  simpl. split; reflexivity.
Qed.


End ClassificationClaims.

(* ===================================================================== *)
(** * Crop geometry *)
(* ===================================================================== *)

Section CropGeometry.

Variable project_geometry : Q * Q -> string -> Q * Q.

Lemma Qgt_bool_true a b : Qgt_bool a b = true <-> b < a.
Proof.
  unfold Qgt_bool. rewrite negb_true_iff, <- not_true_iff_false, Qle_bool_iff.
  split; [apply Qnot_le_lt | apply Qlt_not_le].
Qed.

Lemma Qgt_bool_false a b : Qgt_bool a b = false <-> a <= b.
Proof.
  unfold Qgt_bool. rewrite negb_false_iff. apply Qle_bool_iff.
Qed.

Lemma viewport_is_around cx cy hx hy hx' hy' :
  hx == hx' -> hy == hy' ->
  viewport_is (around cx hx, around cy hy) cx cy hx' hy'.
Proof.
  intros Hx Hy. unfold viewport_is, same_limits, half_extent, around. simpl.
  repeat split; try lra.
  - rewrite <- Hx. field.
  - rewrite <- Hy. field.
Qed.

(** The two branches of [get_crop_limits], spelled out. *)
Lemma get_crop_limits_eq g_proj lat lon fig dist :
  let aspect := fig_width fig / fig_height fig in
  let center := project_geometry (lon, lat) (graph_crs g_proj) in
  get_crop_limits project_geometry g_proj (lat, lon) fig dist =
  if Qgt_bool aspect 1
  then (around (fst center) dist, around (snd center) (dist / aspect))
  else (around (fst center) (dist * aspect), around (snd center) dist).
Proof.
  unfold get_crop_limits, get_size_inches, around. simpl.
  destruct (project_geometry (lon, lat) (graph_crs g_proj)) as [cx cy].
  destruct (Qgt_bool (fig_width fig / fig_height fig) 1); reflexivity.
Qed.

(** The three cases of the crop, on the limits returned. *)
Lemma crop_limits_cases g_proj lat lon fig dist :
  let aspect := fig_width fig / fig_height fig in
  let center := project_geometry (lon, lat) (graph_crs g_proj) in
  let limits := get_crop_limits project_geometry g_proj (lat, lon) fig dist in
  (1 < aspect ->
   viewport_is limits (fst center) (snd center) dist (dist / aspect)) /\
  (aspect < 1 ->
   viewport_is limits (fst center) (snd center) (dist * aspect) dist) /\
  (aspect == 1 ->
   viewport_is limits (fst center) (snd center) dist dist).
Proof.
  intros aspect center limits. unfold limits.
  rewrite get_crop_limits_eq. fold aspect. fold center.
  destruct (Qgt_bool aspect 1) eqn:Hgt.
  - apply Qgt_bool_true in Hgt.
    split; [intros _; apply viewport_is_around; reflexivity |].
    split; intros Ha; exfalso; lra.
  - apply Qgt_bool_false in Hgt.
    split; [intros Ha; exfalso; lra |].
    split; intros Ha; apply viewport_is_around; try reflexivity.
    rewrite Ha. ring.
Qed.

(** C3.  The crop algorithm.  With [aspect = fig_width / fig_height] and
    the projected centre [(center_x, center_y)], the limits returned are
    centred on the centre; for [aspect > 1] the horizontal half-extent is
    the radius and the vertical one is radius / aspect; for [aspect < 1]
    the horizontal half-extent is radius * aspect and the vertical one is
    the radius; for [aspect = 1] both are the radius. *)
Theorem crop_limits_algorithm g_proj lat lon fig dist :
  let aspect := fig_width fig / fig_height fig in
  let center := project_geometry (lon, lat) (graph_crs g_proj) in
  let limits := get_crop_limits project_geometry g_proj (lat, lon) fig dist in
  let half_x := half_extent (fst limits) in
  let half_y := half_extent (snd limits) in
  (1 < aspect ->
   half_x == dist /\ half_y == dist / aspect /\
   viewport_is limits (fst center) (snd center) dist (dist / aspect)) /\
  (aspect < 1 ->
   half_x == dist * aspect /\ half_y == dist /\
   viewport_is limits (fst center) (snd center) (dist * aspect) dist) /\
  (aspect == 1 ->
   half_x == dist /\ half_y == dist /\
   viewport_is limits (fst center) (snd center) dist dist).
Proof.
  intros aspect center limits half_x half_y.
  destruct (crop_limits_cases g_proj lat lon fig dist) as (Hland & Hport & Hsq).
  split; [| split]; intros Ha;
    [ pose proof (Hland Ha) as Hview
    | pose proof (Hport Ha) as Hview
    | pose proof (Hsq Ha) as Hview ];
    (split; [apply Hview | split; [apply Hview | exact Hview]]).
Qed.

Lemma aspect_pos fig :
  0 < fig_width fig -> 0 < fig_height fig -> 0 < fig_width fig / fig_height fig.
Proof.
  intros Hw Hh. apply Qlt_shift_div_l; [exact Hh | lra].
Qed.

Lemma Qdiv_le_self d a : 0 < d -> 1 <= a -> d / a <= d.
Proof.
  intros Hd Ha. apply Qle_shift_div_r; [lra |]. nra.
Qed.

(** C4, as the code has it.  For a positive radius and a positive figure
    size the viewport has width / height equal to the aspect ratio, and
    it is cut inward: the larger of its two half-extents is exactly the
    radius, the smaller one is the radius times aspect (portrait) or
    divided by aspect (landscape), hence never larger than the radius. *)
Theorem viewport_aspect_and_larger_extent g_proj lat lon fig dist :
  0 < dist -> 0 < fig_width fig -> 0 < fig_height fig ->
  let aspect := fig_width fig / fig_height fig in
  let limits := get_crop_limits project_geometry g_proj (lat, lon) fig dist in
  let half_x := half_extent (fst limits) in
  let half_y := half_extent (snd limits) in
  (snd (fst limits) - fst (fst limits)) / (snd (snd limits) - fst (snd limits))
    == aspect /\
  Qmax half_x half_y == dist /\
  Qmin half_x half_y == dist * Qmin aspect (/ aspect) /\
  Qmin half_x half_y <= dist.
Proof.
  intros Hd Hw Hh aspect limits half_x half_y.
  pose proof (aspect_pos fig Hw Hh) as Ha. fold aspect in Ha.
  destruct (crop_limits_cases g_proj lat lon fig dist) as (Hland & Hport & Hsq).
  fold aspect in Hland, Hport, Hsq. fold limits in Hland, Hport, Hsq.
  assert (Hcases : exists hx hy,
             viewport_is limits
               (fst (project_geometry (lon, lat) (graph_crs g_proj)))
               (snd (project_geometry (lon, lat) (graph_crs g_proj))) hx hy /\
             hx == hy * aspect /\ 0 < hy /\
             Qmax hx hy == dist /\ Qmin hx hy == dist * Qmin aspect (/ aspect)).
  { destruct (Q_dec aspect 1) as [[Hlt | Hgt] | Heq].
    - exists (dist * aspect), dist. split; [apply Hport, Hlt |].
      assert (aspect <= / aspect).
      { apply Qle_shift_inv_l; [exact Ha | nra]. }
      split; [ring |]. split; [exact Hd |].
      split.
      + apply Q.max_r. nra.
      + rewrite (Q.min_l aspect), Q.min_l; [reflexivity | nra | assumption].
    - exists dist, (dist / aspect). split; [apply Hland, Hgt |].
      assert (/ aspect <= aspect).
      { apply Qle_shift_inv_r; [exact Ha | nra]. }
      pose proof (Qdiv_le_self dist aspect Hd ltac:(lra)) as Hle.
      split; [field; lra |].
      split; [apply Qlt_shift_div_l; lra |].
      split.
      + apply Q.max_l. exact Hle.
      + rewrite (Q.min_r aspect), Q.min_r; [reflexivity | exact Hle | assumption].
    - exists dist, dist. split; [apply Hsq, Heq |].
      split; [rewrite Heq; ring |]. split; [exact Hd |].
      split.
      + apply Q.max_l. lra.
      + rewrite Heq. rewrite Q.min_l by lra.
        rewrite Q.min_l by (apply Qle_shift_inv_l; lra). ring. }
  destruct Hcases as (hx & hy & (Hxl & Hyl & Hhx & Hhy) & Hrel & Hpos & Hmax & Hmin).
  fold half_x in Hhx. fold half_y in Hhy.
  destruct Hxl as [Hx0 Hx1], Hyl as [Hy0 Hy1]. unfold around in *. simpl in *.
  split.
  { rewrite Hx0, Hx1, Hy0, Hy1, Hrel. field. lra. }
  rewrite Hhx, Hhy.
  split; [exact Hmax |]. split; [exact Hmin |].
  rewrite Hmin.
  assert (Qmin aspect (/ aspect) <= 1).
  { destruct (Qlt_le_dec aspect 1) as [Hlt | Hge].
    - apply Qle_trans with aspect; [apply Q.le_min_l | lra].
    - apply Qle_trans with (/ aspect); [apply Q.le_min_r |].
      apply Qle_shift_inv_r; lra. }
  assert (0 <= Qmin aspect (/ aspect)).
  { apply Q.min_glb; [lra |]. apply Qlt_le_weak, Qinv_lt_0_compat. exact Ha. }
  nra.
Qed.

End CropGeometry.

(* ===================================================================== *)
(** * Typography *)
(* ===================================================================== *)

Section ScriptDetection.

Variable isalpha : N -> bool.

Lemma count_chars_spec text latin total :
  PosterText.count_chars isalpha text latin total =
  ((latin + Z.of_nat (length (latin_chars isalpha text)))%Z,
   (total + Z.of_nat (length (alpha_chars isalpha text)))%Z).
Proof.
  unfold latin_chars, alpha_chars.
  revert latin total. induction text as [| char rest IH]; intros latin total.
  - simpl. f_equal; lia.
  - cbn [PosterText.count_chars List.filter].
    destruct (isalpha char); [| apply IH].
    cbn [List.filter]. destruct (char <? 0x250)%N; rewrite IH; cbn [length];
      f_equal; lia.
Qed.

Lemma is_latin_script_counts text :
  PosterText.is_latin_script isalpha text =
  let latin := Z.of_nat (length (latin_chars isalpha text)) in
  let alpha := Z.of_nat (length (alpha_chars isalpha text)) in
  if (alpha =? 0)%Z then true
  else Qgt_bool (inject_Z latin / inject_Z alpha) 0.8.
Proof.
  destruct text as [| char rest]; [reflexivity |].
  unfold PosterText.is_latin_script. rewrite count_chars_spec. reflexivity.
Qed.

Lemma more_than_80_percent (latin alpha : Z) :
  (0 < alpha)%Z ->
  (0.8 < inject_Z latin / inject_Z alpha <-> (80 * alpha < 100 * latin)%Z).
Proof.
  intros Hpos.
  assert (Ha : 0 < inject_Z alpha) by (unfold Qlt; simpl; lia).
  assert (Hz : 0.8 * inject_Z alpha < inject_Z latin <-> (80 * alpha < 100 * latin)%Z)
    by (unfold Qlt; simpl; lia).
  rewrite <- Hz. split.
  - intros H. apply (Qmult_lt_r _ _ (inject_Z alpha)) in H; [| exact Ha].
    assert (Hd : inject_Z latin / inject_Z alpha * inject_Z alpha == inject_Z latin)
      by (field; lra).
    rewrite Hd in H. exact H.
  - intros H. apply Qlt_shift_div_l; assumption.
Qed.

Lemma no_latin_below_han_thai_arabic text :
  Forall (fun c => han_thai_arabic c = true) text -> latin_chars isalpha text = [].
Proof.
  unfold latin_chars, alpha_chars. induction 1 as [| c rest Hc _ IH]; [reflexivity |].
  cbn [List.filter]. destruct (isalpha c); [| exact IH].
  cbn [List.filter]. rewrite IH.
  assert (Hge : (c <? 0x250)%N = false).
  { apply N.ltb_ge. unfold han_thai_arabic in Hc.
    rewrite !orb_true_iff, !andb_true_iff, !N.leb_le in Hc. lia. }
  rewrite Hge. reflexivity.
Qed.

(** C8.  Script detection.  A text without alphabetic characters, the
    empty text among them, is Latin.  A text with alphabetic characters
    is Latin exactly when more than 80% of them have a code point below
    U+0250.  A text written in the Han, Thai or Arabic blocks that has a
    letter in it is not Latin. *)
Theorem latin_script_rule (text : Py.text) :
  let latin := Z.of_nat (length (latin_chars isalpha text)) in
  let alpha := Z.of_nat (length (alpha_chars isalpha text)) in
  PosterText.is_latin_script isalpha [] = true /\
  (alpha = 0%Z -> PosterText.is_latin_script isalpha text = true) /\
  ((0 < alpha)%Z ->
   (PosterText.is_latin_script isalpha text = true <->
    0.8 < inject_Z latin / inject_Z alpha) /\
   (PosterText.is_latin_script isalpha text = true <->
    (80 * alpha < 100 * latin)%Z)) /\
  ((0 < alpha)%Z -> Forall (fun c => han_thai_arabic c = true) text ->
   PosterText.is_latin_script isalpha text = false).
Proof.
  intros latin alpha. split; [reflexivity |].
  rewrite (is_latin_script_counts text). fold latin alpha. cbv zeta.
  split; [intros ->; reflexivity |].
  assert (Hrule : (0 < alpha)%Z ->
            ((if (alpha =? 0)%Z then true
              else Qgt_bool (inject_Z latin / inject_Z alpha) 0.8) = true <->
             0.8 < inject_Z latin / inject_Z alpha)).
  { intros Hpos. destruct (Z.eqb_spec alpha 0) as [Heq | _]; [lia |].
    apply Qgt_bool_true. }
  split.
  - intros Hpos. split; [apply Hrule, Hpos |].
    rewrite (Hrule Hpos). apply more_than_80_percent, Hpos.
  - intros Hpos Hall. apply not_true_is_false. rewrite (Hrule Hpos).
    unfold latin. rewrite (no_latin_below_han_thai_arabic text Hall). simpl.
    intros H. rewrite more_than_80_percent in H by exact Hpos. lia.
Qed.

End ScriptDetection.

Section TitleSize.

Lemma py_max_Qmax a b : py_max a b == Qmax a b.
Proof.
  unfold py_max. destruct (Qgt_bool b a) eqn:Hgt.
  - apply Qgt_bool_true in Hgt. symmetry. apply Q.max_r. lra.
  - apply Qgt_bool_false in Hgt. symmetry. apply Q.max_l. exact Hgt.
Qed.

Lemma py_min_Qmin a b : py_min a b == Qmin a b.
Proof.
  unfold py_min. destruct (Qgt_bool a b) eqn:Hgt.
  - apply Qgt_bool_true in Hgt. symmetry. apply Q.min_r. lra.
  - apply Qgt_bool_false in Hgt. symmetry. apply Q.min_l. exact Hgt.
Qed.

Lemma scale_factor_pos width height :
  0 < width -> 0 < height -> 0 < scale_factor width height.
Proof.
  intros Hw Hh. unfold scale_factor.
  apply Qlt_shift_div_l; [reflexivity |].
  rewrite py_min_Qmin. apply Q.min_glb_lt; lra.
Qed.

(** In the three layouts that show the city, its title is drawn with
    the adjusted size. *)
Lemma title_drawn_at_adjusted_size (env : Env) point text_options
    display_city display_country sf fonts c :
  In text_options ["keep_all"; "no_coords"; "no_country"] ->
  THEME env !! "text" = Some c ->
  exists s font,
    In (Draw (AxText 0.5 0.14 (Label s) c None "center" font))
       (fst (typography env point text_options display_city display_country
               sf fonts)) /\
    size font = adjusted_font_size display_city sf.
Proof.
  intros Hmode Htext.
  exists (if PosterText.is_latin_script (isalpha env) display_city
          then join [32; 32]%N (map (fun ch => [ch]) (upper env display_city))
          else display_city),
         (font_props (match fonts with Some f => Some f | None => FONTS env end)
            bold (Some "bold") (adjusted_font_size display_city sf)).
  split.
  - unfold typography, ax_text, ax_rule, when, lift, theme_item.
    rewrite Htext. simpl in Hmode.
    destruct Hmode as [<- | [<- | [<- | []]]]; cbn; tauto.
  - unfold font_props. destruct fonts, (FONTS env); reflexivity.
Qed.

(** The rule of the title size, in the scale factor. *)
Lemma adjusted_font_size_rule (display_city : Py.text) (sf : Q) :
  let base := base_main * sf in
  let chars := length display_city in
  base == 60 * sf /\
  ((chars <= 10)%nat -> adjusted_font_size display_city sf = base) /\
  ((10 < chars)%nat ->
   adjusted_font_size display_city sf
   == Qmax (base * (10 / inject_Z (Z.of_nat chars))) (10 * sf)) /\
  (chars = 5%nat -> adjusted_font_size display_city sf = base) /\
  (chars = 20%nat -> 0 <= sf ->
   adjusted_font_size display_city sf == base * (10 / 20)).
Proof.
  intros base chars.
  assert (Hshort : (chars <= 10)%nat -> adjusted_font_size display_city sf = base).
  { intros Hle. unfold adjusted_font_size. fold chars.
    destruct (Z.gtb_spec (Z.of_nat chars) 10) as [Hgt | _]; [lia | reflexivity]. }
  assert (Hlong : (10 < chars)%nat ->
            adjusted_font_size display_city sf
            == Qmax (base * (10 / inject_Z (Z.of_nat chars))) (10 * sf)).
  { intros Hlt. unfold adjusted_font_size. fold chars.
    destruct (Z.gtb_spec (Z.of_nat chars) 10) as [_ | Hle]; [| lia].
    apply py_max_Qmax. }
  split; [reflexivity |].
  split; [exact Hshort |].
  split; [exact Hlong |].
  split; [intros H5; apply Hshort; lia |].
  intros H20 Hsf. rewrite Hlong by lia. rewrite H20.
  apply Q.max_l. unfold base, base_main.
  change (inject_Z (Z.of_nat 20)) with 20.
  assert (Hhalf : 10 / 20 == 1 # 2) by reflexivity.
  rewrite Hhalf. lra.
Qed.

(** A larger scale factor gives a larger title. *)
Lemma adjusted_font_size_increasing (display_city : Py.text) (a b : Q) :
  a < b -> adjusted_font_size display_city a < adjusted_font_size display_city b.
Proof.
  intros Hab. unfold adjusted_font_size, base_main.
  destruct (Z.gtb_spec (Z.of_nat (length display_city)) 10) as [Hgt | _];
    [| lra].
  set (k := 10 / inject_Z (Z.of_nat (length display_city))).
  assert (Hk : 0 < k).
  { unfold k. apply Qlt_shift_div_l.
    - change 0 with (inject_Z 0). rewrite <- Zlt_Qlt. lia.
    - rewrite Qmult_0_l. reflexivity. }
  assert (Hka : 60 * a * k < 60 * b * k).
  { apply Qmult_lt_compat_r; [exact Hk | lra]. }
  rewrite !py_max_Qmax.
  apply Q.max_lub_lt.
  - eapply Qlt_le_trans; [exact Hka | apply Q.le_max_l].
  - eapply Qlt_le_trans; [| apply Q.le_max_r]. lra.
Qed.

(** The railway loop knows five line widths, none above 1. *)
Lemma rail_group_style_width (THEME : theme) (railway_type : string) :
  In (snd (rail_group_style THEME railway_type)) [1.0; 0.7; 0.6; 0.4; 0.5].
Proof.
  unfold rail_group_style.
  repeat (match goal with |- context [if ?b then _ else _] => destruct b end);
    simpl; tauto.
Qed.

(** With a line width in its place, the smaller side of the figure is
    at most 1. *)
Lemma scale_factor_of_line_width (THEME : theme) (railway_type : string)
    (height : Q) :
  scale_factor (snd (rail_group_style THEME railway_type)) height <= 1 # 12.
Proof.
  assert (Htwelfth : 1 # 12 == 1 / 12) by reflexivity. rewrite Htwelfth.
  unfold scale_factor. rewrite py_min_Qmin.
  pose proof (Q.le_min_r height (snd (rail_group_style THEME railway_type)))
    as Hmin.
  assert (Hone : snd (rail_group_style THEME railway_type) <= 1).
  { pose proof (rail_group_style_width THEME railway_type) as Hin. simpl in Hin.
    destruct Hin as [<- | [<- | [<- | [<- | [<- | []]]]]]; discriminate. }
  apply Qle_shift_div_r; [reflexivity |].
  eapply Qle_trans; [exact Hmin |].
  eapply Qle_trans; [exact Hone |]. discriminate.
Qed.

End TitleSize.

(* ===================================================================== *)
(** * Runs: logs and outcomes *)
(* ===================================================================== *)

Section Runs.

Context {A B : Type}.
Implicit Types (m : M A) (k : A -> M B).

Lemma snd_bind m k :
  snd (m ≫= k) = match snd m with
                 | Returns a => snd (k a)
                 | Raises e => Raises e
                 end.
Proof.
  destruct m as [log [a | e]]; simpl; [| reflexivity].
  unfold mbind, M_bind. destruct (k a); reflexivity.
Qed.

Lemma fst_bind m k :
  fst (m ≫= k) = match snd m with
                 | Returns a => fst m ++ fst (k a)
                 | Raises e => fst m
                 end.
Proof.
  destruct m as [log [a | e]]; simpl; [| reflexivity].
  unfold mbind, M_bind. destruct (k a); reflexivity.
Qed.

Lemma bind_returns_inv m k b :
  snd (m ≫= k) = Returns b ->
  exists a, snd m = Returns a /\ snd (k a) = Returns b /\
            fst (m ≫= k) = fst m ++ fst (k a).
Proof.
  rewrite fst_bind, snd_bind. destruct (snd m) as [a | e]; [| discriminate].
  intros Hk. exists a. auto.
Qed.

End Runs.

Lemma axis_limits_app l1 l2 :
  axis_limits (l1 ++ l2) = axis_limits l1 ++ axis_limits l2.
Proof. apply List.filter_app. Qed.

(* ===================================================================== *)
(** * Fetching *)
(* ===================================================================== *)

Section Fetching.

Variable sv : Services.




Lemma fetch_features_answers point dist filter name :
  (exists hit,
     cache_get_features sv
       (FeaturesKey name (fst point) (snd point) dist (normalize_tags sv filter))
     = Returns hit) ->
  exists df, snd (fetch_features sv point dist filter name) = Returns df.
Proof.
  destruct point as [lat lon]. simpl. intros [hit Hhit].
  unfold fetch_features, call. rewrite Hhit.
  destruct hit as [df |]; [eexists; reflexivity |].
  destruct (features_from_point sv (lat, lon) dist filter) as [df | e];
    [| eexists; reflexivity].
  destruct (cache_set_features sv
              (FeaturesKey name lat lon dist (normalize_tags sv filter)) df)
    as [[] | e]; [eexists; reflexivity |].
  destruct e; eexists; reflexivity.
Qed.

Lemma fetch_graph_log point dist :
  exists rest,
    fst (fetch_graph sv point dist)
    = CacheGet (GraphKey (fst point) (snd point) dist) :: rest /\
    axis_limits rest = [].
Proof.
  destruct point as [lat lon]. simpl. unfold fetch_graph, call.
  destruct (cache_get_graph sv (GraphKey lat lon dist)) as [[g |] | e];
    [eexists; split; reflexivity | | eexists; split; reflexivity].
  destruct (graph_from_point sv (lat, lon) dist) as [g | e];
    [| eexists; split; reflexivity].
  destruct (cache_set_graph sv (GraphKey lat lon dist) g) as [[] | e];
    [eexists; split; reflexivity |].
  destruct e; eexists; split; reflexivity.
Qed.

Lemma fetch_features_log point dist filter name :
  axis_limits (fst (fetch_features sv point dist filter name)) = [].
Proof.
  destruct point as [lat lon]. unfold fetch_features, call.
  destruct (cache_get_features sv
              (FeaturesKey name lat lon dist (normalize_tags sv filter)))
    as [[df |] | e]; try reflexivity.
  destruct (features_from_point sv (lat, lon) dist filter) as [df | e];
    [| reflexivity].
  cbn.
  destruct (cache_set_features sv
              (FeaturesKey name lat lon dist (normalize_tags sv filter)) df)
    as [[] | e]; [reflexivity |].
  destruct e; reflexivity.
Qed.

End Fetching.

(* ===================================================================== *)
(** * Reading a log *)
(* ===================================================================== *)

Lemma drawn_app l1 l2 : drawn (l1 ++ l2) = drawn l1 ++ drawn l2.
Proof. apply flat_map_app. Qed.

Lemma layers_app l1 l2 : layers (l1 ++ l2) = layers l1 ++ layers l2.
Proof. unfold layers. rewrite drawn_app. apply map_app. Qed.

Lemma cache_lookups_app l1 l2 :
  cache_lookups (l1 ++ l2) = cache_lookups l1 ++ cache_lookups l2.
Proof. apply flat_map_app. Qed.

Lemma remote_calls_app l1 l2 :
  remote_calls (l1 ++ l2) = remote_calls l1 ++ remote_calls l2.
Proof. apply List.filter_app. Qed.

(** What a fetch leaves in the log: one lookup, at most one remote call,
    no drawing. *)
Lemma fetch_graph_observed sv point dist :
  cache_lookups (fst (fetch_graph sv point dist))
  = [GraphKey (fst point) (snd point) dist] /\
  (remote_calls (fst (fetch_graph sv point dist)) = [] \/
   remote_calls (fst (fetch_graph sv point dist)) = [GraphFromPoint point dist]) /\
  drawn (fst (fetch_graph sv point dist)) = [].
Proof.
  destruct point as [lat lon]. cbn [fst snd]. unfold fetch_graph, call.
  destruct (cache_get_graph sv (GraphKey lat lon dist)) as [[g |] | e];
    [repeat split; auto | | repeat split; auto].
  destruct (graph_from_point sv (lat, lon) dist) as [g | e];
    [| repeat split; auto].
  cbn.
  destruct (cache_set_graph sv (GraphKey lat lon dist) g) as [[] | e];
    [repeat split; auto |].
  destruct e; repeat split; auto.
Qed.

Lemma fetch_features_observed sv point dist filter name :
  cache_lookups (fst (fetch_features sv point dist filter name))
  = [FeaturesKey name (fst point) (snd point) dist (normalize_tags sv filter)] /\
  (remote_calls (fst (fetch_features sv point dist filter name)) = [] \/
   remote_calls (fst (fetch_features sv point dist filter name))
   = [FeaturesFromPoint point dist filter]) /\
  drawn (fst (fetch_features sv point dist filter name)) = [].
Proof.
  destruct point as [lat lon]. cbn [fst snd]. unfold fetch_features, call.
  destruct (cache_get_features sv
              (FeaturesKey name lat lon dist (normalize_tags sv filter)))
    as [[df |] | e]; [repeat split; auto | | repeat split; auto].
  destruct (features_from_point sv (lat, lon) dist filter) as [df | e];
    [| repeat split; auto].
  cbn.
  destruct (cache_set_features sv
              (FeaturesKey name lat lon dist (normalize_tags sv filter)) df)
    as [[] | e]; [repeat split; auto |].
  destruct e; repeat split; auto.
Qed.

(* ===================================================================== *)
(** * Rendering *)
(* ===================================================================== *)

Section Rendering.

Variable env : Env.

Lemma covers_poster_keys_item key :
  covers_poster_keys (THEME env) ->
  In key ["bg"; "text"; "gradient_color"; "water"; "parks"] ->
  exists c, theme_item (THEME env) key = Returns c.
Proof.
  unfold covers_poster_keys. rewrite List.Forall_forall. intros Hall Hin.
  destruct (Hall key Hin) as [c Hc]. exists c. unfold theme_item. rewrite Hc.
  reflexivity.
Qed.

Lemma plot_polygon_layer_quiet g_proj layer key zorder :
  axis_limits (fst (plot_polygon_layer env g_proj layer key zorder)) = [].
Proof.
  unfold plot_polygon_layer, when, theme_item, lift.
  destruct layer as [df |]; [| reflexivity].
  destruct (empty df); [reflexivity |]. cbn [negb].
  destruct (empty (of_type is_polygon df)); [reflexivity |]. cbn [negb].
  destruct (THEME env !! key); reflexivity.
Qed.

Lemma plot_polygon_layer_returns g_proj layer key zorder :
  covers_poster_keys (THEME env) -> In key ["water"; "parks"] ->
  snd (plot_polygon_layer env g_proj layer key zorder) = Returns tt.
Proof.
  intros Hall Hkey.
  destruct (covers_poster_keys_item key Hall) as [c Hc]; [simpl in *; tauto |].
  unfold plot_polygon_layer, when, lift. rewrite Hc.
  destruct layer as [df |]; [| reflexivity].
  destruct (empty df); [reflexivity |]. cbn [negb].
  destruct (empty (of_type is_polygon df)); reflexivity.
Qed.

Lemma width_after_cons tg rest width :
  width_after env (tg :: rest) width
  = width_after env rest (snd (rail_group_style (THEME env) (fst tg))).
Proof.
  unfold width_after. destruct tg as [railway_type group].
  destruct rest as [| tg' rest]; [reflexivity |].
  change (last ((railway_type, group) :: tg' :: rest)) with (last (tg' :: rest)).
  destruct (last (tg' :: rest)) as [[railway_type' group'] |] eqn:Hlast;
    [reflexivity |].
  apply last_None in Hlast. discriminate.
Qed.

(** The railway loop cannot raise, and answers with the line width of
    its last group. *)
Lemma plot_rail_groups_run groups width :
  axis_limits (fst (plot_rail_groups env groups width)) = [] /\
  snd (plot_rail_groups env groups width) = Returns (width_after env groups width).
Proof.
  revert width.
  induction groups as [| [railway_type group] rest IH]; intros width;
    [split; reflexivity |].
  rewrite width_after_cons. cbn [plot_rail_groups fst].
  destruct (rail_group_style (THEME env) railway_type) as [c w] eqn:Hstyle.
  rewrite fst_bind, snd_bind. cbn [snd fst emit].
  destruct (IH w) as [IHlog IHout].
  rewrite axis_limits_app, IHlog. split; [reflexivity | exact IHout].
Qed.

Lemma plot_railways_groups g_proj railways width :
  plot_railways env g_proj railways width
  = plot_rail_groups env (rail_groups env g_proj railways) width.
Proof.
  unfold plot_railways, rail_groups.
  destruct railways as [df |]; [| reflexivity].
  destruct (empty df); [reflexivity |]. cbn [negb].
  destruct (empty (of_type is_line df)); reflexivity.
Qed.

Lemma plot_railways_run g_proj railways width :
  axis_limits (fst (plot_railways env g_proj railways width)) = [] /\
  snd (plot_railways env g_proj railways width)
  = Returns (width_after env (rail_groups env g_proj railways) width).
Proof. rewrite plot_railways_groups. apply plot_rail_groups_run. Qed.

Lemma typography_quiet point text_options display_city display_country sf fonts :
  axis_limits
    (fst (typography env point text_options display_city display_country sf fonts))
  = [].
Proof.
  unfold typography, ax_text, ax_rule, when, theme_item, lift.
  destruct (THEME env !! "text");
    destruct (String.eqb text_options "keep_all");
    destruct (String.eqb text_options "no_coords");
    destruct (String.eqb text_options "no_country");
    destruct (String.eqb text_options "no_city_country");
    reflexivity.
Qed.

Lemma typography_returns point text_options display_city display_country sf fonts :
  covers_poster_keys (THEME env) ->
  snd (typography env point text_options display_city display_country sf fonts)
  = Returns tt.
Proof.
  intros Hall.
  destruct (covers_poster_keys_item "text" Hall) as [c Hc]; [simpl; tauto |].
  unfold typography, ax_text, ax_rule, when, lift. rewrite Hc.
  destruct (String.eqb text_options "keep_all");
    destruct (String.eqb text_options "no_coords");
    destruct (String.eqb text_options "no_country");
    destruct (String.eqb text_options "no_city_country");
    reflexivity.
Qed.

End Rendering.

(* ===================================================================== *)
(** * Runs of the pipeline *)
(* ===================================================================== *)

Section PosterRuns.

Variable env : Env.

Ltac bind_step H :=
  let a := fresh "a" in
  let Ha := fresh "Hstep" in
  let Hl := fresh "Hlog" in
  apply bind_returns_inv in H as (a & Ha & H & Hl);
  rewrite Hl, axis_limits_app; clear Hl; cbv beta in H |- *.

(** A rendering that completes set the axis limits once, to the crop
    limits of the distance it was given. *)
Lemma render_limits g water parks railways point cd output_file output_format
    text_options width height display_city display_country fonts :
  snd (render env g water parks railways point cd output_file output_format
         text_options width height display_city display_country fonts)
  = Returns tt ->
  let limits :=
    get_crop_limits (project_geometry env) (project_graph env g) point
      {| fig_width := width; fig_height := height |} cd in
  axis_limits
    (fst (render env g water parks railways point cd output_file output_format
            text_options width height display_city display_country fonts))
  = [Draw (SetXlim (fst limits)); Draw (SetYlim (snd limits))].
Proof.
  intros Hrun limits. unfold limits. revert Hrun. unfold render. cbv zeta.
  destruct (get_crop_limits _ _ _ _ _) as [crop_xlim crop_ylim].
  intros Hrun.
  repeat bind_step Hrun.
  rewrite !plot_polygon_layer_quiet, typography_quiet.
  rewrite (proj1 (plot_railways_run env _ _ _)).
  reflexivity.
Qed.

(** With a complete theme nothing in the rendering can raise, whichever
    layers are there. *)
Lemma render_returns g water parks railways point cd output_file output_format
    text_options width height display_city display_country fonts :
  covers_poster_keys (THEME env) -> covers_style_table (util_THEME env) ->
  snd (render env g water parks railways point cd output_file output_format
         text_options width height display_city display_country fonts)
  = Returns tt.
Proof.
  intros Hkeys Hroles. unfold render. cbv zeta.
  destruct (get_crop_limits _ _ _ _ _) as [crop_xlim crop_ylim].
  destruct (covers_poster_keys_item env "bg" Hkeys) as [bg Hbg]; [simpl; tauto |].
  destruct (covers_poster_keys_item env "gradient_color" Hkeys) as [gc Hgc];
    [simpl; tauto |].
  destruct (colors_loop_total (util_THEME env)
              (graph_edges (project_graph env g)) [] Hroles) as [colors Hcolors].
  fold (get_edge_colors_by_type (util_THEME env) (project_graph env g)) in Hcolors.
  repeat (rewrite snd_bind;
          first [ rewrite plot_polygon_layer_returns by (simpl; tauto)
                | rewrite (proj2 (plot_railways_run env _ _ _))
                | rewrite typography_returns by assumption
                | rewrite Hbg | rewrite Hgc | rewrite Hcolors
                | idtac ];
          cbn [snd emit lift]).
  reflexivity.
Qed.

(** What a rendering draws, with a complete theme: the figure, the two
    polygon layers, the street network, the railway lines, the crop, the
    two fades, the texts, and the saved file. *)
Lemma render_drawn g water parks railways point cd output_file output_format
    text_options width height display_city display_country fonts :
  covers_poster_keys (THEME env) -> covers_style_table (util_THEME env) ->
  let g_proj := project_graph env g in
  let limits :=
    get_crop_limits (project_geometry env) g_proj point
      {| fig_width := width; fig_height := height |} cd in
  let xlim := get_xlim env (fst limits) in
  let ylim := get_ylim env (snd limits) in
  let fmt := str_lower output_format in
  exists bg gradient_color edge_colors,
    theme_item (THEME env) "bg" = Returns bg /\
    theme_item (THEME env) "gradient_color" = Returns gradient_color /\
    get_edge_colors_by_type (util_THEME env) g_proj = Returns edge_colors /\
    drawn (fst (render env g water parks railways point cd output_file
                  output_format text_options width height display_city
                  display_country fonts))
    = [Subplots (width, height) bg; SetFacecolor bg; SetPosition]
      ++ drawn (fst (plot_polygon_layer env g_proj water "water" 0.5))
      ++ drawn (fst (plot_polygon_layer env g_proj parks "parks" 0.8))
      ++ [PlotGraph g_proj bg edge_colors (get_edge_widths_by_type g_proj)]
      ++ drawn (fst (plot_railways env g_proj railways width))
      ++ [SetAspectEqual; SetXlim (fst limits); SetYlim (snd limits);
          Imshow (create_gradient_fade xlim ylim gradient_color "bottom" 10);
          Imshow (create_gradient_fade xlim ylim gradient_color "top" 10)]
      ++ drawn (fst (typography env point text_options display_city
                       display_country
                       (scale_factor
                          (width_after env (rail_groups env g_proj railways) width)
                          height)
                       fonts))
      ++ [Savefig output_file fmt
            (if String.eqb fmt "png" then Some 300%Z else None) bg;
          Close].
Proof.
  intros Hkeys Hroles g_proj limits xlim ylim fmt.
  destruct (covers_poster_keys_item env "bg" Hkeys) as [bg Hbg]; [simpl; tauto |].
  destruct (covers_poster_keys_item env "gradient_color" Hkeys) as [gc Hgc];
    [simpl; tauto |].
  destruct (colors_loop_total (util_THEME env)
              (graph_edges (project_graph env g)) [] Hroles) as [colors Hcolors].
  fold (get_edge_colors_by_type (util_THEME env) (project_graph env g)) in Hcolors.
  exists bg, gc, colors.
  split; [exact Hbg |]. split; [exact Hgc |]. split; [exact Hcolors |].
  subst xlim ylim limits fmt g_proj. unfold render. cbv zeta.
  destruct (get_crop_limits _ _ _ _ _) as [crop_xlim crop_ylim].
  cbn [fst snd].
  repeat (rewrite fst_bind;
          first [ rewrite plot_polygon_layer_returns by (simpl; tauto)
                | rewrite (proj2 (plot_railways_run env _ _ _))
                | rewrite typography_returns by assumption
                | rewrite Hbg | rewrite Hgc | rewrite Hcolors
                | idtac ];
          cbn [snd fst emit lift]; rewrite drawn_app).
  reflexivity.
Qed.

(** Only the texts have a title among them. *)
Lemma plot_polygon_layer_no_title g_proj layer key zorder :
  title_sizes (fst (plot_polygon_layer env g_proj layer key zorder)) = [].
Proof.
  unfold plot_polygon_layer, when, theme_item, lift.
  destruct layer as [df |]; [| reflexivity].
  destruct (empty df); [reflexivity |]. cbn [negb].
  destruct (empty (of_type is_polygon df)); [reflexivity |]. cbn [negb].
  destruct (THEME env !! key); reflexivity.
Qed.

Lemma plot_railways_no_title g_proj railways width :
  title_sizes (fst (plot_railways env g_proj railways width)) = [].
Proof.
  rewrite plot_railways_groups.
  generalize (rail_groups env g_proj railways). intros groups. revert width.
  induction groups as [| [railway_type group] rest IH]; intros width;
    [reflexivity |].
  cbn [plot_rail_groups].
  destruct (rail_group_style (THEME env) railway_type) as [c w].
  rewrite fst_bind. cbn [snd fst emit].
  unfold title_sizes in *. rewrite drawn_app, flat_map_app, IH. reflexivity.
Qed.

(** In the three layouts that show the city there is one title, of the
    adjusted size. *)
Lemma typography_title point text_options display_city display_country sf fonts :
  In text_options ["keep_all"; "no_coords"; "no_country"] ->
  covers_poster_keys (THEME env) ->
  title_sizes (fst (typography env point text_options display_city
                      display_country sf fonts))
  = [adjusted_font_size display_city sf].
Proof.
  intros Hmode Hkeys.
  destruct (covers_poster_keys_item env "text" Hkeys) as [c Hc]; [simpl; tauto |].
  unfold typography, ax_text, ax_rule, when, lift. rewrite Hc.
  simpl in Hmode.
  assert (Hcoords : exists shown ns lon ew,
            coords_label point = Coords shown ns lon ew).
  { unfold coords_label. destruct point as [lat lon].
    destruct (Qle_bool 0 lat); repeat eexists. }
  destruct Hcoords as (shown & ns & lon & ew & Hcoords).
  destruct Hmode as [<- | [<- | [<- | []]]]; cbn; rewrite ?Hcoords;
    unfold font_props, Qeq_bool; destruct fonts, (FONTS env); reflexivity.
Qed.

Lemma in_drawn cmd log : In (Draw cmd) log <-> In cmd (drawn log).
Proof.
  unfold drawn. rewrite in_flat_map. split.
  - intros Hin. exists (Draw cmd). split; [exact Hin | left; reflexivity].
  - intros (ev & Hin & Hcmd). destruct ev; try contradiction.
    destruct Hcmd as [<- | []]. exact Hin.
Qed.

Section OneRequest.

Variables (city country : Py.text) (point : Q * Q) (dist : Q)
  (output_file output_format text_options : string) (width height : Q)
  (country_label name_label display_city display_country : option Py.text)
  (fonts : option Fonts).

(** The distance compensation raises exactly when the smaller side of
    the figure is zero. *)
Lemma compensated_dist_cases :
  (~ py_min height width == 0 /\
   compensated_dist dist width height
   = Returns (dist * (py_max height width / py_min height width) / 4)) \/
  (py_min height width == 0 /\
   compensated_dist dist width height = Raises ZeroDivisionError).
Proof.
  unfold compensated_dist, py_div.
  destruct (Qeq_bool (py_min height width) 0) eqn:Hzero.
  - right. split; [apply Qeq_bool_iff; exact Hzero | reflexivity].
  - left. split; [apply Qeq_bool_neq; exact Hzero | reflexivity].
Qed.

Lemma compensated_dist_positive :
  0 < width -> 0 < height ->
  compensated_dist dist width height
  = Returns (dist * (py_max height width / py_min height width) / 4).
Proof.
  intros Hw Hh. destruct compensated_dist_cases as [[_ H] | [Hzero _]];
    [exact H |].
  rewrite py_min_Qmin in Hzero.
  assert (0 < Qmin height width) by (apply Q.min_glb_lt; assumption).
  lra.
Qed.

(** A figure with a zero side stops the run after its banner. *)
Lemma create_poster_zero_side e :
  compensated_dist dist width height = Raises e ->
  create_poster env city country point dist output_file output_format
    text_options width height country_label name_label display_city
    display_country fonts
  = ([Print (MsgGenerating city country)], Raises e).
Proof. intros Hcd. unfold create_poster. rewrite Hcd. reflexivity. Qed.

Variable cd : Q.
Hypothesis Hcd : compensated_dist dist width height = Returns cd.




Lemma create_poster_completes g :
  cache_reads_answer (services env) ->
  covers_poster_keys (THEME env) -> covers_style_table (util_THEME env) ->
  snd (fetch_graph (services env) point cd) = Returns (Some g) ->
  snd (create_poster env city country point dist output_file output_format
         text_options width height country_label name_label display_city
         display_country fonts)
  = Returns tt.
Proof.
  intros [_ Hcache] Hkeys Hroles Hg. unfold create_poster. rewrite Hcd.
  rewrite snd_bind. cbn [snd emit]. rewrite snd_bind. cbn [snd lift].
  rewrite snd_bind, Hg.
  rewrite snd_bind.
  destruct (fetch_features_answers (services env) point cd water_tags "water"
              (Hcache _)) as [water ->].
  rewrite snd_bind.
  destruct (fetch_features_answers (services env) point cd parks_tags "parks"
              (Hcache _)) as [parks ->].
  rewrite snd_bind.
  destruct (fetch_features_answers (services env) point cd railway_tags "railways"
              (Hcache _)) as [railways ->].
  rewrite snd_bind. cbn [snd emit].
  apply render_returns; assumption.
Qed.

Lemma create_poster_limits :
  snd (create_poster env city country point dist output_file output_format
         text_options width height country_label name_label display_city
         display_country fonts)
  = Returns tt ->
  exists g,
    snd (fetch_graph (services env) point cd) = Returns (Some g) /\
    let limits :=
      get_crop_limits (project_geometry env) (project_graph env g) point
        {| fig_width := width; fig_height := height |} cd in
    axis_limits
      (fst (create_poster env city country point dist output_file output_format
              text_options width height country_label name_label display_city
              display_country fonts))
    = [Draw (SetXlim (fst limits)); Draw (SetYlim (snd limits))].
Proof.
  unfold create_poster. rewrite Hcd. intros Hrun.
  bind_step Hrun. bind_step Hrun. cbn [snd lift] in Hstep0.
  injection Hstep0 as <-. bind_step Hrun.
  destruct a0 as [g |]; [| discriminate].
  exists g. split; [assumption |].
  repeat bind_step Hrun.
  rewrite !fetch_features_log.
  destruct (fetch_graph_log (services env) point cd) as (rest & -> & Hrest).
  rewrite (render_limits _ _ _ _ _ _ _ _ _ _ _ _ _ _ Hrun).
  unfold axis_limits in *. cbn. rewrite Hrest. reflexivity.
Qed.

(** With a street network and a cache that answers, what a run draws is
    what the rendering of the fetched layers draws. *)
Lemma create_poster_drawn g :
  cache_reads_answer (services env) ->
  snd (fetch_graph (services env) point cd) = Returns (Some g) ->
  exists water parks railways,
    snd (fetch_features (services env) point cd water_tags "water")
    = Returns water /\
    snd (fetch_features (services env) point cd parks_tags "parks")
    = Returns parks /\
    snd (fetch_features (services env) point cd railway_tags "railways")
    = Returns railways /\
    drawn (fst (create_poster env city country point dist output_file
                  output_format text_options width height country_label
                  name_label display_city display_country fonts))
    = drawn (fst (render env g water parks railways point cd output_file
                    output_format text_options width height
                    (or_text display_city (or_text name_label city))
                    (or_text display_country (or_text country_label country))
                    fonts)).
Proof.
  intros [_ Hcache] Hg.
  destruct (fetch_features_answers (services env) point cd water_tags "water"
              (Hcache _)) as [water Hwater].
  destruct (fetch_features_answers (services env) point cd parks_tags "parks"
              (Hcache _)) as [parks Hparks].
  destruct (fetch_features_answers (services env) point cd railway_tags "railways"
              (Hcache _)) as [railways Hrailways].
  exists water, parks, railways.
  split; [exact Hwater |]. split; [exact Hparks |]. split; [exact Hrailways |].
  unfold create_poster. rewrite Hcd. cbv zeta.
  rewrite fst_bind. cbn [snd fst emit]. rewrite fst_bind. cbn [snd fst lift].
  rewrite fst_bind, Hg, fst_bind, Hwater, fst_bind, Hparks, fst_bind, Hrailways.
  rewrite fst_bind. cbn [snd fst emit].
  rewrite !drawn_app.
  rewrite (proj2 (proj2 (fetch_graph_observed (services env) point cd))).
  rewrite (proj2 (proj2 (fetch_features_observed (services env) point cd
                           water_tags "water"))).
  rewrite (proj2 (proj2 (fetch_features_observed (services env) point cd
                           parks_tags "parks"))).
  rewrite (proj2 (proj2 (fetch_features_observed (services env) point cd
                           railway_tags "railways"))).
  reflexivity.
Qed.

End OneRequest.
End PosterRuns.

(* ===================================================================== *)
(** * Claims about the pipeline *)
(* ===================================================================== *)

Section PipelineClaims.

Lemma viewport_is_proper limits cx cy hx hy hx' hy' :
  hx == hx' -> hy == hy' ->
  viewport_is limits cx cy hx hy -> viewport_is limits cx cy hx' hy'.
Proof.
  unfold viewport_is, same_limits, around. simpl.
  intros Hx Hy (Hxl & Hyl & Hhx & Hhy).
  rewrite <- Hx, <- Hy. auto.
Qed.

Lemma paris_compensated_dist :
  compensated_dist 10000 12 16 = Returns (10000 * (16 / 12) / 4).
Proof. reflexivity. Qed.

(** C1, as the code has it.  For the request centred on
    (48.8566, 2.3522) with radius 10000 on a 12 by 16 figure, a run that
    completes has fetched the street network at the compensated distance
    10000 * (16 / 12) / 4 = 10000 / 3 and has set the axis limits once,
    around the projected centre, to the height-constrained viewport of
    that distance: horizontal half-extent (10000 / 3) * 12 / 16 = 2500,
    vertical half-extent 10000 / 3. *)
Theorem paris_viewport (env : Env) (city country : Py.text)
    (output_file output_format text_options : string)
    (country_label name_label display_city display_country : option Py.text)
    (fonts : option Fonts) :
  let point := (48.8566, 2.3522) in
  let run :=
    create_poster env city country point 10000 output_file output_format
      text_options 12 16 country_label name_label display_city
      display_country fonts in
  snd run = Returns tt ->
  exists cd,
    compensated_dist 10000 12 16 = Returns cd /\ cd == 10000 # 3 /\
    exists g xlim ylim,
      snd (fetch_graph (services env) point cd) = Returns (Some g) /\
      axis_limits (fst run) = [Draw (SetXlim xlim); Draw (SetYlim ylim)] /\
      let center :=
        project_geometry env (2.3522, 48.8566) (graph_crs (project_graph env g)) in
      viewport_is (xlim, ylim) (fst center) (snd center) 2500 (10000 # 3).
Proof.
  intros point run Hrun.
  exists (10000 * (16 / 12) / 4).
  split; [exact paris_compensated_dist |]. split; [reflexivity |].
  destruct (create_poster_limits env _ _ _ _ _ _ _ _ _ _ _ _ _ _ _
              paris_compensated_dist Hrun) as (g & Hg & Hlimits).
  cbv zeta in Hlimits. fold run in Hlimits.
  set (limits := get_crop_limits _ _ _ _ _) in Hlimits.
  exists g, (fst limits), (snd limits).
  split; [exact Hg |]. split; [exact Hlimits |].
  intros center.
  destruct (crop_limits_cases (project_geometry env) (project_graph env g)
              48.8566 2.3522 {| fig_width := 12; fig_height := 16 |}
              (10000 * (16 / 12) / 4)) as (_ & Hportrait & _).
  cbv zeta in Hportrait. simpl fig_width in Hportrait. simpl fig_height in Hportrait.
  rewrite <- surjective_pairing.
  eapply viewport_is_proper; [| | apply Hportrait; reflexivity]; reflexivity.
Qed.

(** C5, evaluated.  The railway loop of [create_poster] picks the colour
    of the right role for every group, and the width of
    [get_edge_widths_by_type] and of the style table for every group
    except light_rail and tram, where it picks 0.7 instead of 0.8. *)
Theorem rail_group_style_light_width (THEME : theme) :
  let subtypes :=
    ["rail"; "subway"; "light_rail"; "tram"; "narrow_gauge"; "funicular";
     "monorail"; "service"; "yard"; "siding"; "abandoned"] in
  map (fun t => fst (rail_group_style THEME t)) subtypes
  = map (fun t => THEME !! rail_color_key t) subtypes /\
  map (fun t => snd (rail_group_style THEME t)) subtypes
  = [1.0; 1.0; 0.7; 0.7; 0.6; 0.6; 0.6; 0.4; 0.4; 0.4; 0.5] /\
  map rail_width subtypes
  = [1.0; 1.0; 0.8; 0.8; 0.6; 0.6; 0.6; 0.4; 0.4; 0.4; 0.5] /\
  rail_group_style THEME "tram" = (THEME !! "rail_light", 0.7) /\
  rail_group_style THEME "light_rail" = (THEME !! "rail_light", 0.7) /\
  In ("rail_light", 0.8) rail_style_table /\
  ~ 0.7 == 0.8.
Proof.
  cbv zeta. repeat split; try reflexivity.
  - simpl. tauto.
  - discriminate.
Qed.



(** C9, as the code has it.  Main-title scaling.  In the scale factor it
    is given, the size of the title follows the rule of the claim: 60
    times the factor for a name of at most 10 characters, and for a name
    of [L > 10] characters 60 times the factor times 10 / L, but at
    least 10 times the factor; so 5 characters give the base size and 20
    characters half of it.  On a figure of positive size, a run that
    gets its street network, with a complete theme and one of the three
    layouts that show the city, completes and draws one title, at that
    size.  The scale factor,
    though, is [min(height, width) / 12] with the [width] that the
    railway loop leaves behind.  That is the width of the figure only
    when no railway group is drawn.  When one is drawn, it is the line
    width of the last group, one of 1.0, 0.7, 0.6, 0.4 and 0.5; then a
    name of at most 10 characters is set at 5 points or less, and on a
    figure with both sides above 1 the title is smaller than the rule
    gives for the figure. *)
Theorem title_font_size (env : Env) (city country : Py.text)
    (point : Q * Q) (dist : Q) (output_file output_format text_options : string)
    (width height : Q)
    (country_label name_label display_city display_country : option Py.text)
    (fonts : option Fonts) :
  let run :=
    create_poster env city country point dist output_file output_format
      text_options width height country_label name_label display_city
      display_country fonts in
  let shown_city := or_text display_city (or_text name_label city) in
  let chars := length shown_city in
  (forall sf,
     let base := base_main * sf in
     base == 60 * sf /\
     ((chars <= 10)%nat -> adjusted_font_size shown_city sf = base) /\
     ((10 < chars)%nat ->
      adjusted_font_size shown_city sf
      == Qmax (base * (10 / inject_Z (Z.of_nat chars))) (10 * sf)) /\
     (chars = 5%nat -> adjusted_font_size shown_city sf = base) /\
     (chars = 20%nat -> 0 <= sf ->
      adjusted_font_size shown_city sf == base * (10 / 20))) /\
  scale_factor width height == Qmin height width / 12 /\
  (forall cd g,
     In text_options ["keep_all"; "no_coords"; "no_country"] ->
     cache_reads_answer (services env) ->
     covers_poster_keys (THEME env) -> covers_style_table (util_THEME env) ->
     0 < width -> 0 < height ->
     compensated_dist dist width height = Returns cd ->
     snd (fetch_graph (services env) point cd) = Returns (Some g) ->
     exists railways c s font,
       snd (fetch_features (services env) point cd railway_tags "railways")
       = Returns railways /\
       let groups := rail_groups env (project_graph env g) railways in
       let sf := scale_factor (width_after env groups width) height in
       snd run = Returns tt /\
       THEME env !! "text" = Some c /\
       In (AxText 0.5 0.14 (Label s) c None "center" font) (drawn (fst run)) /\
       size font = adjusted_font_size shown_city sf /\
       title_sizes (fst run) = [adjusted_font_size shown_city sf] /\
       (groups = [] -> sf = scale_factor width height) /\
       (forall railway_type group,
          last groups = Some (railway_type, group) ->
          let line_width := snd (rail_group_style (THEME env) railway_type) in
          sf = scale_factor line_width height /\
          In line_width [1.0; 0.7; 0.6; 0.4; 0.5] /\
          ((chars <= 10)%nat -> adjusted_font_size shown_city sf <= 5) /\
          (1 < width -> 1 < height ->
           adjusted_font_size shown_city sf
           < adjusted_font_size shown_city (scale_factor width height)))).
Proof.
  intros run shown_city chars.
  split; [intros sf; apply adjusted_font_size_rule |].
  split; [unfold scale_factor; rewrite py_min_Qmin; field |].
  intros cd g Hmode Hcache Hkeys Hroles Hwidth Hheight Hcd Hg.
  destruct (create_poster_drawn env city country point dist output_file
              output_format text_options width height country_label name_label
              display_city display_country fonts cd Hcd g Hcache Hg)
    as (water & parks & railways & _ & _ & Hrailways & Hdrawn).
  fold run shown_city in Hdrawn.
  destruct (render_drawn env g water parks railways point cd output_file
              output_format text_options width height shown_city
              (or_text display_country (or_text country_label country)) fonts
              Hkeys Hroles)
    as (bg & gradient_color & edge_colors & _ & _ & _ & Hrender).
  cbv zeta in Hrender.
  assert (Htext : exists c, THEME env !! "text" = Some c).
  { unfold covers_poster_keys in Hkeys. rewrite List.Forall_forall in Hkeys.
    apply (Hkeys "text"). simpl. tauto. }
  destruct Htext as [c Htext].
  set (groups := rail_groups env (project_graph env g) railways) in *.
  set (sf := scale_factor (width_after env groups width) height) in *.
  destruct (title_drawn_at_adjusted_size env point text_options shown_city
              (or_text display_country (or_text country_label country))
              sf fonts c Hmode Htext)
    as (s & font & Hin & Hsize).
  exists railways, c, s, font.
  split; [exact Hrailways |].
  cbv zeta. fold groups sf.
  split.
  { apply (create_poster_completes env city country point dist output_file
             output_format text_options width height country_label name_label
             display_city display_country fonts cd Hcd g Hcache Hkeys Hroles Hg). }
  split; [exact Htext |].
  split.
  { rewrite Hdrawn, Hrender. rewrite !in_app_iff.
    do 6 right. left. apply in_drawn. exact Hin. }
  split; [exact Hsize |].
  split.
  { unfold title_sizes. rewrite Hdrawn, Hrender. rewrite !flat_map_app.
    repeat match goal with
           | |- context [flat_map ?f (drawn ?l)] =>
               change (flat_map f (drawn l)) with (title_sizes l)
           end.
    rewrite plot_polygon_layer_no_title, plot_polygon_layer_no_title,
      plot_railways_no_title.
    rewrite (typography_title env point text_options shown_city _ sf fonts
               Hmode Hkeys).
    reflexivity. }
  split.
  { intros Hnone. unfold sf, width_after. rewrite Hnone. reflexivity. }
  intros railway_type group Hlast.
  assert (Hsf : sf = scale_factor
                       (snd (rail_group_style (THEME env) railway_type)) height).
  { unfold sf, width_after. rewrite Hlast. reflexivity. }
  split; [exact Hsf |].
  split; [apply rail_group_style_width |].
  pose proof (scale_factor_of_line_width (THEME env) railway_type height)
    as Hsmall.
  rewrite <- Hsf in Hsmall.
  split.
  - intros Hshort.
    destruct (adjusted_font_size_rule shown_city sf) as (_ & Hbase & _).
    rewrite (Hbase Hshort). unfold base_main. clearbody sf. lra.
  - intros Hw Hh. apply adjusted_font_size_increasing.
    eapply Qle_lt_trans; [exact Hsmall |].
    unfold scale_factor. rewrite py_min_Qmin.
    assert (Hmin : 1 < Qmin height width) by (apply Q.min_glb_lt; assumption).
    apply Qlt_shift_div_l; [reflexivity |]. lra.
Qed.

End PipelineClaims.

(* ===================================================================== *)
(** * The claims at concrete inputs *)
(* ===================================================================== *)

Section Instances.

(** The third edge of the sample network, a tram line on a motorway, is
    a light-rail edge for both functions; its sixth edge, with an empty
    railway list, is a road. *)
Lemma tram_on_motorway_is_rail :
  graph_edges sample_graph !! 2%nat = Some (3%Z, 4%Z, tram_on_motorway) /\
  "tram" <> EmptyString /\
  tram_on_motorway !! "railway" = Some (TagStr "tram") /\
  edge_color_key tram_on_motorway = "rail_light" /\
  get_edge_widths_by_type sample_graph !! 2%nat = Some 0.8 /\
  (exists colors,
     get_edge_colors_by_type sample_theme sample_graph = Returns colors /\
     colors !! 2%nat = sample_theme !! "rail_light") /\
  edge_color_key untagged_siding = "road_residential".
Proof.
  assert (Hi : graph_edges sample_graph !! 2%nat
               = Some (3%Z, 4%Z, tram_on_motorway)) by reflexivity.
  destruct (edge_classification_total_rail_first sample_theme sample_graph
              2 3 4 tram_on_motorway Hi)
    as (Hwidth & _ & Hcolour & _ & _ & Hrail & _).
  destruct (edge_classification_total_rail_first sample_theme
              {| graph_crs := "EPSG:4326";
                 graph_edges := [(1%Z, 2%Z, untagged_siding)] |}
              0 1 2 untagged_siding eq_refl)
    as (_ & _ & _ & _ & _ & _ & Hroad & _).
  assert (Hne : "tram" <> EmptyString) by discriminate.
  assert (Htag : tram_on_motorway !! "railway" = Some (TagStr "tram"))
    by reflexivity.
  destruct (Hrail "tram" Hne (or_introl Htag)) as (Hc & Hw & _).
  destruct (Hroad (or_intror (or_introl eq_refl))) as (Hrc & _).
  destruct Hcolour as (colors & c & Hret & _ & Hci & Hkey).
  { unfold covers_style_table. repeat constructor; eexists; reflexivity. }
  split; [exact Hi |]. split; [exact Hne |]. split; [exact Htag |].
  split; [exact Hc |].
  split; [rewrite Hwidth, Hw; reflexivity |].
  split; [| exact Hrc].
  exists colors. split; [exact Hret |].
  rewrite Hci, <- Hkey, Hc. reflexivity.
Defined.

(** C2 fails as stated: a railway tag that is present with an empty
    value, or with a list that starts with an empty value, does not send
    the edge to the rail table.  The motorway with railway [''] gets the
    motorway colour and width 1.2, the primary road with railway
    ['', 'tram'] the primary colour and width 1.0. *)
Lemma blank_railway_is_classified_by_highway :
  blank_railway_on_motorway !! "railway" = Some (TagStr EmptyString) /\
  blank_railway_on_motorway !! "highway" = Some (TagStr "motorway") /\
  get_edge_widths_by_type blank_railway_graph = [1.2; 1.0] /\
  get_edge_colors_by_type sample_theme blank_railway_graph
  = Returns ["#A0522D"; "#B8653A"] /\
  sample_theme !! "road_motorway" = Some "#A0522D" /\
  sample_theme !! "road_primary" = Some "#B8653A" /\
  edge_color_key blank_railway_on_motorway = "road_motorway" /\
  ~ In (edge_color_key blank_railway_on_motorway,
        edge_width blank_railway_on_motorway) rail_style_table.
Proof.
  repeat (split; [vm_compute; reflexivity |]).
  vm_compute. intros H.
  repeat (destruct H as [H | H]; [discriminate H |]). exact H.
Qed.



(** The portrait poster of the specification's scenario, cropped by
    [get_crop_limits] at the full radius. *)
Lemma portrait_crop_at_10000 :
  let pg := project_geometry (sample_env sample_services) in
  let fig := {| fig_width := 12; fig_height := 16 |} in
  let limits := get_crop_limits pg sample_graph (48.8566, 2.3522) fig 10000 in
  fig_width fig / fig_height fig < 1 /\
  half_extent (fst limits) == 7500 /\
  half_extent (snd limits) == 10000.
Proof.
  intros pg fig limits.
  destruct (crop_limits_algorithm pg sample_graph 48.8566 2.3522 fig 10000)
    as (_ & Hportrait & _).
  assert (Hlt : fig_width fig / fig_height fig < 1) by reflexivity.
  destruct (Hportrait Hlt) as (Hx & Hy & _).
  split; [exact Hlt |]. split; [| exact Hy].
  apply Qeq_trans with (10000 * (fig_width fig / fig_height fig));
    [exact Hx | reflexivity].
Defined.

(** C4 fails as stated: on that portrait poster the smaller half-extent
    is 7500, below the radius 10000. *)
Lemma portrait_smaller_extent_below_radius :
  let pg := project_geometry (sample_env sample_services) in
  let fig := {| fig_width := 12; fig_height := 16 |} in
  let limits := get_crop_limits pg sample_graph (48.8566, 2.3522) fig 10000 in
  0 < 10000 /\ 0 < fig_width fig / fig_height fig /\
  Qmin (half_extent (fst limits)) (half_extent (snd limits)) == 7500 /\
  ~ Qmin (half_extent (fst limits)) (half_extent (snd limits)) == 10000 /\
  ~ 10000 <= Qmin (half_extent (fst limits)) (half_extent (snd limits)).
Proof.
  cbv zeta. split; [reflexivity |]. split; [reflexivity |].
  split; [vm_compute; reflexivity |].
  split; intros H; vm_compute in H; [discriminate | apply H; reflexivity].
Qed.

Lemma portrait_larger_extent_is_radius :
  let pg := project_geometry (sample_env sample_services) in
  let fig := {| fig_width := 12; fig_height := 16 |} in
  let limits := get_crop_limits pg sample_graph (48.8566, 2.3522) fig 10000 in
  (0 < 10000 /\ 0 < fig_width fig /\ 0 < fig_height fig) /\
  Qmax (half_extent (fst limits)) (half_extent (snd limits)) == 10000 /\
  Qmin (half_extent (fst limits)) (half_extent (snd limits)) <= 10000.
Proof.
  intros pg fig limits.
  assert (Hd : 0 < 10000) by reflexivity.
  assert (Hw : 0 < fig_width fig) by reflexivity.
  assert (Hh : 0 < fig_height fig) by reflexivity.
  destruct (viewport_aspect_and_larger_extent pg sample_graph 48.8566 2.3522
              fig 10000 Hd Hw Hh) as (_ & Hmax & _ & Hmin).
  repeat split; assumption.
Defined.

(** Thai, Han and Arabic names are not Latin; "Paris" is. *)
Lemma thai_name_is_not_latin :
  (0 < Z.of_nat (length (alpha_chars sample_isalpha Krung_Thep)))%Z /\
  Forall (fun c => han_thai_arabic c = true) Krung_Thep /\
  PosterText.is_latin_script sample_isalpha Krung_Thep = false /\
  PosterText.is_latin_script sample_isalpha Tokyo = false /\
  PosterText.is_latin_script sample_isalpha Dubai = false /\
  PosterText.is_latin_script sample_isalpha Paris = true.
Proof.
  assert (Hpos : forall text,
            (length (alpha_chars sample_isalpha text) =? 0)%nat = false ->
            (0 < Z.of_nat (length (alpha_chars sample_isalpha text)))%Z).
  { intros text H. apply Nat.eqb_neq in H. lia. }
  assert (Hall : forall text,
            forallb han_thai_arabic text = true ->
            Forall (fun c => han_thai_arabic c = true) text).
  { intros text H. apply List.Forall_forall. apply forallb_forall. exact H. }
  pose proof (latin_script_rule sample_isalpha Krung_Thep) as (_ & _ & _ & Hthai).
  pose proof (latin_script_rule sample_isalpha Tokyo) as (_ & _ & _ & Hhan).
  pose proof (latin_script_rule sample_isalpha Dubai) as (_ & _ & _ & Harabic).
  pose proof (latin_script_rule sample_isalpha Paris) as (_ & _ & Hlatin & _).
  cbv zeta in *.
  split; [apply Hpos; reflexivity |].
  split; [apply Hall; reflexivity |].
  split; [apply Hthai; [apply Hpos | apply Hall]; reflexivity |].
  split; [apply Hhan; [apply Hpos | apply Hall]; reflexivity |].
  split; [apply Harabic; [apply Hpos | apply Hall]; reflexivity |].
  apply (proj2 (Hlatin (Hpos Paris eq_refl))). reflexivity.
Defined.

End Instances.

Section PipelineInstances.

Lemma sample_cache_answers sv :
  (forall key, cache_get_graph sv key = Returns None) ->
  (forall key, cache_get_features sv key = Returns None) ->
  cache_reads_answer sv.
Proof.
  intros Hg Hf. split; intros key; exists None; [apply Hg | apply Hf].
Qed.

Lemma sample_theme_covers :
  covers_poster_keys sample_theme /\ covers_style_table sample_theme.
Proof.
  split; repeat constructor; eexists; reflexivity.
Qed.

(** C1 fails as stated: the Paris request of the specification, in a
    world where the street network arrives, ends with the axes set to a
    viewport of half-extents 2500 and 10000 / 3, not 7500 and 10000. *)
Lemma paris_viewport_is_not_7500_by_10000 :
  snd (paris_run sample_services 10000) = Returns tt /\
  (exists xlim ylim,
     axis_limits (fst (paris_run sample_services 10000))
     = [Draw (SetXlim xlim); Draw (SetYlim ylim)] /\
     half_extent xlim == 2500 /\ half_extent ylim == 10000 # 3) /\
  ~ (exists xlim ylim,
       axis_limits (fst (paris_run sample_services 10000))
       = [Draw (SetXlim xlim); Draw (SetYlim ylim)] /\
       half_extent xlim == 7500 /\ half_extent ylim == 10000).
Proof.
  split; [vm_compute; reflexivity |].
  split.
  - eexists _, _. split; [vm_compute; reflexivity |].
    split; vm_compute; reflexivity.
  - intros (xlim & ylim & Hlimits & Hx & _).
    vm_compute in Hlimits. injection Hlimits as <- _.
    vm_compute in Hx. discriminate.
Qed.

(** The same run, through the general statement. *)
Lemma paris_viewport_run :
  snd (paris_run sample_services 10000) = Returns tt /\
  exists xlim ylim,
    axis_limits (fst (paris_run sample_services 10000))
    = [Draw (SetXlim xlim); Draw (SetYlim ylim)] /\
    half_extent xlim == 2500 /\ half_extent ylim == 10000 # 3.
Proof.
  assert (Hrun : snd (paris_run sample_services 10000) = Returns tt)
    by (vm_compute; reflexivity).
  destruct (paris_viewport (sample_env sample_services) Paris France
              "posters/paris.png" "png" "keep_all" None None None None None Hrun)
    as (cd & _ & _ & g & xlim & ylim & _ & Hlimits & Hview).
  split; [exact Hrun |].
  exists xlim, ylim. split; [exact Hlimits |].
  destruct Hview as (_ & _ & Hx & Hy). split; assumption.
Defined.




(** The title of the sample poster.  The railway loop of the 12 by 16
    Paris poster ends with the tram lines, whose line width is 0.7: the
    five letters of the title are set at 60 * 0.7 / 12 = 3.5 points, and
    not at the 60 points that the rule gives for the figure. *)
Lemma paris_title_is_set_at_three_and_a_half :
  let env := sample_env sample_services in
  length Paris = 5%nat /\
  compensated_dist 10000 12 16 = Returns (10000 * (16 / 12) / 4) /\
  snd (fetch_graph sample_services paris_point (10000 * (16 / 12) / 4))
  = Returns (Some sample_graph) /\
  (exists railways group,
     snd (fetch_features sample_services paris_point (10000 * (16 / 12) / 4)
            railway_tags "railways") = Returns railways /\
     last (rail_groups env (project_graph env sample_graph) railways)
     = Some ("tram", group) /\
     width_after env (rail_groups env (project_graph env sample_graph) railways) 12
     = 0.7) /\
  snd (paris_run sample_services 10000) = Returns tt /\
  title_sizes (fst (paris_run sample_services 10000))
  = [adjusted_font_size Paris (scale_factor 0.7 16)] /\
  adjusted_font_size Paris (scale_factor 0.7 16) == 7 # 2 /\
  adjusted_font_size Paris (scale_factor 12 16) == 60.
Proof.
  intros env.
  destruct (title_font_size env Paris France paris_point 10000
              "posters/paris.png" "png" "keep_all" 12 16
              None None None None None) as (Hrule & _ & Hrun).
  cbv zeta in Hrule, Hrun.
  change (or_text None (or_text None Paris)) with Paris in Hrule, Hrun.
  assert (Hcd : compensated_dist 10000 12 16 = Returns (10000 * (16 / 12) / 4))
    by reflexivity.
  assert (Hg : snd (fetch_graph (services env) paris_point
                      (10000 * (16 / 12) / 4)) = Returns (Some sample_graph))
    by (vm_compute; reflexivity).
  destruct (Hrun (10000 * (16 / 12) / 4) sample_graph)
    as (railways & c & s & font & Hrailways & Hret & _ & _ & _ & Htitles
        & _ & Hlast).
  - simpl. tauto.
  - apply sample_cache_answers; reflexivity.
  - apply sample_theme_covers.
  - apply sample_theme_covers.
  - reflexivity.
  - reflexivity.
  - exact Hcd.
  - exact Hg.
  - assert (Hfetched : exists df,
              snd (fetch_features (services env) paris_point
                     (10000 * (16 / 12) / 4) railway_tags "railways")
              = Returns (Some df)) by (eexists; vm_compute; reflexivity).
    destruct Hfetched as [df Hdf]. rewrite Hdf in Hrailways.
    injection Hrailways as <-.
    assert (Hgroup : exists group,
              last (rail_groups env (project_graph env sample_graph) (Some df))
              = Some ("tram", group)).
    { revert Hdf. vm_compute. intros Hdf. injection Hdf as <-.
      eexists. reflexivity. }
    destruct Hgroup as [group Hgroup].
    destruct (Hlast "tram" group Hgroup) as (Hsf & _).
    assert (Hwidth : width_after env
                       (rail_groups env (project_graph env sample_graph) (Some df))
                       12 = 0.7).
    { unfold width_after. rewrite Hgroup. reflexivity. }
    split; [reflexivity |].
    split; [exact Hcd |].
    split; [exact Hg |].
    split; [exists (Some df), group; repeat split; assumption |].
    split; [exact Hret |].
    split; [rewrite <- Hwidth; exact Htitles |].
    destruct (Hrule (scale_factor 0.7 16)) as (_ & _ & _ & Hfive & _).
    destruct (Hrule (scale_factor 12 16)) as (_ & _ & _ & Hfive' & _).
    split; [rewrite (Hfive eq_refl) | rewrite (Hfive' eq_refl)]; reflexivity.
Defined.

(** A theme without the railway roles stops the colour classifier at the
    first railway edge. *)
Lemma roads_only_theme_misses_rail :
  get_edge_colors_by_type roads_only_theme sample_graph
  = Raises (KeyError "rail_heavy").
Proof. vm_compute. reflexivity. Qed.

(** On the sample poster the tram group is drawn in the light-rail
    colour, and no line width is handed to the plot. *)
Lemma tram_group_on_sample_poster :
  In (Draw (PlotLines
              [ {| osmid := 20; geometry_type := LineString; railway := Some "tram" |};
                {| osmid := 23; geometry_type := MultiLineString; railway := Some "tram" |} ]
              (sample_theme !! "rail_light") 1))
     (fst (paris_run sample_services 10000)) /\
  rail_group_style sample_theme "tram" = (sample_theme !! "rail_light", 0.7).
Proof.
  split; [vm_compute; tauto | reflexivity].
Qed.

End PipelineInstances.

(* ===================================================================== *)
(** * Further properties: fetching *)
(* ===================================================================== *)

Import Observe.

Section FetchProtocol.

Variable sv : Services.

(** X1.  The cache lookup decides.  On a hit both fetches hand back the
    cached object after the lookup and one message: no remote call, no
    pause, no cache write.  A lookup that raises ends the fetch with that
    very exception, before anything else happens. *)
Theorem cache_lookup_decides (point : Q * Q) (dist : Q) (filter : tags)
    (name : string) :
  let graph := GraphKey (fst point) (snd point) dist in
  let features :=
    FeaturesKey name (fst point) (snd point) dist (normalize_tags sv filter) in
  (forall g, cache_get_graph sv graph = Returns (Some g) ->
     fetch_graph sv point dist
     = ([CacheGet graph; Print MsgCachedNetwork], Returns (Some g))) /\
  (forall df, cache_get_features sv features = Returns (Some df) ->
     fetch_features sv point dist filter name
     = ([CacheGet features; Print (MsgCached name)], Returns (Some df))) /\
  (forall e, cache_get_graph sv graph = Raises e ->
     fetch_graph sv point dist = ([CacheGet graph], Raises e)) /\
  (forall e, cache_get_features sv features = Raises e ->
     fetch_features sv point dist filter name = ([CacheGet features], Raises e)).
Proof.
  intros graph features. destruct point as [lat lon]. cbn [fst snd] in *.
  split; [| split; [| split]]; intros x Hx;
    unfold fetch_graph, fetch_features, call;
    fold graph; fold features; rewrite Hx; reflexivity.
Qed.

(** X2.  A fetched object survives a failing cache write.  After a miss
    and a remote call that answers, the fetch pauses (0.5 s for the
    network, 0.3 s for features), writes the object under the key it
    looked up, and returns it, also when the write raises a CacheError,
    which is only printed. *)
Theorem fetched_data_survives_cache_error (point : Q * Q) (dist : Q)
    (filter : tags) (name : string) :
  let graph := GraphKey (fst point) (snd point) dist in
  let features :=
    FeaturesKey name (fst point) (snd point) dist (normalize_tags sv filter) in
  (forall g,
     cache_get_graph sv graph = Returns None ->
     graph_from_point sv point dist = Returns g ->
     (cache_set_graph sv graph g = Returns tt ->
      fetch_graph sv point dist
      = ([CacheGet graph; GraphFromPoint point dist; Sleep 0.5; CacheSet graph],
         Returns (Some g))) /\
     (forall msg, cache_set_graph sv graph g = Raises (CacheError msg) ->
      fetch_graph sv point dist
      = ([CacheGet graph; GraphFromPoint point dist; Sleep 0.5; CacheSet graph;
          Print (MsgException (CacheError msg))], Returns (Some g)))) /\
  (forall df,
     cache_get_features sv features = Returns None ->
     features_from_point sv point dist filter = Returns df ->
     (cache_set_features sv features df = Returns tt ->
      fetch_features sv point dist filter name
      = ([CacheGet features; FeaturesFromPoint point dist filter; Sleep 0.3;
          CacheSet features], Returns (Some df))) /\
     (forall msg, cache_set_features sv features df = Raises (CacheError msg) ->
      fetch_features sv point dist filter name
      = ([CacheGet features; FeaturesFromPoint point dist filter; Sleep 0.3;
          CacheSet features; Print (MsgException (CacheError msg))],
         Returns (Some df)))).
Proof.
  intros graph features. destruct point as [lat lon]. cbn [fst snd] in *.
  split; intros x Hmiss Hfetch; (split; [intros Hset | intros msg Hset]);
    unfold fetch_graph, fetch_features, call; fold graph; fold features;
    rewrite Hmiss, Hfetch; cbn; fold graph; fold features; rewrite Hset;
    reflexivity.
Qed.

(** X3.  Any other exception of the cache write loses the object.  It is
    caught by the outer handler, reported as a fetch error, and the fetch
    returns [None] although the remote call had answered. *)
Theorem other_write_errors_lose_the_data (point : Q * Q) (dist : Q)
    (filter : tags) (name : string) (e : exn) :
  let graph := GraphKey (fst point) (snd point) dist in
  let features :=
    FeaturesKey name (fst point) (snd point) dist (normalize_tags sv filter) in
  is_CacheError e = false ->
  (forall g,
     cache_get_graph sv graph = Returns None ->
     graph_from_point sv point dist = Returns g ->
     cache_set_graph sv graph g = Raises e ->
     fetch_graph sv point dist
     = ([CacheGet graph; GraphFromPoint point dist; Sleep 0.5; CacheSet graph;
         Print (MsgGraphError e)], Returns None)) /\
  (forall df,
     cache_get_features sv features = Returns None ->
     features_from_point sv point dist filter = Returns df ->
     cache_set_features sv features df = Raises e ->
     fetch_features sv point dist filter name
     = ([CacheGet features; FeaturesFromPoint point dist filter; Sleep 0.3;
         CacheSet features; Print (MsgFeaturesError e)], Returns None)).
Proof.
  intros graph features He. destruct point as [lat lon]. cbn [fst snd] in *.
  split; intros x Hmiss Hfetch Hset;
    unfold fetch_graph, fetch_features, call; fold graph; fold features;
    rewrite Hmiss, Hfetch; cbn; fold graph; fold features; rewrite Hset;
    cbn; rewrite He; reflexivity.
Qed.

End FetchProtocol.

(* ===================================================================== *)
(** * Further properties: script detection *)
(* ===================================================================== *)

Section ScriptDetectionMore.

Variable isalpha : N -> bool.

Lemma is_latin_script_iff text :
  PosterText.is_latin_script isalpha text = true <->
  (length (alpha_chars isalpha text) = 0%nat \/
   (80 * Z.of_nat (length (alpha_chars isalpha text))
    < 100 * Z.of_nat (length (latin_chars isalpha text)))%Z).
Proof.
  rewrite is_latin_script_counts. cbv zeta.
  destruct (Z.eqb_spec (Z.of_nat (length (alpha_chars isalpha text))) 0)
    as [Hzero | Hpos].
  - split; [intros _; left; lia | reflexivity].
  - rewrite Qgt_bool_true, more_than_80_percent by lia.
    split; [intros H; right; exact H | intros [H | H]; [lia | exact H]].
Qed.

Lemma latin_chars_le_alpha text :
  (length (latin_chars isalpha text) <= length (alpha_chars isalpha text))%nat.
Proof. unfold latin_chars. apply List.filter_length_le. Qed.

Lemma alpha_chars_app t1 t2 :
  alpha_chars isalpha (t1 ++ t2) = alpha_chars isalpha t1 ++ alpha_chars isalpha t2.
Proof. apply List.filter_app. Qed.

Lemma latin_chars_app t1 t2 :
  latin_chars isalpha (t1 ++ t2) = latin_chars isalpha t1 ++ latin_chars isalpha t2.
Proof. unfold latin_chars. rewrite alpha_chars_app. apply List.filter_app. Qed.

Lemma filter_length_Permutation {A} (f : A -> bool) (l l' : list A) :
  Permutation l l' -> length (List.filter f l) = length (List.filter f l').
Proof.
  induction 1 as [| x l l' _ IH | x y l | l l' l'' _ IH1 _ IH2]; simpl.
  - reflexivity.
  - destruct (f x); simpl; congruence.
  - destruct (f x), (f y); reflexivity.
  - congruence.
Qed.

Lemma filter_Permutation_bool {A} (f : A -> bool) (l l' : list A) :
  Permutation l l' -> Permutation (List.filter f l) (List.filter f l').
Proof.
  induction 1 as [| x l l' _ IH | x y l | l l' l'' _ IH1 _ IH2]; simpl.
  - constructor.
  - destruct (f x); [constructor |]; exact IH.
  - destruct (f x), (f y); try reflexivity. constructor.
  - etransitivity; eassumption.
Qed.

(** X4.  Only the letters count, not where they stand.  The verdict on a
    text is the verdict on its alphabetic characters alone: digits,
    spaces and punctuation can be added or removed anywhere, and the
    characters can be reordered, without changing it. *)
Theorem only_letters_count (text : Py.text) :
  PosterText.is_latin_script isalpha (List.filter isalpha text)
  = PosterText.is_latin_script isalpha text /\
  (forall pre post c, text = pre ++ c :: post -> isalpha c = false ->
     PosterText.is_latin_script isalpha (pre ++ post)
     = PosterText.is_latin_script isalpha text) /\
  (forall text', Permutation text text' ->
     PosterText.is_latin_script isalpha text'
     = PosterText.is_latin_script isalpha text).
Proof.
  assert (Hsame : forall t t',
            alpha_chars isalpha t = alpha_chars isalpha t' ->
            PosterText.is_latin_script isalpha t
            = PosterText.is_latin_script isalpha t').
  { intros t t' Ha. rewrite !is_latin_script_counts. unfold latin_chars.
    rewrite Ha. reflexivity. }
  split; [| split].
  - apply Hsame. unfold alpha_chars.
    induction text as [| c rest IH]; [reflexivity |].
    simpl. destruct (isalpha c) eqn:Hc; simpl; [rewrite Hc, IH |]; auto.
  - intros pre post c -> Hc. apply Hsame.
    rewrite !alpha_chars_app. unfold alpha_chars at 4. simpl. rewrite Hc.
    reflexivity.
  - intros text' Hperm. rewrite !is_latin_script_counts. unfold latin_chars, alpha_chars.
    rewrite (filter_length_Permutation isalpha _ _ Hperm).
    rewrite (filter_length_Permutation _ _ _
               (filter_Permutation_bool isalpha _ _ Hperm)).
    reflexivity.
Qed.

(** X5.  Verdicts add up.  Two Latin texts put together are Latin, two
    non-Latin texts put together are non-Latin; and a text all of whose
    letters are below U+0250 is Latin. *)
Theorem verdicts_add_up (t1 t2 : Py.text) :
  (PosterText.is_latin_script isalpha t1 = true ->
   PosterText.is_latin_script isalpha t2 = true ->
   PosterText.is_latin_script isalpha (t1 ++ t2) = true) /\
  (PosterText.is_latin_script isalpha t1 = false ->
   PosterText.is_latin_script isalpha t2 = false ->
   PosterText.is_latin_script isalpha (t1 ++ t2) = false) /\
  (Forall (fun c => isalpha c = true -> (c < 0x250)%N) t1 ->
   PosterText.is_latin_script isalpha t1 = true).
Proof.
  pose proof (latin_chars_le_alpha t1) as Hle1.
  pose proof (latin_chars_le_alpha t2) as Hle2.
  split; [| split].
  - rewrite !is_latin_script_iff, alpha_chars_app, latin_chars_app, !length_app.
    lia.
  - rewrite <- !not_true_iff_false, !is_latin_script_iff,
      alpha_chars_app, latin_chars_app, !length_app.
    lia.
  - intros Hall. apply is_latin_script_iff.
    assert (Heq : latin_chars isalpha t1 = alpha_chars isalpha t1).
    { clear Hle1. unfold latin_chars, alpha_chars.
      induction Hall as [| c rest Hc _ IH]; [reflexivity |].
      simpl. destruct (isalpha c) eqn:Ha; [| exact IH].
      simpl. rewrite (proj2 (N.ltb_lt _ _) (Hc eq_refl)), IH. reflexivity. }
    rewrite Heq. lia.
Qed.

End ScriptDetectionMore.

(* ===================================================================== *)
(** * Further properties: edge styles *)
(* ===================================================================== *)

Section EdgeStylesMore.

Implicit Types (data : tags) (THEME : theme).

(** X6.  Only the railway and highway tags matter.  Setting or removing
    any other tag of an edge changes neither its colour role nor its
    width. *)
Theorem other_tags_do_not_matter data (key : string) (value : tag_value) :
  key <> "railway" -> key <> "highway" ->
  edge_color_key (<[key := value]> data) = edge_color_key data /\
  edge_width (<[key := value]> data) = edge_width data /\
  edge_color_key (delete key data) = edge_color_key data /\
  edge_width (delete key data) = edge_width data.
Proof.
  intros Hr Hh.
  unfold edge_color_key, edge_width, railway_value, highway_value.
  rewrite !lookup_insert_ne, !lookup_delete_ne by congruence.
  repeat split; reflexivity.
Qed.

Lemma rail_width_bounds r : 0.4 <= rail_width r /\ rail_width r <= 1.0.
Proof.
  unfold rail_width.
  repeat match goal with |- context [if ?b then _ else _] => destruct b end;
    split; lra.
Qed.

(** X7.  Line widths stay between 0.4 and 1.2.  Every edge, whatever its
    tags, gets a width in that range; a railway edge gets at most 1.0;
    and the full 1.2 goes to motorways and motorway links without a
    railway value, and to nothing else. *)
Theorem edge_widths_are_bounded (g : Graph) :
  Forall (fun w => 0.4 <= w /\ w <= 1.2) (get_edge_widths_by_type g) /\
  (forall data,
     0.4 <= edge_width data /\ edge_width data <= 1.2 /\
     (truthy_str (railway_value data) = true -> edge_width data <= 1.0) /\
     (edge_width data == 1.2 <->
      truthy_str (railway_value data) = false /\
      str_in (highway_value data) ["motorway"; "motorway_link"] = true)).
Proof.
  assert (Hedge : forall data,
     0.4 <= edge_width data /\ edge_width data <= 1.2 /\
     (truthy_str (railway_value data) = true -> edge_width data <= 1.0) /\
     (edge_width data == 1.2 <->
      truthy_str (railway_value data) = false /\
      str_in (highway_value data) ["motorway"; "motorway_link"] = true)).
  { intros data. unfold edge_width.
    destruct (truthy_str (railway_value data)).
    - pose proof (rail_width_bounds (default EmptyString (railway_value data)))
        as [Hlo Hhi].
      split; [exact Hlo |]. split; [lra |]. split; [intros _; exact Hhi |].
      split; [intros Heq; exfalso; lra | intros [Hf _]; discriminate].
    - unfold highway_width.
      destruct (str_in (highway_value data) ["motorway"; "motorway_link"]).
      + split; [lra |]. split; [lra |]. split; [discriminate |].
        split; [intros _; split; reflexivity | intros _; reflexivity].
      + repeat match goal with
               | |- context [if ?b then _ else _] => destruct b
               end;
          (split; [lra |]); (split; [lra |]); (split; [discriminate |]);
          (split; [intros Heq; exfalso; lra | intros [_ Hf]; discriminate]). }
  split; [| exact Hedge].
  unfold get_edge_widths_by_type. rewrite widths_loop_app. simpl.
  apply List.Forall_forall. intros w Hin. apply in_map_iff in Hin.
  destruct Hin as (e & <- & _). destruct (Hedge (snd e)) as (Hlo & Hhi & _).
  split; assumption.
Qed.

Lemma colors_loop_app THEME pre rest acc :
  colors_loop THEME (pre ++ rest) acc
  = match colors_loop THEME pre acc with
    | Returns acc' => colors_loop THEME rest acc'
    | Raises e => Raises e
    end.
Proof.
  revert acc. induction pre as [| [[u v] data] pre IH]; intros acc; simpl.
  - reflexivity.
  - destruct (theme_item THEME (edge_color_key data)) as [c | e]; simpl;
      [apply IH | reflexivity].
Qed.

Lemma colors_loop_present THEME es acc :
  Forall (fun e => is_Some (THEME !! edge_color_key (snd e))) es ->
  exists colors, colors_loop THEME es acc = Returns colors.
Proof.
  intros Hall. revert acc.
  induction Hall as [| [[u v] data] es [c Hc] _ IH]; intros acc; simpl.
  - eauto.
  - simpl in Hc. unfold theme_item. rewrite Hc. simpl. apply IH.
Qed.

(** X8.  A theme needs the roles in use, no more.  The colour list
    exists exactly when the theme has a colour for the role of every
    edge of the graph; otherwise the call raises the KeyError of the
    first edge, in iteration order, whose role the theme lacks. *)
Theorem colours_need_the_roles_in_use THEME (g : Graph) :
  ((exists colors, get_edge_colors_by_type THEME g = Returns colors) <->
   Forall (fun e => is_Some (THEME !! edge_color_key (snd e))) (graph_edges g)) /\
  (forall pre u v data post,
     graph_edges g = pre ++ (u, v, data) :: post ->
     Forall (fun e => is_Some (THEME !! edge_color_key (snd e))) pre ->
     THEME !! edge_color_key data = None ->
     get_edge_colors_by_type THEME g = Raises (KeyError (edge_color_key data))).
Proof.
  unfold get_edge_colors_by_type. split.
  - split.
    + intros [colors Hret].
      destruct (colors_loop_returns _ _ _ _ Hret) as (new & _ & Hall).
      apply List.Forall_forall. intros e Hin.
      apply list_elem_of_In, list_elem_of_lookup in Hin. destruct Hin as [i Hi].
      destruct (Forall2_lookup_l _ _ _ _ _ Hall Hi) as (c & _ & Hc). eauto.
    + apply colors_loop_present.
  - intros pre u v data post -> Hpre Hnone.
    rewrite colors_loop_app.
    destruct (colors_loop_present THEME pre [] Hpre) as [acc ->].
    simpl. unfold theme_item. rewrite Hnone. reflexivity.
Qed.

End EdgeStylesMore.

(* ===================================================================== *)
(** * Further properties: crop geometry *)
(* ===================================================================== *)

Section CropGeometryMore.

Lemma aspect_vs_one (w h : Q) :
  0 < h -> (w / h < 1 <-> w < h) /\ (1 < w / h <-> h < w) /\ (w / h == 1 <-> w == h).
Proof.
  intros Hh.
  assert (Hw : w == w / h * h) by (field; lra).
  split; [| split]; (split; intros H).
  - rewrite Hw. nra.
  - apply Qlt_shift_div_r; lra.
  - rewrite Hw. nra.
  - apply Qlt_shift_div_l; lra.
  - rewrite Hw, H. ring.
  - rewrite H. field. lra.
Qed.

(** X9.  Turning the sheet turns the viewport.  On a figure of positive
    size, swapping width and height swaps the two half-extents of the
    crop; and the half-extents grow in proportion to the radius. *)
Theorem crop_turns_with_the_sheet (project_geometry : Q * Q -> string -> Q * Q)
    (g_proj : Graph) (point : Q * Q) (w h dist : Q) :
  0 < w -> 0 < h ->
  let crop fig_width fig_height radius :=
    get_crop_limits project_geometry g_proj point
      {| fig_width := fig_width; fig_height := fig_height |} radius in
  half_extent (fst (crop h w dist)) == half_extent (snd (crop w h dist)) /\
  half_extent (snd (crop h w dist)) == half_extent (fst (crop w h dist)) /\
  (forall k,
     half_extent (fst (crop w h (k * dist))) == k * half_extent (fst (crop w h dist)) /\
     half_extent (snd (crop w h (k * dist))) == k * half_extent (snd (crop w h dist))).
Proof.
  intros Hw Hh crop. destruct point as [lat lon].
  assert (Hhalf : forall fw fh r,
            0 < fw -> 0 < fh ->
            (fw < fh -> half_extent (fst (crop fw fh r)) == r * (fw / fh) /\
                        half_extent (snd (crop fw fh r)) == r) /\
            (fh < fw -> half_extent (fst (crop fw fh r)) == r /\
                        half_extent (snd (crop fw fh r)) == r / (fw / fh)) /\
            (fw == fh -> half_extent (fst (crop fw fh r)) == r /\
                         half_extent (snd (crop fw fh r)) == r)).
  { intros fw fh r Hfw Hfh.
    destruct (crop_limits_cases project_geometry g_proj lat lon
                {| fig_width := fw; fig_height := fh |} r) as (Hland & Hport & Hsq).
    cbv zeta in Hland, Hport, Hsq. simpl fig_width in *. simpl fig_height in *.
    destruct (aspect_vs_one fw fh Hfh) as (Hlt & Hgt & Heq).
    split; [| split]; intros Hcmp.
    - destruct (Hport (proj2 Hlt Hcmp)) as (_ & _ & Hx & Hy). split; assumption.
    - destruct (Hland (proj2 Hgt Hcmp)) as (_ & _ & Hx & Hy). split; assumption.
    - destruct (Hsq (proj2 Heq Hcmp)) as (_ & _ & Hx & Hy). split; assumption. }
  destruct (Hhalf w h dist Hw Hh) as (Hp & Hl & Hs).
  destruct (Hhalf h w dist Hh Hw) as (Hp' & Hl' & Hs').
  assert (Hturn :
    half_extent (fst (crop h w dist)) == half_extent (snd (crop w h dist)) /\
    half_extent (snd (crop h w dist)) == half_extent (fst (crop w h dist))).
  { destruct (Q_dec w h) as [[Hlt | Hgt] | Heq].
    - destruct (Hp Hlt) as [Hx Hy]. destruct (Hl' Hlt) as [Hx' Hy'].
      rewrite Hx, Hy, Hx', Hy'. split; [reflexivity | field; lra].
    - destruct (Hl Hgt) as [Hx Hy]. destruct (Hp' Hgt) as [Hx' Hy'].
      rewrite Hx, Hy, Hx', Hy'. split; [field; lra | reflexivity].
    - destruct (Hs Heq) as [Hx Hy].
      destruct (Hs' (Qeq_sym _ _ Heq)) as [Hx' Hy'].
      rewrite Hx, Hy, Hx', Hy'. split; reflexivity. }
  split; [apply Hturn |]. split; [apply Hturn |].
  intros k. destruct (Hhalf w h (k * dist) Hw Hh) as (Hpk & Hlk & Hsk).
  destruct (Q_dec w h) as [[Hlt | Hgt] | Heq].
  - destruct (Hp Hlt) as [Hx Hy]. destruct (Hpk Hlt) as [Hxk Hyk].
    rewrite Hx, Hy, Hxk, Hyk. split; ring.
  - destruct (Hl Hgt) as [Hx Hy]. destruct (Hlk Hgt) as [Hxk Hyk].
    rewrite Hx, Hy, Hxk, Hyk. split; [ring | field; repeat split; lra].
  - destruct (Hs Heq) as [Hx Hy]. destruct (Hsk Heq) as [Hxk Hyk].
    rewrite Hx, Hy, Hxk, Hyk. split; ring.
Qed.

(** X10.  What the distance of a request means.  On a figure of positive
    size a completed run has set the axes to a viewport whose
    half-extents are dist * width / (4 * min(width, height)) and
    dist * height / (4 * min(width, height)): a quarter of the requested
    distance along the shorter side of the sheet, and the same scale
    along the longer one. *)
Theorem poster_shows_a_quarter_of_the_distance (env : Env)
    (city country : Py.text) (point : Q * Q) (dist : Q)
    (output_file output_format text_options : string) (width height : Q)
    (country_label name_label display_city display_country : option Py.text)
    (fonts : option Fonts) :
  let run :=
    create_poster env city country point dist output_file output_format
      text_options width height country_label name_label display_city
      display_country fonts in
  0 < width -> 0 < height ->
  snd run = Returns tt ->
  exists xlim ylim,
    axis_limits (fst run) = [Draw (SetXlim xlim); Draw (SetYlim ylim)] /\
    half_extent xlim == dist * width / (4 * Qmin width height) /\
    half_extent ylim == dist * height / (4 * Qmin width height).
Proof.
  intros run Hw Hh Hrun.
  set (cd := dist * (py_max height width / py_min height width) / 4).
  destruct (create_poster_limits env _ _ _ _ _ _ _ _ _ _ _ _ _ _ cd
              (compensated_dist_positive dist width height Hw Hh) Hrun)
    as (g & _ & Hlimits).
  cbv zeta in Hlimits. fold run in Hlimits.
  set (limits := get_crop_limits _ _ _ _ _) in Hlimits.
  exists (fst limits), (snd limits). split; [exact Hlimits |].
  destruct point as [lat lon].
  destruct (crop_limits_cases (project_geometry env) (project_graph env g) lat lon
              {| fig_width := width; fig_height := height |} cd)
    as (Hland & Hport & Hsq).
  cbv zeta in Hland, Hport, Hsq. simpl fig_width in *. simpl fig_height in *.
  fold limits in Hland, Hport, Hsq.
  destruct (aspect_vs_one width height Hh) as (Hlt & Hgt & Heq).
  assert (Hcd : cd == dist * (Qmax height width / Qmin height width) / 4).
  { unfold cd. rewrite py_max_Qmax, py_min_Qmin. reflexivity. }
  clearbody cd.
  destruct (Q_dec width height) as [[Hcmp | Hcmp] | Hcmp].
  - destruct (Hport (proj2 Hlt Hcmp)) as (_ & _ & Hx & Hy).
    rewrite Hx, Hy, Hcd.
    rewrite (Q.max_l height width), (Q.min_r height width), (Q.min_l width height)
      by lra.
    split; field; lra.
  - destruct (Hland (proj2 Hgt Hcmp)) as (_ & _ & Hx & Hy).
    rewrite Hx, Hy, Hcd.
    rewrite (Q.max_r height width), (Q.min_l height width), (Q.min_r width height)
      by lra.
    split; field; lra.
  - destruct (Hsq (proj2 Heq Hcmp)) as (_ & _ & Hx & Hy).
    rewrite Hx, Hy, Hcd.
    rewrite (Q.max_l height width), (Q.min_r height width), (Q.min_l width height)
      by lra.
    rewrite Hcmp. split; field; lra.
Qed.

End CropGeometryMore.

(* ===================================================================== *)
(** * Further properties: the order of a run *)
(* ===================================================================== *)

Section RunOrder.


Lemma Forall_fst_bind {A B} (P : event -> Prop) (m : M A) (k : A -> M B) :
  Forall P (fst m) -> (forall a, Forall P (fst (k a))) ->
  Forall P (fst (m ≫= k)).
Proof.
  intros Hm Hk. rewrite fst_bind. destruct (snd m) as [a | e]; [| exact Hm].
  apply Forall_app. split; [exact Hm | apply Hk].
Qed.

Ltac local_steps :=
  first [ solve [repeat constructor]
        | apply Forall_fst_bind; [local_steps | intros ?; local_steps] ].

Lemma plot_polygon_layer_local env g_proj layer key zorder :
  Forall (fun ev => stays_local ev = true)
         (fst (plot_polygon_layer env g_proj layer key zorder)).
Proof.
  unfold plot_polygon_layer, when. destruct layer as [df |]; [| constructor].
  destruct (negb (empty df)); [| constructor].
  destruct (negb (empty (of_type is_polygon df))); [| constructor].
  local_steps.
Qed.

Lemma plot_rail_groups_local env groups width :
  Forall (fun ev => stays_local ev = true)
         (fst (plot_rail_groups env groups width)).
Proof.
  revert width.
  induction groups as [| [railway_type group] rest IH]; intros width;
    [constructor |].
  cbn [plot_rail_groups].
  destruct (rail_group_style (THEME env) railway_type) as [c w].
  apply Forall_fst_bind; [repeat constructor | intros _; apply IH].
Qed.

Lemma plot_railways_local env g_proj railways width :
  Forall (fun ev => stays_local ev = true)
         (fst (plot_railways env g_proj railways width)).
Proof. rewrite plot_railways_groups. apply plot_rail_groups_local. Qed.

Lemma typography_local env point text_options display_city display_country sf fonts :
  Forall (fun ev => stays_local ev = true)
    (fst (typography env point text_options display_city display_country sf fonts)).
Proof.
  unfold typography, ax_text, ax_rule, when.
  destruct (String.eqb text_options "keep_all");
    destruct (String.eqb text_options "no_coords");
    destruct (String.eqb text_options "no_country");
    destruct (String.eqb text_options "no_city_country");
    local_steps.
Qed.

(** Rendering never leaves the machine: it prints and draws. *)
Lemma render_local env g water parks railways point cd output_file output_format
    text_options width height display_city display_country fonts :
  Forall (fun ev => stays_local ev = true)
    (fst (render env g water parks railways point cd output_file output_format
            text_options width height display_city display_country fonts)).
Proof.
  unfold render. cbv zeta.
  destruct (get_crop_limits _ _ _ _ _) as [crop_xlim crop_ylim].
  repeat (apply Forall_fst_bind;
          [ first [ apply plot_polygon_layer_local | apply plot_railways_local
                  | apply typography_local | solve [repeat constructor] ]
          | intros ? ]).
  repeat constructor.
Qed.

Lemma local_events_observed log :
  Forall (fun ev => stays_local ev = true) log ->
  cache_lookups log = [] /\ remote_calls log = [].
Proof.
  induction 1 as [| ev log Hev _ [IHk IHr]]; [split; reflexivity |].
  unfold cache_lookups, remote_calls in *. simpl.
  destruct ev; try discriminate; simpl; rewrite ?IHk, ?IHr; split; reflexivity.
Qed.

Lemma fetch_graph_calls sv point dist :
  remote_calls (fst (fetch_graph sv point dist))
  `sublist_of` [GraphFromPoint point dist].
Proof.
  destruct (fetch_graph_observed sv point dist) as (_ & [-> | ->] & _);
    [apply sublist_nil_l | reflexivity].
Qed.

Lemma fetch_features_calls sv point dist filter name :
  remote_calls (fst (fetch_features sv point dist filter name))
  `sublist_of` [FeaturesFromPoint point dist filter].
Proof.
  destruct (fetch_features_observed sv point dist filter name)
    as (_ & [-> | ->] & _); [apply sublist_nil_l | reflexivity].
Qed.

(** X12.  Four lookups, in a fixed order.  A run looks up the street
    network, then water, parks and railways, each once, all for the same
    point and the same compensated distance, and stops looking at the
    first failure; the only queries it can send to the servers are the
    four that go with these lookups, in that order.  A run that
    completes has made all four lookups, and drawing needs none.  When
    the distance compensation raises, nothing is looked up or
    queried. *)
Theorem four_lookups_in_order (env : Env)
    (city country : Py.text) (point : Q * Q) (dist : Q)
    (output_file output_format text_options : string) (width height : Q)
    (country_label name_label display_city display_country : option Py.text)
    (fonts : option Fonts) :
  let run :=
    create_poster env city country point dist output_file output_format
      text_options width height country_label name_label display_city
      display_country fonts in
  let sv := services env in
  let features cd name filter :=
    FeaturesKey name (fst point) (snd point) cd (normalize_tags sv filter) in
  let keys cd :=
    [GraphKey (fst point) (snd point) cd; features cd "water" water_tags;
     features cd "parks" parks_tags; features cd "railways" railway_tags] in
  let queries cd :=
    [GraphFromPoint point cd; FeaturesFromPoint point cd water_tags;
     FeaturesFromPoint point cd parks_tags;
     FeaturesFromPoint point cd railway_tags] in
  (forall cd, compensated_dist dist width height = Returns cd ->
     cache_lookups (fst run) `prefix_of` keys cd /\
     remote_calls (fst run) `sublist_of` queries cd /\
     (snd run = Returns tt -> cache_lookups (fst run) = keys cd)) /\
  (forall e, compensated_dist dist width height = Raises e ->
     cache_lookups (fst run) = [] /\ remote_calls (fst run) = [] /\
     snd run = Raises e).
Proof.
  intros run sv features keys queries.
  split.
  2: { intros e Hcd. unfold run.
       rewrite (create_poster_zero_side env _ _ _ _ _ _ _ _ _ _ _ _ _ _ e Hcd).
       repeat split; reflexivity. }
  intros cd Hcd. subst keys queries features. cbv beta.
  set (queries' := [GraphFromPoint point cd; FeaturesFromPoint point cd water_tags;
                    FeaturesFromPoint point cd parks_tags;
                    FeaturesFromPoint point cd railway_tags]).
  pose proof (fetch_graph_observed sv point cd) as (Hk0 & _ & _).
  pose proof (fetch_features_observed sv point cd water_tags "water") as (Hk1 & _ & _).
  pose proof (fetch_features_observed sv point cd parks_tags "parks") as (Hk2 & _ & _).
  pose proof (fetch_features_observed sv point cd railway_tags "railways")
    as (Hk3 & _ & _).
  pose proof (fetch_graph_calls sv point cd) as Hq0.
  pose proof (fetch_features_calls sv point cd water_tags "water") as Hq1.
  pose proof (fetch_features_calls sv point cd parks_tags "parks") as Hq2.
  pose proof (fetch_features_calls sv point cd railway_tags "railways") as Hq3.
  assert (Hrender : forall g water parks railways,
            cache_lookups
              (fst (render env g water parks railways point cd output_file
                      output_format text_options width height
                      (or_text display_city (or_text name_label city))
                      (or_text display_country (or_text country_label country))
                      fonts)) = [] /\
            remote_calls
              (fst (render env g water parks railways point cd output_file
                      output_format text_options width height
                      (or_text display_city (or_text name_label city))
                      (or_text display_country (or_text country_label country))
                      fonts)) = []).
  { intros. apply local_events_observed, render_local. }
  assert (Hqp : forall msg l,
            remote_calls ([Print msg] ++ [] ++ l) = remote_calls l)
    by reflexivity.
  assert (Hkp : forall msg l,
            cache_lookups ([Print msg] ++ [] ++ l) = cache_lookups l)
    by reflexivity.
  assert (Hc1 : forall l0 : list event,
            l0 `sublist_of` [GraphFromPoint point cd] -> l0 `sublist_of` queries').
  { intros l0 H0. rewrite <- (app_nil_r l0).
    apply (sublist_app l0 [_] [] [_; _; _]); [exact H0 | apply sublist_nil_l]. }
  assert (Hc2 : forall l0 l1 : list event,
            l0 `sublist_of` [GraphFromPoint point cd] ->
            l1 `sublist_of` [FeaturesFromPoint point cd water_tags] ->
            l0 ++ l1 `sublist_of` queries').
  { intros l0 l1 H0 H1. apply (sublist_app l0 [_] l1 [_; _; _]); [exact H0 |].
    rewrite <- (app_nil_r l1).
    apply (sublist_app l1 [_] [] [_; _]); [exact H1 | apply sublist_nil_l]. }
  assert (Hc3 : forall l0 l1 l2 : list event,
            l0 `sublist_of` [GraphFromPoint point cd] ->
            l1 `sublist_of` [FeaturesFromPoint point cd water_tags] ->
            l2 `sublist_of` [FeaturesFromPoint point cd parks_tags] ->
            l0 ++ l1 ++ l2 `sublist_of` queries').
  { intros l0 l1 l2 H0 H1 H2.
    apply (sublist_app l0 [_] (l1 ++ l2) [_; _; _]); [exact H0 |].
    apply (sublist_app l1 [_] l2 [_; _]); [exact H1 |].
    rewrite <- (app_nil_r l2).
    apply (sublist_app l2 [_] [] [_]); [exact H2 | apply sublist_nil_l]. }
  assert (Hc4 : forall l0 l1 l2 l3 : list event,
            l0 `sublist_of` [GraphFromPoint point cd] ->
            l1 `sublist_of` [FeaturesFromPoint point cd water_tags] ->
            l2 `sublist_of` [FeaturesFromPoint point cd parks_tags] ->
            l3 `sublist_of` [FeaturesFromPoint point cd railway_tags] ->
            l0 ++ l1 ++ l2 ++ l3 `sublist_of` queries').
  { intros l0 l1 l2 l3 H0 H1 H2 H3.
    apply (sublist_app l0 [_] (l1 ++ l2 ++ l3) [_; _; _]); [exact H0 |].
    apply (sublist_app l1 [_] (l2 ++ l3) [_; _]); [exact H1 |].
    apply (sublist_app l2 [_] l3 [_]); assumption. }
  clearbody queries'.
  unfold run, create_poster. rewrite Hcd. fold sv. cbv zeta.
  rewrite fst_bind, snd_bind. cbn [snd fst emit].
  rewrite fst_bind, snd_bind. cbn [snd fst lift].
  rewrite fst_bind, snd_bind, Hqp, Hkp.
  destruct (snd (fetch_graph sv point cd)) as [[g |] | e].
  2: { cbn [fst raise]. rewrite app_nil_r, Hk0.
       split; [eexists; reflexivity |]. split; [apply Hc1, Hq0 | discriminate]. }
  2: { rewrite Hk0.
       split; [eexists; reflexivity |]. split; [apply Hc1, Hq0 | discriminate]. }
  rewrite fst_bind, snd_bind.
  destruct (snd (fetch_features sv point cd water_tags "water")) as [water | e].
  2: { rewrite cache_lookups_app, remote_calls_app, Hk0, Hk1.
       split; [eexists; reflexivity |].
       split; [apply Hc2; assumption | discriminate]. }
  rewrite fst_bind, snd_bind.
  destruct (snd (fetch_features sv point cd parks_tags "parks")) as [parks | e].
  2: { rewrite !cache_lookups_app, !remote_calls_app, Hk0, Hk1, Hk2.
       split; [eexists; reflexivity |].
       split; [apply Hc3; assumption | discriminate]. }
  rewrite fst_bind, snd_bind.
  destruct (snd (fetch_features sv point cd railway_tags "railways"))
    as [railways | e].
  2: { rewrite !cache_lookups_app, !remote_calls_app, Hk0, Hk1, Hk2, Hk3.
       split; [exists []; reflexivity |].
       split; [apply Hc4; assumption | discriminate]. }
  rewrite fst_bind, snd_bind. cbn [snd fst emit].
  destruct (Hrender g water parks railways) as [Hrk Hrq].
  change (fst (emit (Print MsgAllRetrieved))) with [Print MsgAllRetrieved].
  rewrite !cache_lookups_app, !remote_calls_app, Hk0, Hk1, Hk2, Hk3, Hrk, Hrq.
  change (cache_lookups [Print MsgAllRetrieved]) with (@nil cache_key).
  change (remote_calls [Print MsgAllRetrieved]) with (@nil event).
  rewrite !app_nil_r.
  split; [exists []; reflexivity |].
  split; [apply Hc4; assumption | reflexivity].
Qed.

Lemma same_layer_sorted (kb : nat) (l : list nat) :
  Forall (eq kb) l -> StronglySorted le l.
Proof.
  induction 1 as [| x l Hx Hl IH]; constructor; [exact IH |].
  subst x. eapply Forall_impl; [exact Hl |]. intros y <-. lia.
Qed.

Lemma in_paint_order_bind {A B} (k kb : nat) (m : M A) (f : A -> M B) :
  Forall (eq kb) (layers (fst m)) -> (k <= kb)%nat ->
  (forall a, in_paint_order kb (fst (f a))) ->
  in_paint_order k (fst (m ≫= f)).
Proof.
  intros Hm Hle Hf.
  assert (Hown : in_paint_order k (fst m)).
  { split; [exact (same_layer_sorted kb _ Hm) |].
    eapply Forall_impl; [exact Hm |]. intros y <-. exact Hle. }
  rewrite fst_bind. destruct (snd m) as [a | e]; [| exact Hown].
  destruct Hown as [Hsorted Hfrom]. destruct (Hf a) as [Hfs Hff].
  unfold in_paint_order. rewrite layers_app. split.
  - apply StronglySorted_app_2; [| exact Hsorted | exact Hfs].
    intros x1 x2 Hx1 Hx2.
    rewrite Forall_forall in Hm. rewrite Forall_forall in Hff.
    rewrite <- (Hm x1 Hx1). apply Hff, Hx2.
  - apply Forall_app. split; [exact Hfrom |].
    eapply Forall_impl; [exact Hff |]. intros y Hy. lia.
Qed.

Lemma in_paint_order_quiet {A} (k : nat) (m : M A) :
  layers (fst m) = [] -> in_paint_order k (fst m).
Proof. unfold in_paint_order. intros ->. split; constructor. Qed.

Lemma in_paint_order_bind_quiet {A B} (k : nat) (m : M A) (f : A -> M B) :
  layers (fst m) = [] ->
  (forall a, in_paint_order k (fst (f a))) ->
  in_paint_order k (fst (m ≫= f)).
Proof.
  intros Hm Hf. apply (in_paint_order_bind k k); [| lia | exact Hf].
  rewrite Hm. constructor.
Qed.

Lemma plot_polygon_layer_stage env g_proj layer key zorder :
  Forall (eq (if Qle_bool zorder 0.5 then 1 else 2)%nat)
         (layers (fst (plot_polygon_layer env g_proj layer key zorder))).
Proof.
  unfold plot_polygon_layer, when, lift, theme_item.
  destruct layer as [df |]; [| constructor].
  destruct (negb (empty df)); [| constructor].
  destruct (negb (empty (of_type is_polygon df))); [| constructor].
  destruct (THEME env !! key); repeat constructor.
Qed.

Lemma plot_railways_stage env g_proj railways width :
  Forall (eq 4%nat) (layers (fst (plot_railways env g_proj railways width))).
Proof.
  rewrite plot_railways_groups.
  generalize (rail_groups env g_proj railways). intros groups. revert width.
  induction groups as [| [railway_type group] rest IH]; intros width;
    [constructor |].
  cbn [plot_rail_groups].
  destruct (rail_group_style (THEME env) railway_type) as [c w].
  rewrite fst_bind. cbn [snd fst emit]. rewrite layers_app.
  apply Forall_app. split; [repeat constructor | apply IH].
Qed.

Lemma typography_stage env point text_options display_city display_country sf fonts :
  Forall (eq 7%nat)
    (layers (fst (typography env point text_options display_city
                    display_country sf fonts))).
Proof.
  unfold typography, ax_text, ax_rule, when, lift, theme_item.
  destruct (THEME env !! "text");
    destruct (String.eqb text_options "keep_all");
    destruct (String.eqb text_options "no_coords");
    destruct (String.eqb text_options "no_country");
    destruct (String.eqb text_options "no_city_country");
    repeat constructor.
Qed.

Lemma render_in_paint_order env g water parks railways point cd output_file
    output_format text_options width height display_city display_country fonts :
  in_paint_order 0
    (fst (render env g water parks railways point cd output_file output_format
            text_options width height display_city display_country fonts)).
Proof.
  unfold render. cbv zeta.
  destruct (get_crop_limits _ _ _ _ _) as [crop_xlim crop_ylim].
  repeat first
    [ apply in_paint_order_bind_quiet; [reflexivity | intros ?]
    | eapply in_paint_order_bind;
      [ first [ apply plot_polygon_layer_stage | apply plot_railways_stage
              | apply typography_stage | solve [repeat constructor] ]
      | vm_compute; lia
      | intros ? ] ].
  apply in_paint_order_quiet. reflexivity.
Qed.

(** X13.  The paint order.  In every run, however it ends, the drawing
    commands come in this order: figure set-up, water polygons, park
    polygons, the street network, railway lines, the axis limits, the
    two fades, the text, the saving and the closing of the figure. *)
Theorem layers_are_painted_in_order (env : Env)
    (city country : Py.text) (point : Q * Q) (dist : Q)
    (output_file output_format text_options : string) (width height : Q)
    (country_label name_label display_city display_country : option Py.text)
    (fonts : option Fonts) :
  let run :=
    create_poster env city country point dist output_file output_format
      text_options width height country_label name_label display_city
      display_country fonts in
  StronglySorted le (layers (fst run)) /\
  (forall i j a b,
     layers (fst run) !! i = Some a -> layers (fst run) !! j = Some b ->
     (i <= j)%nat -> (a <= b)%nat).
Proof.
  intros run.
  assert (Hsorted : StronglySorted le (layers (fst run))).
  { assert (Horder : in_paint_order 0 (fst run)); [| apply Horder].
    unfold run, create_poster. cbv zeta.
    apply in_paint_order_bind_quiet; [reflexivity | intros _].
    apply in_paint_order_bind_quiet; [reflexivity | intros cd].
    apply in_paint_order_bind_quiet.
    { unfold layers. rewrite (proj2 (proj2 (fetch_graph_observed _ _ _))).
      reflexivity. }
    intros [g |]; [| apply in_paint_order_quiet; reflexivity].
    repeat (apply in_paint_order_bind_quiet;
            [ unfold layers;
              rewrite (proj2 (proj2 (fetch_features_observed _ _ _ _ _)));
              reflexivity
            | intros ? ]).
    apply in_paint_order_bind_quiet; [reflexivity | intros _].
    apply render_in_paint_order. }
  split; [exact Hsorted |].
  intros i j a b Hi Hj Hij.
  destruct (decide (i = j)) as [-> | Hne]; [assert (a = b) by congruence; lia |].
  assert (Hlt : (i < j)%nat) by lia.
  clear Hij Hne. revert i j a b Hi Hj Hlt.
  induction Hsorted as [| x l _ IH Hall]; intros i j a b Hi Hj Hlt;
    [discriminate |].
  destruct j as [| j]; [lia |]. simpl in Hj.
  destruct i as [| i]; simpl in Hi.
  - injection Hi as <-. rewrite Forall_forall in Hall.
    apply Hall. eapply list_elem_of_lookup_2. exact Hj.
  - apply (IH i j); [assumption | assumption | lia].
Qed.

End RunOrder.

(* ===================================================================== *)
(** * Further properties: layers and text *)
(* ===================================================================== *)

Section LayersAndText.

Variable env : Env.

Lemma rail_group_colour (THEME : theme) (railway_type : string) :
  fst (rail_group_style THEME railway_type) = THEME !! rail_color_key railway_type.
Proof.
  unfold rail_group_style, rail_color_key.
  repeat match goal with |- context [if ?b then _ else _] => destruct b end;
    reflexivity.
Qed.

Lemma plot_rail_groups_drawn groups width :
  drawn (fst (plot_rail_groups env groups width))
  = map (fun tg => PlotLines (snd tg) (THEME env !! rail_color_key (fst tg)) 1)
        groups.
Proof.
  revert width.
  induction groups as [| [railway_type group] rest IH]; intros width;
    [reflexivity |].
  cbn [plot_rail_groups].
  pose proof (rail_group_colour (THEME env) railway_type) as Hc.
  destruct (rail_group_style (THEME env) railway_type) as [c w].
  simpl in Hc. subst c.
  rewrite fst_bind. cbn [snd fst emit]. rewrite drawn_app, IH. reflexivity.
Qed.

(** X14.  The railway layer.  Drawing the railways never fails, whatever
    the theme holds: one plot per group of line geometries, in group
    order, each in the colour the theme has for the role the edge
    classifier gives that railway value (no colour when the theme lacks
    the role), at z-order 1; nothing when the collection is absent or
    holds no line.  The block answers with the value it leaves in
    [width]: the line width of the last group, or what it was given when
    there was no group. *)
Theorem railway_layer (g_proj : Graph) (railways : option GeoDataFrame)
    (width : Q) :
  let rail_lines :=
    match railways with Some df => of_type is_line df | None => [] end in
  snd (plot_railways env g_proj railways width)
  = Returns (width_after env (rail_groups env g_proj railways) width) /\
  (rail_lines = [] ->
   plot_railways env g_proj railways width = ([], Returns width)) /\
  (rail_lines <> [] ->
   drawn (fst (plot_railways env g_proj railways width))
   = map (fun tg => PlotLines (snd tg) (THEME env !! rail_color_key (fst tg)) 1)
         (groupby_railway (project_layer env g_proj rail_lines))).
Proof.
  intros rail_lines. split; [apply plot_railways_run |].
  unfold plot_railways. subst rail_lines.
  destruct railways as [df |]; [| split; [reflexivity | congruence]].
  destruct df as [| row df]; [split; [reflexivity | simpl; congruence] |].
  cbn [empty negb].
  destruct (of_type is_line (row :: df)) as [| line lines] eqn:Hlines;
    [split; [reflexivity | congruence] |].
  cbn [empty negb]. split; [discriminate |].
  intros _. apply plot_rail_groups_drawn.
Qed.

(** X15.  A polygon layer.  Of a water or parks collection only the
    polygons and multipolygons are kept.  Without any, nothing is drawn
    and the theme is not even consulted; with some, they are projected
    (through [to_crs] when [project_gdf] raises) and drawn in one plot in
    the theme's colour, and a theme without that colour makes the layer
    raise the KeyError of its key. *)
Theorem polygon_layer (g_proj : Graph) (layer : option GeoDataFrame)
    (key : string) (zorder : Q) :
  let polys :=
    match layer with Some df => of_type is_polygon df | None => [] end in
  Forall (fun row => is_polygon (geometry_type row) = true) polys /\
  (polys = [] ->
   plot_polygon_layer env g_proj layer key zorder = ([], Returns tt)) /\
  (polys <> [] -> forall c, THEME env !! key = Some c ->
   plot_polygon_layer env g_proj layer key zorder
   = ([Draw (PlotPolygons (project_layer env g_proj polys) c zorder)],
      Returns tt)) /\
  (polys <> [] -> THEME env !! key = None ->
   plot_polygon_layer env g_proj layer key zorder = ([], Raises (KeyError key))) /\
  (forall e, project_gdf env polys = Raises e ->
   project_layer env g_proj polys = to_crs env polys (graph_crs g_proj)).
Proof.
  intros polys. split.
  { subst polys. destruct layer as [df |]; [| constructor].
    unfold of_type. apply List.Forall_forall. intros row Hin.
    apply List.filter_In in Hin. apply Hin. }
  assert (Hcases : forall df, layer = Some df -> polys = of_type is_polygon df)
    by (intros df ->; reflexivity).
  unfold plot_polygon_layer, when, lift, theme_item.
  split; [| split; [| split]].
  - intros Hnone. destruct layer as [df |]; [| reflexivity].
    rewrite <- (Hcases df eq_refl), Hnone.
    destruct (empty df); reflexivity.
  - intros Hsome c Hc. destruct layer as [df |]; [| contradiction].
    rewrite <- (Hcases df eq_refl).
    destruct df as [| row df]; [contradiction |]. cbn [empty negb].
    destruct polys as [| p ps]; [contradiction |]. cbn [empty negb].
    rewrite Hc. reflexivity.
  - intros Hsome Hc. destruct layer as [df |]; [| contradiction].
    rewrite <- (Hcases df eq_refl).
    destruct df as [| row df]; [contradiction |]. cbn [empty negb].
    destruct polys as [| p ps]; [contradiction |]. cbn [empty negb].
    rewrite Hc. reflexivity.
  - intros e He. unfold project_layer. rewrite He. reflexivity.
Qed.

(** X16.  The text layouts.  With a text colour in the theme the
    typography never fails and always ends with the attribution, bottom
    right, at size 8.  Before it come: city, country, coordinates and a
    rule ("keep_all"); city, country and a rule ("no_coords"); city,
    coordinates in the country's place and a rule ("no_country"); the
    coordinates alone in the city's place ("no_city_country"); nothing
    at all for any other option.  Without a text colour nothing is drawn
    and the KeyError of "text" is raised, whatever the option. *)
Theorem text_layouts (point : Q * Q) (text_options : string)
    (display_city display_country : Py.text) (sf : Q) (fonts : option Fonts) :
  let run :=
    typography env point text_options display_city display_country sf fonts in
  let title :=
    Label (if PosterText.is_latin_script (isalpha env) display_city
           then join [32; 32]%N (map (fun c => [c]) (upper env display_city))
           else display_city) in
  let country := Label (upper env display_country) in
  let attribution := (0.98, 0.02, Attribution) in
  (THEME env !! "text" = None -> run = ([], Raises (KeyError "text"))) /\
  (forall c, THEME env !! "text" = Some c ->
     snd run = Returns tt /\
     last (drawn (fst run))
     = Some (AxText 0.98 0.02 Attribution c (Some 0.5) "right"
               (font_props (FONTS env) light None 8)) /\
     (text_options = "keep_all" ->
      texts (fst run)
      = [(0.5, 0.14, title); (0.5, 0.10, country);
         (0.5, 0.07, coords_label point); attribution] /\
      rules (fst run) = [AxRule (1 * sf) c]) /\
     (text_options = "no_coords" ->
      texts (fst run) = [(0.5, 0.14, title); (0.5, 0.10, country); attribution] /\
      rules (fst run) = [AxRule (1 * sf) c]) /\
     (text_options = "no_country" ->
      texts (fst run)
      = [(0.5, 0.14, title); (0.5, 0.10, coords_label point); attribution] /\
      rules (fst run) = [AxRule (1 * sf) c]) /\
     (text_options = "no_city_country" ->
      texts (fst run) = [(0.5, 0.14, coords_label point); attribution] /\
      rules (fst run) = []) /\
     (~ In text_options ["keep_all"; "no_coords"; "no_country"; "no_city_country"] ->
      texts (fst run) = [attribution] /\ rules (fst run) = [] /\
      length (drawn (fst run)) = 1%nat)).
Proof.
  intros run title country attribution. subst run.
  unfold typography, ax_text, ax_rule, when, lift, theme_item.
  split.
  { intros ->.
    destruct (String.eqb text_options "keep_all");
      destruct (String.eqb text_options "no_coords");
      destruct (String.eqb text_options "no_country");
      destruct (String.eqb text_options "no_city_country"); reflexivity. }
  intros c ->.
  split; [| split].
  { destruct (String.eqb text_options "keep_all");
      destruct (String.eqb text_options "no_coords");
      destruct (String.eqb text_options "no_country");
      destruct (String.eqb text_options "no_city_country"); reflexivity. }
  { destruct (String.eqb text_options "keep_all");
      destruct (String.eqb text_options "no_coords");
      destruct (String.eqb text_options "no_country");
      destruct (String.eqb text_options "no_city_country"); reflexivity. }
  split; [intros ->; split; reflexivity |].
  split; [intros ->; split; reflexivity |].
  split; [intros ->; split; reflexivity |].
  split; [intros ->; split; reflexivity |].
  intros Hother. simpl in Hother.
  destruct (String.eqb_spec text_options "keep_all") as [-> | _]; [tauto |].
  destruct (String.eqb_spec text_options "no_coords") as [-> | _]; [tauto |].
  destruct (String.eqb_spec text_options "no_country") as [-> | _]; [tauto |].
  destruct (String.eqb_spec text_options "no_city_country") as [-> | _]; [tauto |].
  repeat split; reflexivity.
Qed.

End LayersAndText.

(* ===================================================================== *)
(** * Further properties: sizes, fades, labels *)
(* ===================================================================== *)

Section SizesFadesLabels.

Lemma chars_as_Q (n m : nat) :
  (n <= m)%nat -> inject_Z (Z.of_nat n) <= inject_Z (Z.of_nat m).
Proof. intros H. rewrite <- Zle_Qle. lia. Qed.

Lemma shrink_factor (sf q : Q) :
  0 <= sf -> 10 < q ->
  0 <= base_main * sf * (10 / q) /\ base_main * sf * (10 / q) <= 60 * sf /\
  (60 <= q -> base_main * sf * (10 / q) <= 10 * sf).
Proof.
  intros Hsf Hq. unfold base_main.
  assert (Hr : 10 / q * q == 10) by (field; lra).
  assert (Hpos : 0 < 10 / q) by (apply Qlt_shift_div_l; lra).
  assert (Hone : 10 / q <= 1) by (apply Qle_shift_div_r; lra).
  split; [nra |]. split; [nra |].
  intros H60.
  assert (Hsix : 10 / q <= 1 # 6) by (apply Qle_shift_div_r; lra).
  nra.
Qed.

(** X17.  The title never leaves its range.  For a non-negative scale
    factor the size of the title lies between the floor, 10 times the
    factor, and the base size, 60 times the factor; names of 60
    characters and more sit exactly on the floor; and a longer name never
    gets a larger title than a shorter one. *)
Theorem title_size_range (display_city longer : Py.text) (sf : Q) :
  0 <= sf ->
  10 * sf <= adjusted_font_size display_city sf /\
  adjusted_font_size display_city sf <= 60 * sf /\
  ((60 <= length display_city)%nat ->
   adjusted_font_size display_city sf == 10 * sf) /\
  ((length display_city <= length longer)%nat ->
   adjusted_font_size longer sf <= adjusted_font_size display_city sf).
Proof.
  intros Hsf.
  assert (Hsize : forall s : Py.text,
            ((length s <= 10)%nat /\ adjusted_font_size s sf = 60 * sf) \/
            ((10 < length s)%nat /\
             adjusted_font_size s sf
             == Qmax (base_main * sf * (10 / inject_Z (Z.of_nat (length s))))
                     (10 * sf))).
  { intros s. unfold adjusted_font_size.
    destruct (Z.gtb_spec (Z.of_nat (length s)) 10) as [Hgt | Hle].
    - right. split; [lia | apply py_max_Qmax].
    - left. split; [lia | reflexivity]. }
  assert (Hq : forall s : Py.text, (10 < length s)%nat ->
            10 < inject_Z (Z.of_nat (length s))).
  { intros s Hs. change 10 with (inject_Z 10). rewrite <- Zlt_Qlt. lia. }
  assert (Hrange : forall s : Py.text,
            10 * sf <= adjusted_font_size s sf /\
            adjusted_font_size s sf <= 60 * sf).
  { intros s. destruct (Hsize s) as [[_ ->] | [Hlong ->]]; [split; lra |].
    destruct (shrink_factor sf _ Hsf (Hq s Hlong)) as (_ & Hhi & _).
    split; [apply Q.le_max_r | apply Q.max_lub; lra]. }
  split; [apply Hrange |]. split; [apply Hrange |]. split.
  - intros H60. destruct (Hsize display_city) as [[Hshort _] | [Hlong ->]]; [lia |].
    apply Q.max_r.
    apply (shrink_factor sf _ Hsf (Hq display_city Hlong)).
    change 60 with (inject_Z 60). rewrite <- Zle_Qle. lia.
  - intros Hlen.
    destruct (Hsize display_city) as [[Hshort ->] | [Hlong Hcity]];
      [apply Hrange |].
    destruct (Hsize longer) as [[Hshort' _] | [Hlong' Hlonger]]; [lia |].
    rewrite Hcity, Hlonger.
    apply Q.max_le_compat_r.
    pose proof (Hq display_city Hlong) as Hq1.
    pose proof (chars_as_Q _ _ Hlen) as Hq12.
    set (q1 := inject_Z (Z.of_nat (length display_city))) in *.
    set (q2 := inject_Z (Z.of_nat (length longer))) in *.
    assert (Hinv : 10 / q2 <= 10 / q1).
    { apply Qle_shift_div_l; [lra |].
      assert (Hr : 10 / q2 * q2 == 10) by (field; lra).
      assert (Hp : 0 < 10 / q2) by (apply Qlt_shift_div_l; lra).
      nra. }
    unfold base_main. nra.
Qed.

(** X18.  The two fades.  The bottom fade spans the axes from side to
    side and the lowest quarter of their height, opaque at the bottom
    edge; any other location gives the top fade, which spans the highest
    quarter and is opaque at the top edge.  On axes that are not upside
    down the fades leave the middle half of the height between them. *)
Theorem fades_cover_the_outer_quarters (xlim ylim : Q * Q) (c : color)
    (location : string) (zorder : Q) :
  location <> "bottom" ->
  let bottom := create_gradient_fade xlim ylim c "bottom" zorder in
  let top := create_gradient_fade xlim ylim c location zorder in
  let height := snd ylim - fst ylim in
  let y0 fade := snd (fst (fade_extent fade)) in
  let y1 fade := snd (fade_extent fade) in
  fst (fst (fade_extent bottom)) = (fst xlim, snd xlim) /\
  fst (fst (fade_extent top)) = (fst xlim, snd xlim) /\
  y0 bottom == fst ylim /\ y1 bottom - y0 bottom == height / 4 /\
  y1 top == snd ylim /\ y1 top - y0 top == height / 4 /\
  y0 top - y1 bottom == height / 2 /\
  (fst ylim <= snd ylim -> y1 bottom <= y0 top) /\
  fade_alpha bottom = (1, 0) /\ fade_alpha top = (0, 1).
Proof.
  intros Hloc bottom top height y0 y1.
  subst bottom top y0 y1. unfold create_gradient_fade.
  destruct (String.eqb_spec location "bottom") as [Heq | _]; [contradiction |].
  cbn [String.eqb Ascii.eqb Bool.eqb fade_extent fade_alpha fst snd].
  subst height.
  repeat split; try reflexivity; try (intros Hup); try field; lra.
Qed.

(** X19.  The coordinate line.  The latitude is shown without its sign,
    with N for the northern half (the equator included) and S for the
    southern one; the longitude is shown as it is, sign included, with E
    for the eastern half (the prime meridian included) and W for the
    western one. *)
Theorem coordinate_line (lat lon : Q) :
  exists shown ns ew,
    coords_label (lat, lon) = Coords shown ns lon ew /\
    shown == Qabs lat /\ 0 <= shown /\
    (0 <= lat -> ns = "N") /\ (lat < 0 -> ns = "S") /\
    (0 <= lon -> ew = "E") /\ (lon < 0 -> ew = "W").
Proof.
  unfold coords_label.
  destruct (Qle_bool 0 lat) eqn:Hlat; destruct (Qgt_bool 0 lon) eqn:Hlon;
    try apply Qle_bool_iff in Hlat;
    try (apply not_true_iff_false in Hlat; rewrite Qle_bool_iff in Hlat);
    try apply Qgt_bool_true in Hlon; try apply Qgt_bool_false in Hlon;
    eexists _, _, _; (split; [reflexivity |]);
    repeat split; try apply Qabs_nonneg; try reflexivity;
    try (symmetry; apply Qabs_pos; assumption);
    try assumption; intros; try reflexivity; exfalso; lra.
Qed.

Lemma join_singletons (c : N) (s : Py.text) :
  join [32; 32]%N (map (fun ch => [ch]) (c :: s))
  = match s with
    | [] => [c]
    | _ => c :: 32%N :: 32%N :: join [32; 32]%N (map (fun ch => [ch]) s)
    end.
Proof. destruct s; reflexivity. Qed.

(** X20.  Letter spacing can be undone.  Joining the characters of a
    name with two spaces gives a text three times as long, less two, and
    every third character of it, from the first on, spells the name
    again, spaces of its own included. *)
Theorem letter_spacing_round_trip (s : Py.text) :
  let spaced := join [32; 32]%N (map (fun ch => [ch]) s) in
  every_third spaced = s /\
  length spaced = (3 * length s - 2)%nat /\
  (s = [] <-> spaced = []).
Proof.
  cbv zeta. induction s as [| c s (IHt & IHl & IHe)].
  - repeat split; reflexivity.
  - rewrite join_singletons. destruct s as [| d s].
    + repeat split; try reflexivity; discriminate.
    + cbn [every_third]. rewrite IHt.
      split; [reflexivity |]. split; [| split; discriminate].
      cbn [length] in *. rewrite IHl. lia.
Qed.

End SizesFadesLabels.

(* ===================================================================== *)
(** * Further properties: get_coordinates *)
(* ===================================================================== *)

Import Program.

Section ScriptRuns.

Context {A B : Type}.
Implicit Types (m : Script A) (k : A -> Script B).

Lemma script_snd_bind m k :
  snd (m ≫= k) = match snd m with
                 | Goes a => snd (k a)
                 | Fails e => Fails e
                 | Exits code => Exits code
                 end.
Proof.
  destruct m as [log [a | e | code]]; simpl; try reflexivity.
  unfold mbind, Script_bind. destruct (k a); reflexivity.
Qed.

Lemma script_fst_bind m k :
  fst (m ≫= k) = match snd m with
                 | Goes a => fst m ++ fst (k a)
                 | _ => fst m
                 end.
Proof.
  destruct m as [log [a | e | code]]; simpl; try reflexivity.
  unfold mbind, Script_bind. destruct (k a); reflexivity.
Qed.

End ScriptRuns.

Ltac not_in_log :=
  let H := fresh in
  intros H; cbn in H;
  repeat (destruct H as [H | H];
          [ repeat match type of H with
                   | context [match ?x with _ => _ end] => destruct x
                   end; discriminate |]);
  exact H.

Ltac geocoder_cases gc :=
  unfold get_coordinates, ask, attempt, say, note, throw;
  destruct (coords_cache_get gc _ _) as [[cached |] | e0]; cbn;
  [ | destruct (geocode gc _ _) as [[[loc |] |] | e1]; cbn;
      [ destruct (coords_cache_set gc _ _ _) as [[] | [] ]
      |
      | destruct (asyncio_run gc) as [[loc |] | [] ]; cbn;
        try (destruct (get_event_loop gc) as [[] | e2]; cbn;
             [ | destruct (run_until_complete gc) as [[loc |] | e3]; cbn | ]);
        try (destruct (coords_cache_set gc _ _ _) as [[] | [] ])
      | ]
  | ].

Section Geocoding.

Variable gc : Geocoder.

(** X21.  Where coordinates come from.  Whatever [get_coordinates]
    returns was either in the cache under the lower-cased names, or is
    the latitude and longitude of a location that the geocoder answered
    (at once, or through its coroutine), and then a cache write of that
    very pair under that key is in the log. *)
Theorem coordinates_come_from_cache_or_geocoder (city country : Py.text)
    (coords : Q * Q) :
  let key_city := lower gc city in
  let key_country := lower gc country in
  snd (get_coordinates gc city country) = Goes coords ->
  coords_cache_get gc key_city key_country = Returns (Some coords) \/
  (coords_cache_get gc key_city key_country = Returns None /\
   exists location,
     coords = (latitude location, longitude location) /\
     In (CoordsCacheSet key_city key_country coords)
        (fst (get_coordinates gc city country)) /\
     (geocode gc city country = Returns (Answer (Some location)) \/
      (geocode gc city country = Returns Coroutine /\
       (asyncio_run gc = Returns (Some location) \/
        run_until_complete gc = Returns (Some location))))).
Proof.
  cbv zeta. geocoder_cases gc; cbn; intros Hret;
    try discriminate; injection Hret as <-;
    first [ left; reflexivity
          | right; split; [reflexivity |]; eexists; split; [reflexivity |];
            split; [tauto | tauto] ].
Qed.

(** X22.  Failures of the lookup are ValueErrors, and cache nothing.
    After a cache miss, an exception [e] of the geocoder ends the call in
    the ValueError "Geocoding failed for <city>, <country>: <e>", and a
    place the geocoder does not know ends it in the ValueError "Could not
    find coordinates for <city>, <country>"; in both cases the log is the
    lookup, the notice, the pause and the query, without a cache
    write. *)
Theorem lookup_failures_are_value_errors (city country : Py.text) :
  let tried :=
    [CoordsCacheGet (lower gc city) (lower gc country); Say LookingUp; Nap 1;
     GeocodeQuery city country] in
  coords_cache_get gc (lower gc city) (lower gc country) = Returns None ->
  (forall e, geocode gc city country = Raises e ->
     get_coordinates gc city country
     = (tried,
        Fails (ValueError ("Geocoding failed for " ++ show_text gc city ++ ", "
                           ++ show_text gc country ++ ": " ++ show_exn gc e)))) /\
  (geocode gc city country = Returns (Answer None) ->
   get_coordinates gc city country
   = (tried,
      Fails (ValueError ("Could not find coordinates for "
                         ++ show_text gc city ++ ", " ++ show_text gc country)))).
Proof.
  intros tried Hmiss. subst tried.
  split; [intros e Hgeo | intros Hgeo];
    unfold get_coordinates, ask, attempt, say, note, throw;
    rewrite Hmiss, Hgeo; reflexivity.
Qed.

(** X23.  The coroutine of the geocoder.  When, after a cache miss, the
    geocoder hands back a coroutine, [asyncio.run] drives it.  If that
    raises a RuntimeError, the code asks for the event loop: an
    exception of [asyncio.get_event_loop] ends the call as it is, and a
    loop that is running ends it in the RuntimeError about the running
    loop; in both cases the coroutine is not driven again.  Any other
    exception of [asyncio.run] travels up as it is, without a question
    for the loop.  The coroutine is driven a second time only when
    [asyncio.run] raised a RuntimeError and the event loop was handed
    out and is not running. *)
Theorem failed_asyncio_run_ends_the_lookup (city country : Py.text) :
  coords_cache_get gc (lower gc city) (lower gc country) = Returns None ->
  geocode gc city country = Returns Coroutine ->
  (forall msg, asyncio_run gc = Raises (RuntimeError msg) ->
     (forall e, get_event_loop gc = Raises e ->
        snd (get_coordinates gc city country) = Fails e /\
        ~ In RunUntilComplete (fst (get_coordinates gc city country))) /\
     (get_event_loop gc = Returns true ->
        snd (get_coordinates gc city country) = Fails loop_already_running /\
        ~ In RunUntilComplete (fst (get_coordinates gc city country)))) /\
  (forall e, asyncio_run gc = Raises e -> is_RuntimeError e = false ->
     snd (get_coordinates gc city country) = Fails e /\
     ~ In GetEventLoop (fst (get_coordinates gc city country)) /\
     ~ In RunUntilComplete (fst (get_coordinates gc city country))) /\
  (asyncio_run gc = Returns None ->
   snd (get_coordinates gc city country) = Fails (could_not_find gc city country)) /\
  (In RunUntilComplete (fst (get_coordinates gc city country)) ->
   (exists msg, asyncio_run gc = Raises (RuntimeError msg)) /\
   get_event_loop gc = Returns false).
Proof.
  intros Hmiss Hgeo.
  unfold get_coordinates, ask, attempt, say, note, throw.
  rewrite Hmiss, Hgeo.
  split; [| split; [| split]].
  - intros msg Hrun. rewrite Hrun. cbn. split.
    + intros e ->. cbn. split; [reflexivity | not_in_log].
    + intros ->. cbn. split; [reflexivity | not_in_log].
  - intros e Hrun He. rewrite Hrun. cbn. rewrite He. cbn.
    split; [reflexivity |]. split; not_in_log.
  - intros ->. reflexivity.
  - destruct (asyncio_run gc) as [[loc |] | e]; cbn.
    + destruct (coords_cache_set gc _ _ _) as [[] | [] ]; cbn;
        intros Hin; exfalso; revert Hin; not_in_log.
    + intros Hin; exfalso; revert Hin; not_in_log.
    + destruct e; cbn;
        try (intros Hin; exfalso; revert Hin; not_in_log).
      destruct (get_event_loop gc) as [[] | e]; cbn;
        try (intros Hin; exfalso; revert Hin; not_in_log).
      intros _. split; [eexists; reflexivity | reflexivity].
Qed.

(** X24.  The pause goes with the query.  [get_coordinates] pauses for a
    second exactly when the cache has answered with a miss, and exactly
    then it queries the geocoder, once; on a hit it returns the cached
    pair at once, and a cache read that raises ends the call with that
    exception. *)
Theorem pause_goes_with_the_query (city country : Py.text) :
  let log := fst (get_coordinates gc city country) in
  let read := coords_cache_get gc (lower gc city) (lower gc country) in
  (In (Nap 1) log <-> read = Returns None) /\
  (In (GeocodeQuery city country) log <-> read = Returns None) /\
  (forall coords, read = Returns (Some coords) ->
     get_coordinates gc city country
     = ([CoordsCacheGet (lower gc city) (lower gc country);
         Say (CachedCoordinates city country)], Goes coords)) /\
  (forall e, read = Raises e ->
     get_coordinates gc city country
     = ([CoordsCacheGet (lower gc city) (lower gc country)], Fails e)).
Proof.
  cbv zeta.
  assert (Hmiss : coords_cache_get gc (lower gc city) (lower gc country)
                  = Returns None ->
                  exists rest,
                    fst (get_coordinates gc city country)
                    = CoordsCacheGet (lower gc city) (lower gc country)
                      :: Say LookingUp :: Nap 1 :: GeocodeQuery city country
                      :: rest).
  { intros Hread. unfold get_coordinates, ask, attempt, say, note, throw.
    rewrite Hread.
    destruct (geocode gc city country) as [[[loc |] |] | e1]; cbn;
      [ destruct (coords_cache_set gc _ _ _) as [[] | [] ]; cbn; eauto
      | eauto
      | destruct (asyncio_run gc) as [[loc |] | [] ]; cbn;
        try (destruct (get_event_loop gc) as [[] | e2]; cbn;
             [ | destruct (run_until_complete gc) as [[loc |] | e3]; cbn | ]);
        try (destruct (coords_cache_set gc _ _ _) as [[] | [] ]; cbn);
        eauto
      | eauto ]. }
  assert (Hhit : forall coords,
            coords_cache_get gc (lower gc city) (lower gc country)
            = Returns (Some coords) ->
            get_coordinates gc city country
            = ([CoordsCacheGet (lower gc city) (lower gc country);
                Say (CachedCoordinates city country)], Goes coords)).
  { intros coords Hread. unfold get_coordinates, ask. rewrite Hread. reflexivity. }
  assert (Hraise : forall e,
            coords_cache_get gc (lower gc city) (lower gc country) = Raises e ->
            get_coordinates gc city country
            = ([CoordsCacheGet (lower gc city) (lower gc country)], Fails e)).
  { intros e Hread. unfold get_coordinates, ask. rewrite Hread. reflexivity. }
  split; [| split; [| split; assumption]].
  - split.
    + destruct (coords_cache_get gc (lower gc city) (lower gc country))
        as [[coords |] | e] eqn:Hread; [| reflexivity |].
      * rewrite (Hhit coords eq_refl). cbn. intros [H | [H | []]]; discriminate.
      * rewrite (Hraise e eq_refl). cbn. intros [H | []]; discriminate.
    + intros Hread. destruct (Hmiss Hread) as [rest ->]. cbn. tauto.
  - split.
    + destruct (coords_cache_get gc (lower gc city) (lower gc country))
        as [[coords |] | e] eqn:Hread; [| reflexivity |].
      * rewrite (Hhit coords eq_refl). cbn. intros [H | [H | []]]; discriminate.
      * rewrite (Hraise e eq_refl). cbn. intros [H | []]; discriminate.
    + intros Hread. destruct (Hmiss Hread) as [rest ->]. cbn. tauto.
Qed.

End Geocoding.
Import ScriptLog.

Section ScriptMonad.
Context {A B : Type}.

Lemma script_ret_bind (a : A) (k : A -> Script B) : (mret a ≫= k) = k a.
Proof. unfold mret, Script_ret, mbind, Script_bind. destruct (k a); reflexivity. Qed.

Lemma script_note_bind (s : step) (k : unit -> Script B) :
  (note s ≫= k) = (s :: fst (k tt), snd (k tt)).
Proof. unfold note, mbind, Script_bind. destruct (k tt); reflexivity. Qed.

Lemma script_pair_bind (log : list step) (a : A) (k : A -> Script B) :
  ((log, Goes a) ≫= k) = (log ++ fst (k a), snd (k a)).
Proof. unfold mbind, Script_bind. destruct (k a); reflexivity. Qed.

Lemma script_bind_assoc {C} (m : Script A) (f : A -> Script B) (g : B -> Script C) :
  ((m ≫= f) ≫= g) = (m ≫= fun a => f a ≫= g).
Proof.
  destruct m as [log [a | e | code]]; try reflexivity.
  unfold mbind, Script_bind. destruct (f a) as [log1 [b | e | code]];
    try reflexivity.
  destruct (g b) as [log2 r]. rewrite app_assoc. reflexivity.
Qed.

End ScriptMonad.

Lemma attempt_report (body : Script unit) :
  attempt body (fun _ => true) report
  = (fst body ++ match snd body with
                 | Fails e => [Say (ErrorLine e); Traceback]
                 | _ => []
                 end,
     match snd body with
     | Fails _ => Exits 1
     | r => r
     end).
Proof.
  destruct body as [log [[] | e | code]]; cbn; rewrite ?app_nil_r; reflexivity.
Qed.

Section ScriptShape.
Variable inst : Installation.

Lemma main_after_checks (argc : nat) (args : Args) :
  passes_checks inst argc args = true ->
  let family := default EmptyString (arg_font_family args) in
  let custom_fonts :=
    if given_str (arg_font_family args) then load_fonts inst family else None in
  let body :=
    try_body inst args (enforced (arg_width args)) (enforced (arg_height args))
      custom_fonts (wanted inst args) in
  main inst argc args
  = ((if Qgt_bool (arg_width args) 20
      then [Say (WidthTooLarge (arg_width args))] else [])
     ++ (if Qgt_bool (arg_height args) 20
         then [Say (HeightTooLarge (arg_height args))] else [])
     ++ [Say Banner]
     ++ (if given_str (arg_font_family args)
         then LoadFonts family
              :: match load_fonts inst family with
                 | Some _ => []
                 | None => [Say (FontFallback family)]
                 end
         else [])
     ++ fst body
     ++ match snd body with
        | Fails e => [Say (ErrorLine e); Traceback]
        | _ => []
        end,
     match snd body with
     | Fails _ => Exits 1
     | r => r
     end).
Proof.
  unfold passes_checks, main, wanted, enforced. intros H.
  repeat (apply andb_prop in H; destruct H as [H ?]).
  destruct (argc =? 1)%nat; [discriminate |].
  destruct (arg_list_themes args); [discriminate |].
  destruct (given (arg_city args)); [| discriminate].
  destruct (given (arg_country args)); [| discriminate].
  cbn [negb orb].
  destruct (get_available_themes inst) as [| t ts] eqn:Hav; [discriminate |].
  cbv zeta.
  destruct (Qgt_bool (arg_width args) 20);
    destruct (Qgt_bool (arg_height args) 20);
    (destruct (arg_all_themes args);
     [| destruct (str_in (arg_theme args) (t :: ts)); [| discriminate]]);
    (destruct (given_str (arg_font_family args));
     [destruct (load_fonts inst _) |]);
    unfold say, note, mret, Script_ret;
    repeat (rewrite script_pair_bind; cbn [fst snd app]);
    rewrite attempt_report; reflexivity.
Qed.

End ScriptShape.

Section ScriptParts.
Variable inst : Installation.

Lemma themes_loaded_app l1 l2 :
  themes_loaded (l1 ++ l2) = themes_loaded l1 ++ themes_loaded l2.
Proof. apply flat_map_app. Qed.

Lemma poster_events_app l1 l2 :
  poster_events (l1 ++ l2) = poster_events l1 ++ poster_events l2.
Proof. apply flat_map_app. Qed.

Lemma geocoder_steps_app l1 l2 :
  geocoder_steps (l1 ++ l2) = geocoder_steps l1 ++ geocoder_steps l2.
Proof. apply List.filter_app. Qed.

Lemma figures_app l1 l2 : figures (l1 ++ l2) = figures l1 ++ figures l2.
Proof. apply flat_map_app. Qed.

(** Steps of the pipeline, seen from the script. *)
Lemma in_poster_steps {A} (m : M A) :
  poster_events (fst (in_poster m)) = fst m /\
  themes_loaded (fst (in_poster m)) = [] /\
  geocoder_steps (fst (in_poster m)) = [] /\
  (forall msg, ~ In (Say msg) (fst (in_poster m))) /\
  (forall code, snd (in_poster m) <> Exits code).
Proof.
  unfold in_poster. cbn [fst snd]. repeat split.
  - induction (fst m) as [| ev log IH]; [reflexivity |].
    cbn. f_equal. exact IH.
  - induction (fst m) as [| ev log IH]; [reflexivity | exact IH].
  - induction (fst m) as [| ev log IH]; [reflexivity | exact IH].
  - intros msg H. apply in_map_iff in H. destruct H as (ev & Hev & _).
    discriminate.
  - intros code. destruct (snd m); discriminate.
Qed.

(** What the lookup of the coordinates leaves in the log. *)
Lemma get_coordinates_steps (gc : Geocoder) (city country : Py.text) :
  themes_loaded (fst (get_coordinates gc city country)) = [] /\
  poster_events (fst (get_coordinates gc city country)) = [] /\
  ~ In (Say Complete) (fst (get_coordinates gc city country)) /\
  (forall code, snd (get_coordinates gc city country) <> Exits code).
Proof.
  geocoder_cases gc; cbn;
    (split; [reflexivity |]); (split; [reflexivity |]);
    (split; [not_in_log | intros code; discriminate]).
Qed.

Lemma resolve_coordinates_steps (args : Args) :
  themes_loaded (fst (resolve_coordinates inst args)) = [] /\
  poster_events (fst (resolve_coordinates inst args)) = [] /\
  ~ In (Say Complete) (fst (resolve_coordinates inst args)) /\
  (forall code, snd (resolve_coordinates inst args) <> Exits code).
Proof.
  unfold resolve_coordinates.
  destruct (given_str (arg_latitude args) && given_str (arg_longitude args));
    [| apply get_coordinates_steps].
  unfold ask, say, note.
  destruct (parse inst (default EmptyString (arg_latitude args))) as [lat | e];
    cbn; [| repeat split; try not_in_log; intros code; discriminate].
  destruct (parse inst (default EmptyString (arg_longitude args))) as [lon | e];
    cbn; repeat split; try not_in_log; intros code; discriminate.
Qed.

Lemma resolve_coordinates_given (args : Args) :
  given_str (arg_latitude args) && given_str (arg_longitude args) = true ->
  geocoder_steps (fst (resolve_coordinates inst args)) = [] /\
  forall coords, snd (resolve_coordinates inst args) = Goes coords ->
    parse inst (default EmptyString (arg_latitude args)) = Returns (fst coords) /\
    parse inst (default EmptyString (arg_longitude args)) = Returns (snd coords).
Proof.
  intros Hgiven. unfold resolve_coordinates. rewrite Hgiven.
  unfold ask, say, note.
  destruct (parse inst (default EmptyString (arg_latitude args))) as [lat | e];
    cbn; [| split; [reflexivity | discriminate]].
  destruct (parse inst (default EmptyString (arg_longitude args))) as [lon | e];
    cbn; (split; [reflexivity |]); [| discriminate].
  intros coords [= <-]. split; reflexivity.
Qed.

(** Every figure of a run of [create_poster] has the size it was asked
    for. *)
Section OwnFigure.

Variables (env : Env) (width height : Q).

Ltac own_steps :=
  first [ solve [repeat constructor]
        | apply Forall_fst_bind; [own_steps | intros ?; own_steps] ].

Lemma fetch_graph_own sv point dist :
  Forall (opens_figure_of (width, height)) (fst (fetch_graph sv point dist)).
Proof.
  destruct point as [lat lon]. unfold fetch_graph, call.
  destruct (cache_get_graph sv (GraphKey lat lon dist)) as [[g |] | e];
    [repeat constructor | | repeat constructor].
  destruct (graph_from_point sv (lat, lon) dist) as [g | e];
    [| repeat constructor].
  cbn.
  destruct (cache_set_graph sv (GraphKey lat lon dist) g) as [[] | e];
    [repeat constructor |].
  destruct e; repeat constructor.
Qed.

Lemma fetch_features_own sv point dist filter name :
  Forall (opens_figure_of (width, height))
         (fst (fetch_features sv point dist filter name)).
Proof.
  destruct point as [lat lon]. unfold fetch_features, call.
  destruct (cache_get_features sv
              (FeaturesKey name lat lon dist (normalize_tags sv filter)))
    as [[df |] | e]; [repeat constructor | | repeat constructor].
  destruct (features_from_point sv (lat, lon) dist filter) as [df | e];
    [| repeat constructor].
  cbn.
  destruct (cache_set_features sv
              (FeaturesKey name lat lon dist (normalize_tags sv filter)) df)
    as [[] | e]; [repeat constructor |].
  destruct e; repeat constructor.
Qed.

Lemma plot_polygon_layer_own g_proj layer key zorder :
  Forall (opens_figure_of (width, height))
         (fst (plot_polygon_layer env g_proj layer key zorder)).
Proof.
  unfold plot_polygon_layer, when. destruct layer as [df |]; [| constructor].
  destruct (negb (empty df)); [| constructor].
  destruct (negb (empty (of_type is_polygon df))); [| constructor].
  own_steps.
Qed.

Lemma plot_railways_own g_proj railways w :
  Forall (opens_figure_of (width, height))
         (fst (plot_railways env g_proj railways w)).
Proof.
  rewrite plot_railways_groups.
  generalize (rail_groups env g_proj railways). intros groups. revert w.
  induction groups as [| [railway_type group] rest IH]; intros w;
    [constructor |].
  cbn [plot_rail_groups].
  destruct (rail_group_style (THEME env) railway_type) as [c w'].
  apply Forall_fst_bind; [repeat constructor | intros _; apply IH].
Qed.

Lemma typography_own point text_options display_city display_country sf fonts :
  Forall (opens_figure_of (width, height))
    (fst (typography env point text_options display_city display_country sf fonts)).
Proof.
  unfold typography, ax_text, ax_rule, when.
  destruct (String.eqb text_options "keep_all");
    destruct (String.eqb text_options "no_coords");
    destruct (String.eqb text_options "no_country");
    destruct (String.eqb text_options "no_city_country");
    own_steps.
Qed.

Lemma create_poster_figures city country point dist output_file output_format
    text_options country_label name_label display_city display_country fonts :
  Forall (eq (width, height))
    (figures (fst (create_poster env city country point dist output_file
                     output_format text_options width height country_label
                     name_label display_city display_country fonts))).
Proof.
  assert (Hown : Forall (opens_figure_of (width, height))
            (fst (create_poster env city country point dist output_file
                    output_format text_options width height country_label
                    name_label display_city display_country fonts))).
  { unfold create_poster. cbv zeta.
    apply Forall_fst_bind; [repeat constructor | intros _].
    apply Forall_fst_bind; [repeat constructor | intros cd].
    apply Forall_fst_bind; [apply fetch_graph_own | intros [g |]];
      [| repeat constructor].
    do 3 (apply Forall_fst_bind; [apply fetch_features_own | intros ?]).
    apply Forall_fst_bind; [repeat constructor | intros _].
    unfold render. cbv zeta.
    destruct (get_crop_limits _ _ _ _ _) as [crop_xlim crop_ylim].
    repeat (apply Forall_fst_bind;
            [ first [ apply plot_polygon_layer_own | apply plot_railways_own
                    | apply typography_own | solve [repeat constructor] ]
            | intros ? ]).
    repeat constructor. }
  induction Hown as [| ev log Hev _ IH]; [constructor |].
  destruct ev as [| | | | | | []]; try exact IH.
  cbn. constructor; [symmetry; exact Hev | exact IH].
Qed.

End OwnFigure.

(** The loop over the themes. *)
Lemma generate_posters_steps (args : Args) (coords : Q * Q) (width height : Q)
    (custom_fonts : option Fonts) (themes : list string) :
  let run := generate_posters inst args coords width height custom_fonts themes in
  themes_loaded (fst run) `prefix_of` themes /\
  (snd run = Goes tt -> themes_loaded (fst run) = themes) /\
  (themes <> [] -> themes_loaded (fst run) <> []) /\
  geocoder_steps (fst run) = [] /\
  (forall msg, ~ In (Say msg) (fst run)) /\
  Forall (eq (width, height)) (figures (poster_events (fst run))) /\
  (forall code, snd run <> Exits code).
Proof.
  cbv zeta. induction themes as [| theme_name rest IH].
  - cbn. repeat split; try reflexivity; try constructor; try discriminate.
    + intros H; contradiction.
    + intros msg [].
  - cbn [generate_posters]. unfold ask.
    assert (Hstop : forall (log : list step) (e : exn),
              (log = [LoadTheme theme_name] \/
               exists city fmt,
                 log = [LoadTheme theme_name; OutputFilename city theme_name fmt]) ->
              themes_loaded log `prefix_of` theme_name :: rest /\
              (@Fails unit e = Goes tt ->
               themes_loaded log = theme_name :: rest) /\
              (theme_name :: rest <> [] -> themes_loaded log <> []) /\
              geocoder_steps log = [] /\
              (forall msg, ~ In (Say msg) log) /\
              Forall (eq (width, height)) (figures (poster_events log)) /\
              (forall code, @Fails unit e <> Exits code)).
    { intros log e [-> | (city & fmt & ->)];
        (split; [exists rest; reflexivity |]);
        (split; [discriminate |]); (split; [discriminate |]);
        (split; [reflexivity |]); (split; [intros msg; not_in_log |]);
        (split; [constructor | discriminate]). }
    destruct (load_theme inst theme_name) as [THEME | e]; cbn [of_outcome];
      [| exact (Hstop [LoadTheme theme_name] e (or_introl eq_refl))].
    rewrite script_pair_bind.
    destruct (generate_output_filename inst _ theme_name (arg_format args))
      as [output_file | e]; cbn [of_outcome];
      [| exact (Hstop _ e (or_intror (ex_intro _ _ (ex_intro _ _ eq_refl))))].
    clear Hstop.
    rewrite script_pair_bind. cbn [fst snd].
    rewrite script_fst_bind, script_snd_bind.
    destruct (in_poster_steps
                (create_poster (poster_env inst THEME)
                   (default [] (arg_city args)) (default [] (arg_country args))
                   coords (inject_Z (arg_distance args))
                   output_file (arg_format args) (arg_text_options args)
                   width height
                   (arg_country_label args) None
                   (arg_display_city args) (arg_display_country args)
                   custom_fonts)) as (Hpe & Hth & Hgeo & Hsay & Hexit).
    pose proof (create_poster_figures (poster_env inst THEME) width height
                  (default [] (arg_city args)) (default [] (arg_country args))
                  coords (inject_Z (arg_distance args))
                  output_file (arg_format args) (arg_text_options args)
                  (arg_country_label args) None
                  (arg_display_city args) (arg_display_country args)
                  custom_fonts) as Hfig.
    rewrite <- Hpe in Hfig. clear Hpe.
    set (poster := in_poster _) in *.
    destruct IH as (IHp & IHg & _ & IHgeo & IHsay & IHfig & IHexit).
    destruct (snd poster) as [[] | e | code] eqn:Hend; cbv iota;
      [| | exfalso; exact (Hexit code eq_refl)];
      rewrite !themes_loaded_app, !geocoder_steps_app, !poster_events_app,
        ?figures_app, Hth, Hgeo;
      change (themes_loaded [LoadTheme theme_name]) with [theme_name];
      change (themes_loaded [OutputFilename (default [] (arg_city args))
                               theme_name (arg_format args)])
        with (@nil string);
      change (geocoder_steps [LoadTheme theme_name]) with (@nil step);
      change (geocoder_steps [OutputFilename (default [] (arg_city args))
                                theme_name (arg_format args)])
        with (@nil step);
      change (poster_events [LoadTheme theme_name]) with (@nil event);
      change (poster_events [OutputFilename (default [] (arg_city args))
                               theme_name (arg_format args)])
        with (@nil event);
      cbn [app].
    + split; [apply prefix_cons; exact IHp |].
      split; [intros Hgo; f_equal; apply IHg; exact Hgo |].
      split; [discriminate |].
      split; [exact IHgeo |].
      split.
      { intros msg [H | [H | H]]; try discriminate.
        apply in_app_or in H. destruct H as [H | H];
          [exact (Hsay msg H) | exact (IHsay msg H)]. }
      split; [| exact IHexit].
      change (figures []) with (@nil (Q * Q)). cbn [app].
      apply Forall_app. split; assumption.
    + split; [exists rest; reflexivity |].
      split; [discriminate |].
      split; [discriminate |].
      split; [reflexivity |].
      split.
      { intros msg [H | [H | H]]; try discriminate. exact (Hsay msg H). }
      change (figures []) with (@nil (Q * Q)).
      split; [exact Hfig | discriminate].
Qed.

End ScriptParts.

Section ScriptRun.
Variable inst : Installation.

(** The [try] block as a whole. *)
Lemma try_body_steps (args : Args) (width height : Q)
    (custom_fonts : option Fonts) (themes : list string) :
  let run := try_body inst args width height custom_fonts themes in
  (snd run = Goes tt \/ exists e, snd run = Fails e) /\
  (snd run = Goes tt <-> In (Say Complete) (fst run)) /\
  themes_loaded (fst run) `prefix_of` themes /\
  (snd run = Goes tt -> themes_loaded (fst run) = themes) /\
  Forall (eq (width, height)) (figures (poster_events (fst run))) /\
  geocoder_steps (fst run)
  = geocoder_steps (fst (resolve_coordinates inst args)).
Proof.
  cbv zeta. unfold try_body.
  destruct (resolve_coordinates_steps inst args) as (Hth & Hpe & Hdone & Hexit).
  rewrite script_fst_bind, script_snd_bind.
  destruct (snd (resolve_coordinates inst args)) as [coords | e | code];
    [| | exfalso; exact (Hexit code eq_refl)].
  2: { rewrite Hth, Hpe.
       split; [right; eexists; reflexivity |].
       split; [split; [discriminate | intros H; contradiction] |].
       split; [apply prefix_nil |].
       split; [discriminate |].
       split; [constructor | reflexivity]. }
  destruct (generate_posters_steps inst args coords width height custom_fonts
              themes) as (Hp & Hall & _ & Hgeo & Hsay & Hfig & Hgexit).
  rewrite script_fst_bind, script_snd_bind.
  destruct (snd (generate_posters inst args coords width height custom_fonts
                   themes)) as [[] | e | code];
    [| | exfalso; exact (Hgexit code eq_refl)].
  - change (fst (say Complete)) with [Say Complete].
    change (snd (say Complete)) with (Goes tt).
    rewrite !themes_loaded_app, !poster_events_app, !figures_app,
      !geocoder_steps_app, Hth, Hpe, Hgeo.
    change (themes_loaded [Say Complete]) with (@nil string).
    change (poster_events [Say Complete]) with (@nil event).
    change (geocoder_steps [Say Complete]) with (@nil step).
    change (figures []) with (@nil (Q * Q)).
    rewrite !app_nil_r. cbn [app].
    split; [left; reflexivity |].
    split; [split; [intros _ | reflexivity] |].
    { apply in_or_app. right. apply in_or_app. right. left. reflexivity. }
    split; [exact Hp |].
    split; [intros _; apply Hall; reflexivity |].
    split; [exact Hfig | reflexivity].
  - rewrite !themes_loaded_app, !poster_events_app, !figures_app,
      !geocoder_steps_app, Hth, Hpe, Hgeo.
    change (figures []) with (@nil (Q * Q)).
    rewrite !app_nil_r. cbn [app].
    split; [right; eexists; reflexivity |].
    split; [split; [discriminate |] |].
    { intros H. exfalso. apply in_app_or in H. destruct H as [H | H];
        [exact (Hdone H) | exact (Hsay _ H)]. }
    split; [exact Hp |].
    split; [discriminate |].
    split; [exact Hfig | reflexivity].
Qed.

(** A run whose arguments fail a check. *)
Lemma main_rejects (argc : nat) (args : Args) :
  passes_checks inst argc args = false ->
  Forall (fun s => is_talk s = true) (fst (main inst argc args)) /\
  ~ In (Say Banner) (fst (main inst argc args)) /\
  ~ In (Say Complete) (fst (main inst argc args)) /\
  snd (main inst argc args)
  = Exits (if (argc =? 1)%nat || arg_list_themes args then 0 else 1)%Z.
Proof.
  unfold passes_checks, main. intros H.
  destruct (argc =? 1)%nat; [cbn; repeat split; repeat constructor; not_in_log |].
  destruct (arg_list_themes args);
    [cbn; repeat split; repeat constructor; not_in_log |].
  destruct (given (arg_city args));
    [| cbn; repeat split; repeat constructor; not_in_log].
  destruct (given (arg_country args));
    [| cbn; repeat split; repeat constructor; not_in_log].
  cbn [negb orb andb] in *.
  destruct (get_available_themes inst) as [| t ts].
  - destruct (Qgt_bool (arg_width args) 20);
      destruct (Qgt_bool (arg_height args) 20);
      cbn; repeat split; repeat constructor; not_in_log.
  - rewrite bool_decide_eq_false_2 in H by discriminate. cbn [negb andb] in H.
    apply orb_false_elim in H. destruct H as [-> ->].
    destruct (Qgt_bool (arg_width args) 20);
      destruct (Qgt_bool (arg_height args) 20);
      cbn; repeat split; repeat constructor; not_in_log.
Qed.

(** A run whose arguments pass: what comes before and after the [try]
    block adds no theme, no pipeline step and no geocoder step. *)
Lemma main_accepts (argc : nat) (args : Args) :
  passes_checks inst argc args = true ->
  let family := default EmptyString (arg_font_family args) in
  let custom_fonts :=
    if given_str (arg_font_family args) then load_fonts inst family else None in
  let body :=
    try_body inst args (enforced (arg_width args)) (enforced (arg_height args))
      custom_fonts (wanted inst args) in
  exists before after,
    fst (main inst argc args) = before ++ fst body ++ after /\
    snd (main inst argc args)
    = match snd body with Fails _ => Exits 1 | r => r end /\
    In (Say Banner) before /\ ~ In (Say Complete) before /\
    ~ In (Say Complete) after /\
    themes_loaded before = [] /\ themes_loaded after = [] /\
    poster_events before = [] /\ poster_events after = [] /\
    geocoder_steps before = [] /\ geocoder_steps after = [].
Proof.
  intros Hpass family custom_fonts body.
  pose proof (main_after_checks inst argc args Hpass) as Hmain.
  cbv zeta in Hmain. fold family custom_fonts body in Hmain.
  rewrite Hmain. cbn [fst snd].
  exists ((if Qgt_bool (arg_width args) 20
           then [Say (WidthTooLarge (arg_width args))] else [])
          ++ (if Qgt_bool (arg_height args) 20
              then [Say (HeightTooLarge (arg_height args))] else [])
          ++ [Say Banner]
          ++ (if given_str (arg_font_family args)
              then LoadFonts family
                   :: match load_fonts inst family with
                      | Some _ => []
                      | None => [Say (FontFallback family)]
                      end
              else [])).
  exists (match snd body with
          | Fails e => [Say (ErrorLine e); Traceback]
          | _ => []
          end).
  split; [rewrite <- !app_assoc; reflexivity |].
  split; [reflexivity |].
  clearbody body. clear Hmain.
  destruct (Qgt_bool (arg_width args) 20);
    destruct (Qgt_bool (arg_height args) 20);
    (destruct (given_str (arg_font_family args));
     [destruct (load_fonts inst family) |]);
    destruct (snd body) as [[] | e | code]; cbn;
    repeat split; try reflexivity; try tauto; not_in_log.
Qed.

End ScriptRun.

Section ScriptTheorems.
Variable inst : Installation.

Lemma talk_only (log : list step) :
  Forall (fun s => is_talk s = true) log ->
  themes_loaded log = [] /\ poster_events log = [] /\ geocoder_steps log = [].
Proof.
  induction 1 as [| s log Hs _ (IHt & IHp & IHg)];
    [repeat split; reflexivity |].
  unfold themes_loaded, poster_events, geocoder_steps in *.
  destruct s; try discriminate; cbn; rewrite ?IHt, ?IHp, ?IHg;
    repeat split; reflexivity.
Qed.

Lemma enforced_le_20 (inches : Q) : enforced inches <= 20.
Proof.
  unfold enforced. destruct (Qgt_bool inches 20) eqn:Hgt.
  - apply Qle_bool_iff. reflexivity.
  - apply Qgt_bool_false. exact Hgt.
Qed.

(** X25.  How the script ends.  Whatever the coordinate parser, the
    geocoder, the theme loader, the file naming and the pipeline raise,
    no exception leaves the script: it runs to its end, or leaves with
    status 0 or 1.  It leaves with 0 exactly when it was started
    without arguments or asked for the list of themes, and it runs to
    its end exactly when it has announced that the posters are
    complete. *)
Theorem script_ends_cleanly (argc : nat) (args : Args) :
  let run := main inst argc args in
  (snd run = Goes tt \/ snd run = Exits 0 \/ snd run = Exits 1) /\
  (snd run = Exits 0 <-> argc = 1%nat \/ arg_list_themes args = true) /\
  (snd run = Goes tt <-> In (Say Complete) (fst run)).
Proof.
  cbv zeta. destruct (passes_checks inst argc args) eqn:Hpass.
  - destruct (main_accepts inst argc args Hpass)
      as (before & after & Hlog & Hend & _ & Hb & Ha & _).
    cbv zeta in Hlog, Hend. rewrite Hlog, Hend.
    destruct (try_body_steps inst args (enforced (arg_width args))
                (enforced (arg_height args))
                (if given_str (arg_font_family args)
                 then load_fonts inst (default EmptyString (arg_font_family args))
                 else None)
                (wanted inst args)) as (Hcases & Hdone & _).
    cbv zeta in Hcases, Hdone.
    assert (Hstarted : ~ (argc = 1%nat \/ arg_list_themes args = true)).
    { unfold passes_checks in Hpass.
      repeat (apply andb_prop in Hpass; destruct Hpass as [Hpass ?]).
      apply negb_true_iff in Hpass. apply Nat.eqb_neq in Hpass.
      intros [H' | H']; [contradiction |].
      rewrite H' in *. discriminate. }
    assert (Hin : In (Say Complete)
                    (before
                     ++ fst (try_body inst args (enforced (arg_width args))
                               (enforced (arg_height args))
                               (if given_str (arg_font_family args)
                                then load_fonts inst
                                       (default EmptyString (arg_font_family args))
                                else None)
                               (wanted inst args))
                     ++ after)
                  <-> In (Say Complete)
                        (fst (try_body inst args (enforced (arg_width args))
                                (enforced (arg_height args))
                                (if given_str (arg_font_family args)
                                 then load_fonts inst
                                        (default EmptyString (arg_font_family args))
                                 else None)
                                (wanted inst args)))).
    { rewrite !in_app_iff. tauto. }
    rewrite Hin, <- Hdone.
    destruct Hcases as [-> | [e ->]].
    + split; [left; reflexivity |]. split; [| tauto].
      split; [discriminate | intros H'; contradiction].
    + split; [right; right; reflexivity |]. split; [| split; discriminate].
      split; [discriminate | intros H'; contradiction].
  - destruct (main_rejects inst argc args Hpass) as (_ & _ & Hdone & ->).
    split; [destruct ((argc =? 1)%nat || arg_list_themes args); tauto |].
    split; [| split; [discriminate | intros H'; contradiction]].
    destruct (Nat.eqb_spec argc 1) as [-> | Hargc]; cbn [orb].
    + split; [intros _; left; reflexivity | reflexivity].
    + destruct (arg_list_themes args).
      * split; [intros _; right; reflexivity | reflexivity].
      * split; [discriminate | intros [H' | H']; [contradiction | discriminate]].
Qed.

(** X26.  Checks come first.  Arguments that fail one of the checks
    (no arguments at all, the list of themes asked for, no city or no
    country, no theme installed, or a theme that is not installed) make
    the script talk and leave: it reads no cache, asks no geocoder,
    loads no theme and runs no pipeline, and its status is 0 for the
    first two and 1 for the others.  The banner is printed exactly when
    all checks pass. *)
Theorem checks_come_first (argc : nat) (args : Args) :
  let run := main inst argc args in
  (passes_checks inst argc args = false ->
   Forall (fun s => is_talk s = true) (fst run) /\
   geocoder_steps (fst run) = [] /\
   themes_loaded (fst run) = [] /\
   poster_events (fst run) = [] /\
   snd run = Exits (if (argc =? 1)%nat || arg_list_themes args then 0 else 1)%Z) /\
  (In (Say Banner) (fst run) <-> passes_checks inst argc args = true).
Proof.
  cbv zeta. split.
  - intros Hpass.
    destruct (main_rejects inst argc args Hpass) as (Htalk & _ & _ & Hend).
    destruct (talk_only _ Htalk) as (Ht & Hp & Hg).
    repeat split; assumption.
  - destruct (passes_checks inst argc args) eqn:Hpass.
    + destruct (main_accepts inst argc args Hpass)
        as (before & after & Hlog & _ & Hbanner & _).
      cbv zeta in Hlog. rewrite Hlog.
      split; [reflexivity | intros _; apply in_or_app; left; exact Hbanner].
    + destruct (main_rejects inst argc args Hpass) as (_ & Hbanner & _).
      split; [intros H'; contradiction | discriminate].
Qed.

(** X27.  No figure beyond 20 by 20.  Every figure that a run of
    the script opens has the width and the height of the arguments
    after the limit has been enforced, so neither side is above 20,
    whatever width and height were asked for. *)
Theorem figures_are_at_most_20_by_20 (argc : nat) (args : Args) :
  Forall (fun figsize =>
            figsize = (enforced (arg_width args), enforced (arg_height args)) /\
            fst figsize <= 20 /\ snd figsize <= 20)
         (figures (poster_events (fst (main inst argc args)))).
Proof.
  destruct (passes_checks inst argc args) eqn:Hpass.
  - destruct (main_accepts inst argc args Hpass)
      as (before & after & Hlog & _ & _ & _ & _ & _ & _ & Hb & Ha & _).
    cbv zeta in Hlog. rewrite Hlog, !poster_events_app, Hb, Ha, app_nil_r.
    cbn [app].
    destruct (try_body_steps inst args (enforced (arg_width args))
                (enforced (arg_height args))
                (if given_str (arg_font_family args)
                 then load_fonts inst (default EmptyString (arg_font_family args))
                 else None)
                (wanted inst args)) as (_ & _ & _ & _ & Hfig & _).
    cbv zeta in Hfig. eapply Forall_impl; [exact Hfig |].
    intros figsize <-. cbn [fst snd].
    split; [reflexivity |]. split; apply enforced_le_20.
  - destruct (main_rejects inst argc args Hpass) as (Htalk & _).
    destruct (talk_only _ Htalk) as (_ & -> & _). constructor.
Qed.

(** X28.  Themes in order, until the first failure.  The themes the
    script loads are the first ones of those asked for (all installed
    themes, or the one named), in their order; a run that ends without
    an error has loaded every one of them. *)
Theorem themes_in_order_until_failure (argc : nat) (args : Args) :
  let run := main inst argc args in
  themes_loaded (fst run) `prefix_of` wanted inst args /\
  (snd run = Goes tt -> themes_loaded (fst run) = wanted inst args).
Proof.
  cbv zeta. destruct (passes_checks inst argc args) eqn:Hpass.
  - destruct (main_accepts inst argc args Hpass)
      as (before & after & Hlog & Hend & _ & _ & _ & Hb & Ha & _).
    cbv zeta in Hlog, Hend.
    rewrite Hlog, Hend, !themes_loaded_app, Hb, Ha, app_nil_r. cbn [app].
    destruct (try_body_steps inst args (enforced (arg_width args))
                (enforced (arg_height args))
                (if given_str (arg_font_family args)
                 then load_fonts inst (default EmptyString (arg_font_family args))
                 else None)
                (wanted inst args)) as (_ & _ & Hp & Hall & _).
    cbv zeta in Hp, Hall. split; [exact Hp |].
    intros Hgo. apply Hall.
    destruct (snd (try_body _ _ _ _ _ _)) as [[] | e | code];
      [reflexivity | discriminate | discriminate].
  - destruct (main_rejects inst argc args Hpass) as (Htalk & _ & _ & Hend).
    destruct (talk_only _ Htalk) as (-> & _ & _).
    split; [apply prefix_nil | rewrite Hend; discriminate].
Qed.

(** X29.  One lookup for all themes.  Whatever the number of themes,
    what a run does with the geocoder, its cache and its clock is what
    one call of [get_coordinates] for the city and country of the
    arguments does, or nothing; with a latitude and a longitude on the
    command line it is nothing. *)
Theorem one_lookup_for_all_themes (argc : nat) (args : Args) :
  let run := main inst argc args in
  let lookup :=
    get_coordinates (geocoder inst)
      (default [] (arg_city args)) (default [] (arg_country args)) in
  (geocoder_steps (fst run) = [] \/
   geocoder_steps (fst run) = geocoder_steps (fst lookup)) /\
  (given_str (arg_latitude args) && given_str (arg_longitude args) = true ->
   geocoder_steps (fst run) = []).
Proof.
  cbv zeta. destruct (passes_checks inst argc args) eqn:Hpass.
  - destruct (main_accepts inst argc args Hpass)
      as (before & after & Hlog & _ & _ & _ & _ & _ & _ & _ & _ & Hb & Ha).
    cbv zeta in Hlog.
    rewrite Hlog, !geocoder_steps_app, Hb, Ha, app_nil_r. cbn [app].
    destruct (try_body_steps inst args (enforced (arg_width args))
                (enforced (arg_height args))
                (if given_str (arg_font_family args)
                 then load_fonts inst (default EmptyString (arg_font_family args))
                 else None)
                (wanted inst args)) as (_ & _ & _ & _ & _ & Hgeo).
    cbv zeta in Hgeo. rewrite Hgeo.
    destruct (given_str (arg_latitude args) && given_str (arg_longitude args))
      eqn:Hgiven.
    + destruct (resolve_coordinates_given inst args Hgiven) as [-> _].
      split; [left; reflexivity | reflexivity].
    + unfold resolve_coordinates. rewrite Hgiven.
      split; [right; reflexivity | discriminate].
  - destruct (main_rejects inst argc args Hpass) as (Htalk & _).
    destruct (talk_only _ Htalk) as (_ & _ & ->).
    split; [left; reflexivity | reflexivity].
Qed.

End ScriptTheorems.
Import Cases.

(* ===================================================================== *)
(** * The further properties in the sample worlds *)
(* ===================================================================== *)

(** A warm cache answers without the servers; a cache that cannot be
    read ends the fetch with its exception. *)
Lemma warm_cache_and_locked_cache :
  fetch_graph cached_services paris_point 4500
  = ([CacheGet (GraphKey (fst paris_point) (snd paris_point) 4500);
      Print MsgCachedNetwork], Returns (Some sample_graph)) /\
  fetch_features locked_cache_services paris_point 4500 parks_tags "parks"
  = ([CacheGet (FeaturesKey "parks" (fst paris_point) (snd paris_point) 4500
                  "tags")],
     Raises (OtherException "permission denied")).
Proof.
  destruct (cache_lookup_decides cached_services paris_point 4500 parks_tags
              "parks") as (Hhit & _).
  destruct (cache_lookup_decides locked_cache_services paris_point 4500
              parks_tags "parks") as (_ & _ & _ & Hraise).
  cbv zeta in *. split.
  - apply Hhit. reflexivity.
  - apply Hraise. reflexivity.
Defined.

(** With a full disk the street network and the parks are still
    returned. *)
Lemma full_disk_keeps_the_data :
  snd (fetch_graph full_disk_services paris_point 4500)
  = Returns (Some sample_graph) /\
  snd (fetch_features full_disk_services paris_point 4500 parks_tags "parks")
  = Returns (Some sample_parks).
Proof.
  destruct (fetched_data_survives_cache_error full_disk_services paris_point
              4500 parks_tags "parks") as (Hgraph & Hfeatures).
  cbv zeta in *. split.
  - destruct (Hgraph sample_graph eq_refl eq_refl) as (_ & Herr).
    rewrite (Herr "disk full" eq_refl). reflexivity.
  - destruct (Hfeatures sample_parks eq_refl eq_refl) as (_ & Herr).
    rewrite (Herr "disk full" eq_refl). reflexivity.
Defined.

(** On a read-only file system the street network that the server sent
    is not returned. *)
Lemma read_only_cache_loses_the_network :
  graph_from_point read_only_services paris_point 4500 = Returns sample_graph /\
  snd (fetch_graph read_only_services paris_point 4500) = Returns None /\
  snd (fetch_features read_only_services paris_point 4500 parks_tags "parks")
  = Returns None.
Proof.
  destruct (other_write_errors_lose_the_data read_only_services paris_point
              4500 parks_tags "parks" (OtherException "read-only file system")
              eq_refl) as (Hgraph & Hfeatures).
  split; [reflexivity |]. split.
  - rewrite (Hgraph sample_graph eq_refl eq_refl eq_refl). reflexivity.
  - rewrite (Hfeatures sample_parks eq_refl eq_refl eq_refl). reflexivity.
Defined.

(** The house number does not change the verdict on "Rue de Rivoli 1". *)
Lemma house_number_does_not_count :
  sample_isalpha 49 = false /\
  PosterText.is_latin_script sample_isalpha
    ([82; 117; 101; 32; 100; 101; 32; 82; 105; 118; 111; 108; 105; 32]%N ++ [])
  = PosterText.is_latin_script sample_isalpha Rue_de_Rivoli_1.
Proof.
  split; [reflexivity |].
  destruct (only_letters_count sample_isalpha Rue_de_Rivoli_1) as (_ & Hdrop & _).
  apply (Hdrop _ [] 49%N); reflexivity.
Defined.

(** Two Latin names give a Latin text, two names in other scripts do
    not. *)
Lemma paris_zurich_and_tokyo_dubai :
  PosterText.is_latin_script sample_isalpha (Paris ++ Zurich) = true /\
  PosterText.is_latin_script sample_isalpha (Tokyo ++ Dubai) = false.
Proof.
  destruct (verdicts_add_up sample_isalpha Paris Zurich) as (Hlatin & _).
  destruct (verdicts_add_up sample_isalpha Tokyo Dubai) as (_ & Hother & _).
  split; [apply Hlatin | apply Hother]; reflexivity.
Defined.

(** A name tag changes neither the colour role nor the width of the
    tram on the motorway. *)
Lemma name_tag_does_not_matter :
  edge_color_key (<["name" := TagStr "A1"]> tram_on_motorway)
  = edge_color_key tram_on_motorway /\
  edge_width (<["name" := TagStr "A1"]> tram_on_motorway)
  = edge_width tram_on_motorway.
Proof.
  destruct (other_tags_do_not_matter tram_on_motorway "name" (TagStr "A1"))
    as (Hc & Hw & _); [discriminate | discriminate |].
  split; assumption.
Defined.

(** The theme without railway roles fails at the second edge of the
    sample graph, the first with a railway value. *)
Lemma roads_only_theme_stops_at_the_subway :
  get_edge_colors_by_type roads_only_theme sample_graph
  = Raises (KeyError "rail_heavy").
Proof.
  destruct (colours_need_the_roles_in_use roads_only_theme sample_graph)
    as (_ & Hfirst).
  rewrite (Hfirst [edge 1 2 [("highway", TagStr "primary")]] 2%Z 3%Z
             (list_to_map [("railway", TagList ["subway"; "service"])])
             (skipn 2 (graph_edges sample_graph))).
  - vm_compute. reflexivity.
  - reflexivity.
  - constructor; [| constructor]. vm_compute. eexists. reflexivity.
  - vm_compute. reflexivity.
Defined.

(** A 12 by 16 sheet and a 16 by 12 sheet, at 6000 metres. *)
Lemma portrait_and_landscape_at_6000 :
  let crop w h :=
    get_crop_limits (project_geometry (sample_env sample_services))
      sample_graph paris_point {| fig_width := w; fig_height := h |} 6000 in
  half_extent (fst (crop 16 12)) == half_extent (snd (crop 12 16)) /\
  half_extent (snd (crop 16 12)) == half_extent (fst (crop 12 16)).
Proof.
  destruct (crop_turns_with_the_sheet
              (project_geometry (sample_env sample_services)) sample_graph
              paris_point 12 16 6000) as (H1 & H2 & _);
    [reflexivity | reflexivity |].
  cbv zeta in *. split; assumption.
Defined.

(** The sample poster of Paris at 18000 metres shows 4500 metres across
    half its width and 6000 across half its height. *)
Lemma paris_at_18000 :
  exists xlim ylim,
    axis_limits (fst (paris_run sample_services 18000))
    = [Draw (SetXlim xlim); Draw (SetYlim ylim)] /\
    half_extent xlim == 18000 * 12 / (4 * Qmin 12 16) /\
    half_extent ylim == 18000 * 16 / (4 * Qmin 12 16).
Proof.
  apply (poster_shows_a_quarter_of_the_distance (sample_env sample_services)
           Paris France paris_point 18000 "posters/paris.png" "png" "keep_all"
           12 16 None None None None None).
  - reflexivity.
  - reflexivity.
  - vm_compute. reflexivity.
Defined.


(** The four lookups of the sample run. *)
Lemma paris_run_lookups :
  let cd := 18000 * (16 / 12) / 4 in
  cache_lookups (fst (paris_run sample_services 18000))
  = [GraphKey (fst paris_point) (snd paris_point) cd;
     FeaturesKey "water" (fst paris_point) (snd paris_point) cd "tags";
     FeaturesKey "parks" (fst paris_point) (snd paris_point) cd "tags";
     FeaturesKey "railways" (fst paris_point) (snd paris_point) cd "tags"].
Proof.
  destruct (four_lookups_in_order (sample_env sample_services)
              Paris France paris_point 18000 "posters/paris.png" "png"
              "keep_all" 12 16 None None None None None)
    as (Hreturns & _).
  destruct (Hreturns (18000 * (16 / 12) / 4) eq_refl) as (_ & _ & Hall).
  apply Hall. vm_compute. reflexivity.
Defined.

(** The texts of a poster of Paris without the country line. *)
Lemma paris_without_country :
  let run :=
    typography (sample_env sample_services) paris_point "no_country"
      Paris France 1 None in
  texts (fst run)
  = [(0.5, 0.14, Label (join [32; 32]%N
                         (map (fun c => [c]) (sample_upper Paris))));
     (0.5, 0.10, coords_label paris_point); (0.98, 0.02, Attribution)].
Proof.
  destruct (text_layouts (sample_env sample_services) paris_point "no_country"
              Paris France 1 None) as (_ & Hshown).
  destruct (Hshown "#8B4513") as (_ & _ & _ & _ & Hlayout & _);
    [vm_compute; reflexivity |].
  destruct (Hlayout eq_refl) as [Htexts _]. exact Htexts.
Defined.

(** A name of sixty characters is set at the floor. *)
Lemma sixty_characters_at_the_floor :
  adjusted_font_size sixty_characters 1 == 10 * 1.
Proof.
  destruct (title_size_range sixty_characters sixty_characters 1) as (_ & _ & H & _).
  - discriminate.
  - apply H. vm_compute. lia.
Defined.

(** The two fades of a viewport 4000 wide and 6000 high. *)
Lemma fades_of_a_4000_by_6000_viewport :
  let top := create_gradient_fade (0, 4000) (0, 6000) "#F5EDE4" "top" 10 in
  let bottom := create_gradient_fade (0, 4000) (0, 6000) "#F5EDE4" "bottom" 10 in
  snd (fade_extent bottom) - snd (fst (fade_extent bottom)) == (6000 - 0) / 4 /\
  snd (fade_extent top) == 6000.
Proof.
  destruct (fades_cover_the_outer_quarters (0, 4000) (0, 6000) "#F5EDE4" "top" 10)
    as (_ & _ & _ & Hb & Ht & _); [discriminate |].
  cbv zeta in *. split; assumption.
Defined.

(** The railway layer of the sample world: the rail group, then the
    tram group, which leaves its line width behind. *)
Lemma sample_railway_layer :
  drawn (fst (plot_railways (sample_env sample_services) sample_graph
                (Some sample_railways) 12))
  = map (fun tg => PlotLines (snd tg) (sample_theme !! rail_color_key (fst tg)) 1)
        (groupby_railway
           (project_layer (sample_env sample_services) sample_graph
              (of_type is_line sample_railways))) /\
  snd (plot_railways (sample_env sample_services) sample_graph
         (Some sample_railways) 12) = Returns 0.7.
Proof.
  destruct (railway_layer (sample_env sample_services) sample_graph
              (Some sample_railways) 12) as (Hwidth & _ & Hdrawn).
  split; [apply Hdrawn; vm_compute; discriminate |].
  rewrite Hwidth. reflexivity.
Defined.

(** The parks layer of the sample world. *)
Lemma sample_parks_layer :
  plot_polygon_layer (sample_env sample_services) sample_graph
    (Some sample_parks) "parks" 0.8
  = ([Draw (PlotPolygons
              (project_layer (sample_env sample_services) sample_graph
                 (of_type is_polygon sample_parks)) "#E8E0D0" 0.8)],
     Returns tt).
Proof.
  destruct (polygon_layer (sample_env sample_services) sample_graph
              (Some sample_parks) "parks" 0.8) as (_ & _ & Hdrawn & _).
  apply Hdrawn; [vm_compute; discriminate | vm_compute; reflexivity].
Defined.

(** Paris is found by the geocoder and written to the cache. *)
Lemma paris_is_geocoded :
  coords_cache_get sample_geocoder (text_lower Paris) (text_lower France)
  = Returns (Some paris_point) \/
  (coords_cache_get sample_geocoder (text_lower Paris) (text_lower France)
   = Returns None /\
   exists location,
     paris_point = (latitude location, longitude location) /\
     In (CoordsCacheSet (text_lower Paris) (text_lower France) paris_point)
        (fst (get_coordinates sample_geocoder Paris France)) /\
     (geocode sample_geocoder Paris France = Returns (Answer (Some location)) \/
      (geocode sample_geocoder Paris France = Returns Coroutine /\
       (asyncio_run sample_geocoder = Returns (Some location) \/
        run_until_complete sample_geocoder = Returns (Some location))))).
Proof.
  apply (coordinates_come_from_cache_or_geocoder sample_geocoder Paris France
           paris_point).
  vm_compute. reflexivity.
Defined.

(** Atlantis is not found. *)
Lemma atlantis_is_not_found :
  get_coordinates sample_geocoder Atlantis France
  = ([CoordsCacheGet (text_lower Atlantis) (text_lower France); Say LookingUp;
      Nap 1; GeocodeQuery Atlantis France],
     Fails (ValueError "Could not find coordinates for Atlantis, France")).
Proof.
  destruct (lookup_failures_are_value_errors sample_geocoder Atlantis France
              eq_refl) as (_ & Hnone).
  apply Hnone. reflexivity.
Defined.

(** A coroutine inside a running event loop, and one after which no
    event loop is left. *)
Lemma coroutine_with_and_without_loop :
  snd (get_coordinates (coroutine_geocoder (Returns true)) Paris France)
  = Fails loop_already_running /\
  snd (get_coordinates
         (coroutine_geocoder
            (Raises (RuntimeError "There is no current event loop")))
         Paris France)
  = Fails (RuntimeError "There is no current event loop").
Proof.
  destruct (failed_asyncio_run_ends_the_lookup (coroutine_geocoder (Returns true))
              Paris France eq_refl eq_refl) as (Hrunning & _).
  destruct (failed_asyncio_run_ends_the_lookup
              (coroutine_geocoder
                 (Raises (RuntimeError "There is no current event loop")))
              Paris France eq_refl eq_refl) as (Hnone & _).
  destruct (Hrunning _ eq_refl) as (_ & Hloop).
  destruct (Hnone _ eq_refl) as (Hraises & _).
  split; [apply Hloop; reflexivity | apply (Hraises _ eq_refl)].
Defined.

(** Paris from the cache, with Nominatim out of reach. *)
Lemma paris_from_the_cache :
  get_coordinates cached_geocoder Paris France
  = ([CoordsCacheGet (text_lower Paris) (text_lower France);
      Say (CachedCoordinates Paris France)], Goes paris_point).
Proof.
  destruct (pause_goes_with_the_query cached_geocoder Paris France)
    as (_ & _ & Hhit & _).
  apply Hhit. reflexivity.
Defined.

(** Without a country the script leaves with status 1 and has asked
    nobody. *)
Lemma no_country_no_work :
  snd (main (sample_installation sample_geocoder) 3 incomplete_args) = Exits 1 /\
  geocoder_steps (fst (main (sample_installation sample_geocoder) 3
                         incomplete_args)) = [] /\
  poster_events (fst (main (sample_installation sample_geocoder) 3
                        incomplete_args)) = [].
Proof.
  destruct (checks_come_first (sample_installation sample_geocoder) 3
              incomplete_args) as (Hrejected & _).
  destruct Hrejected as (_ & Hgeo & _ & Hposter & Hend); [reflexivity |].
  split; [exact Hend |]. split; assumption.
Defined.

(** One theme asked for, one theme loaded. *)
Lemma paris_in_terracotta :
  themes_loaded (fst (main (sample_installation sample_geocoder) 9 paris_args))
  = ["terracotta"].
Proof.
  destruct (themes_in_order_until_failure (sample_installation sample_geocoder)
              9 paris_args) as (_ & Hall).
  apply Hall. vm_compute. reflexivity.
Defined.

(** With the point on the command line nobody is asked where Atlantis
    is. *)
Lemma given_point_asks_nobody :
  geocoder_steps (fst (main (sample_installation sample_geocoder) 9
                         given_point_args)) = [].
Proof.
  destruct (one_lookup_for_all_themes (sample_installation sample_geocoder) 9
              given_point_args) as (_ & Hgiven).
  apply Hgiven. reflexivity.
Defined.
